(** * ISP Wellness Assistant: the deterministic scoring core

    A shallow embedding of the symptom-to-condition scoring code and the
    properties its specification states about it.

    Conventions of the embedding.
    - A JavaScript [number] is an exact rational ([Q]); comparisons,
      sums, products and quotients are the exact ones.  [undefined] for an
      optional number is [None].
    - A JavaScript string is a [string] of bytes; non-ASCII text is held in
      UTF-8, and [toLowerCase], [\s] and [\d] act on the ASCII range.
    - An object literal used as a table is the list of its entries in
      declaration order (what [Object.entries] enumerates); properties
      inherited from [Object.prototype] are not part of a table.
    - A [Map] is the list of its entries in insertion order. *)

From Stdlib Require Import String Ascii List Bool Arith ZArith QArith Qround Lia Lqa.
From Stdlib Require Import Numbers.DecimalString.
From Stdlib Require Import Sorted Permutation Qpower.
Import ListNotations.

Open Scope string_scope.
Open Scope Z_scope.

(* ================================================================== *)
(** ** JavaScript strings and regular expressions *)
(* ================================================================== *)

Module Js.

Definition isSpace (c : ascii) : bool :=
  let n := nat_of_ascii c in
  (Nat.eqb n 32 || (Nat.leb 9 n && Nat.leb n 13))%bool.

Definition isDigit (c : ascii) : bool :=
  let n := nat_of_ascii c in (Nat.leb 48 n && Nat.leb n 57)%bool.

Definition lowerChar (c : ascii) : ascii :=
  let n := nat_of_ascii c in
  if (Nat.leb 65 n && Nat.leb n 90)%bool then ascii_of_nat (n + 32) else c.

(** [s.toLowerCase()] *)
Fixpoint toLowerCase (s : string) : string :=
  match s with
  | EmptyString => EmptyString
  | String c s' => String (lowerChar c) (toLowerCase s')
  end.

(** [hay.startsWith(needle)] *)
Fixpoint startsWith (hay needle : string) : bool :=
  match needle, hay with
  | EmptyString, _ => true
  | String _ _, EmptyString => false
  | String b n', String a h' => (Ascii.eqb a b && startsWith h' n')%bool
  end.

(** [hay.includes(needle)] *)
Fixpoint includes (hay needle : string) : bool :=
  (startsWith hay needle ||
   match hay with
   | EmptyString => false
   | String _ h' => includes h' needle
   end)%bool.

Fixpoint trimStart (s : string) : string :=
  match s with
  | String c s' => if isSpace c then trimStart s' else s
  | EmptyString => EmptyString
  end.

(** [trimEnd] keeps a character when it is not a space or when something
    that is kept follows it. *)
Fixpoint trimEnd (s : string) : string :=
  match s with
  | EmptyString => EmptyString
  | String c s' =>
      match trimEnd s' with
      | EmptyString => if isSpace c then EmptyString else String c EmptyString
      | t => String c t
      end
  end.

(** [s.trim()] *)
Definition trim (s : string) : string := trimEnd (trimStart s).

(** [l.join(sep)] *)
Definition join (sep : string) (l : list string) : string := String.concat sep l.

(** [s.split(/[,;]|\n/)]: cut at every comma, semicolon and newline. *)
Definition isDelimiter (c : ascii) : bool :=
  let n := nat_of_ascii c in (Nat.eqb n 44 || Nat.eqb n 59 || Nat.eqb n 10)%bool.

Fixpoint splitAcc (s cur : string) : list string :=
  match s with
  | EmptyString => [cur]
  | String c s' =>
      if isDelimiter c then cur :: splitAcc s' EmptyString
      else splitAcc s' (cur ++ String c EmptyString)
  end.

Definition split (s : string) : list string := splitAcc s EmptyString.

(** The regular expressions of the sources.  Every one of them is built
    from literals, [\s*], [\s+], alternatives, optional parts and the one
    capturing group [(\d+)], and carries the flag [i]. *)
Inductive regex : Type :=
| Lit (s : string)
| Digits
| Spaces0
| Spaces1
| Alt (r1 r2 : regex)
| Seq (r1 r2 : regex)
| Opt (r : regex).

Section Matcher.
Context {A : Type}.

(** A greedy run of characters satisfying [p]: the longest run is tried
    first, and the matcher backs off one character at a time when the
    continuation [k] fails. *)
Fixpoint greedy (p : ascii -> bool) (s taken : string)
         (k : string -> string -> option A) : option A :=
  match s with
  | String c s' =>
      if p c then
        match greedy p s' (taken ++ String c EmptyString) k with
        | Some r => Some r
        | None => k taken s
        end
      else k taken s
  | EmptyString => k taken s
  end.

(** Case-insensitive literal: what is left of [s] after [lit]. *)
Fixpoint stripLit (lit s : string) : option string :=
  match lit, s with
  | EmptyString, _ => Some s
  | String _ _, EmptyString => None
  | String b lit', String a s' =>
      if Ascii.eqb (lowerChar a) (lowerChar b) then stripLit lit' s' else None
  end.

(** Backtracking match of [r] at the head of [s]; [cap] is group 1 so far
    and [k] is what remains to be matched. *)
Fixpoint matchAt (r : regex) (s : string) (cap : option string)
         (k : string -> option string -> option A) : option A :=
  match r with
  | Lit l => match stripLit l s with Some rest => k rest cap | None => None end
  | Digits =>
      greedy isDigit s EmptyString
        (fun taken rest =>
           match taken with
           | EmptyString => None
           | _ => k rest (Some taken)
           end)
  | Spaces0 => greedy isSpace s EmptyString (fun _ rest => k rest cap)
  | Spaces1 =>
      greedy isSpace s EmptyString
        (fun taken rest =>
           match taken with
           | EmptyString => None
           | _ => k rest cap
           end)
  | Alt r1 r2 =>
      match matchAt r1 s cap k with
      | Some x => Some x
      | None => matchAt r2 s cap k
      end
  | Seq r1 r2 => matchAt r1 s cap (fun rest cap' => matchAt r2 rest cap' k)
  | Opt r1 =>
      match matchAt r1 s cap k with
      | Some x => Some x
      | None => k s cap
      end
  end.
End Matcher.

(** [text.match(re)] for a regex without the flag [g]: the leftmost match;
    the result is [match[1]]. *)
Fixpoint regexMatch (r : regex) (text : string) : option (option string) :=
  match matchAt r text None (fun _ cap => Some cap) with
  | Some cap => Some cap
  | None =>
      match text with
      | EmptyString => None
      | String _ text' => regexMatch r text'
      end
  end.

Definition digitValue (c : ascii) : Z := Z.of_nat (nat_of_ascii c) - 48.

Fixpoint parseDigits (s : string) (acc : Z) : Z :=
  match s with
  | String c s' => if isDigit c then parseDigits s' (10 * acc + digitValue c) else acc
  | EmptyString => acc
  end.

Definition parseUnsigned (s : string) : option Z :=
  match s with
  | String c _ => if isDigit c then Some (parseDigits s 0) else None
  | EmptyString => None
  end.

(** [parseInt(s)] in base ten: leading white space, an optional sign and
    the longest run of digits; [None] is [NaN] (no digit there). *)
Definition parseInt (s : string) : option Z :=
  match trimStart s with
  | String "-" s' => option_map Z.opp (parseUnsigned s')
  | String "+" s' => parseUnsigned s'
  | s' => parseUnsigned s'
  end.

(** Truthiness of an optional number: [undefined], [NaN] and [0] are falsy. *)
Definition truthy (d : option Z) : bool :=
  match d with
  | Some n => negb (n =? 0)
  | None => false
  end.

(** [d && p(d)] used as a condition. *)
Definition andNum (d : option Z) (p : Z -> bool) : bool :=
  match d with
  | Some n => (negb (n =? 0) && p n)%bool
  | None => false
  end.

(** [d || dflt] *)
Definition orNum (d : option Z) (dflt : Z) : option Z :=
  if truthy d then d else Some dflt.

(** Decimal rendering of an integer, as a template literal prints it. *)
Definition showInt (z : Z) : string := NilZero.string_of_int (Z.to_int z).

(** No decimal digit occurs in [s]. *)
Fixpoint noDigit (s : string) : bool :=
  match s with
  | EmptyString => true
  | String c s' => (negb (isDigit c) && noDigit s')%bool
  end.

(** [tbl[key]] on a table, [m.get(key)] on a [Map]: the entry with that key. *)
Fixpoint lookup {V : Type} (tbl : list (string * V)) (key : string) : option V :=
  match tbl with
  | [] => None
  | (k, v) :: tbl' => if String.eqb k key then Some v else lookup tbl' key
  end.

(** [tbl[key] = v] and [m.set(key, v)]: an existing key keeps its position
    and takes the new value, a new key goes to the end. *)
Fixpoint setEntry {V : Type} (tbl : list (string * V)) (key : string) (v : V)
  : list (string * V) :=
  match tbl with
  | [] => [(key, v)]
  | (k, v0) :: tbl' =>
      if String.eqb k key then (k, v) :: tbl'
      else (k, v0) :: setEntry tbl' key v
  end.

(** An object literal evaluates its properties in order, so that a
    repeated key keeps its first position and takes the last value. *)
Definition objectLiteral {V : Type} (props : list (string * V)) : list (string * V) :=
  fold_left (fun tbl kv => setEntry tbl (fst kv) (snd kv)) props [].

End Js.

(* ================================================================== *)
(** ** JavaScript numbers *)
(* ================================================================== *)

Module JsNum.
Local Open Scope Q_scope.

Definition ltb (a b : Q) : bool := negb (Qle_bool b a).

(** [Math.min(a, b)] and [Math.max(a, b)] *)
Definition mathMin (a b : Q) : Q := if Qle_bool a b then a else b.
Definition mathMax (a b : Q) : Q := if Qle_bool a b then b else a.

(** [Math.max(...l, last)] *)
Definition maxOf (l : list Q) (last : Q) : Q := fold_right mathMax last l.

(** [Math.round(x)]: the nearest integer, halves upwards. *)
Definition mathRound (x : Q) : Z := Qfloor (x + (1 # 2)).

(** A count as a number. *)
Definition ofNat (n : nat) : Q := inject_Z (Z.of_nat n).

(** [l.sort(cmp)]: the sort is stable; [y] goes before an [x] that came
    earlier only when [cmp(x, y) > 0]. *)
Fixpoint insertCmp {A : Type} (cmp : A -> A -> Q) (x : A) (l : list A) : list A :=
  match l with
  | [] => [x]
  | y :: l' => if ltb 0 (cmp x y) then y :: insertCmp cmp x l' else x :: l
  end.

Definition sortCmp {A : Type} (cmp : A -> A -> Q) (l : list A) : list A :=
  fold_right (insertCmp cmp) [] l.

End JsNum.

(* ================================================================== *)
(** ** Time-course inference (src/client/timeInference.ts) *)
(* ================================================================== *)

Module TimeInference.
Import Js.

Inductive Pattern : Type := acute | relapsing | progressive | chronic | unknown.

Definition isUnknown (p : Pattern) : bool :=
  match p with unknown => true | _ => false end.

Record TimeCourseResult : Type := mkResult {
  duration_days : option Z;
  pattern : Pattern;
  interpretation : string;
  derived : bool
}.

(** [(\d+)\s*(?:<long>s?|<short>)] *)
Definition reAmount (long short : string) : regex :=
  Seq Digits (Seq Spaces0 (Alt (Seq (Lit long) (Opt (Lit "s"))) (Lit short))).

(** [(?:for|since|over|last)\s+(\d+)\s*(?:<long>s?|<short>)] *)
Definition reSince (long short : string) : regex :=
  Seq (Alt (Lit "for") (Alt (Lit "since") (Alt (Lit "over") (Lit "last"))))
      (Seq Spaces1 (reAmount long short)).

Definition durationPatterns : list (regex * Z) :=
  [ (reAmount "day" "d", 1);
    (reAmount "week" "w", 7);
    (reAmount "month" "mo", 30);
    (reAmount "year" "y", 365);
    (reSince "day" "d", 1);
    (reSince "week" "w", 7);
    (reSince "month" "mo", 30) ].

(** The loop of [extractDurationFromText]: the first pattern of the list
    that matches decides. *)
Fixpoint firstDuration (ps : list (regex * Z)) (text : string) : option Z :=
  match ps with
  | [] => None
  | (re, multiplier) :: ps' =>
      match regexMatch re text with
      | Some cap =>
          match cap with
          | Some digits => option_map (fun n => n * multiplier) (parseInt digits)
          | None => None
          end
      | None => firstDuration ps' text
      end
  end.

Definition extractDurationFromText (text : string) : option Z :=
  firstDuration durationPatterns text.

(** The explicit pattern keywords, in the order of the [if] chain. *)
Definition explicitPattern (text : string) (d : option Z) : Pattern :=
  if (includes text "relapsing" || includes text "comes and goes" ||
      includes text "waxing" || includes text "waning" ||
      includes text "on and off" || includes text "episodic")%bool
  then relapsing
  else if (includes text "progressive" || includes text "getting worse" ||
           includes text "worsening" || includes text "gradually worse")%bool
  then progressive
  else if (includes text "chronic" || includes text "long-term" ||
           includes text "persistent" || andNum d (fun n => n >? 90))%bool
  then chronic
  else if (includes text "sudden" || includes text "acute" ||
           andNum d (fun n => n <=? 14))%bool
  then acute
  else unknown.

Definition msgWeightLoss : string :=
  "Weight loss patterns typically develop over weeks to months, suggesting a chronic process.".
Definition msgCardiac : string :=
  "Cardiac symptoms with progression suggest a chronic progressive pattern.".
Definition msgTremor : string :=
  "Tremor with anxiety-like symptoms suggests a chronic endocrine or metabolic condition.".
Definition msgNeuro : string :=
  "Neurological symptoms suggest a chronic or progressive pattern.".
Definition msgDefault : string :=
  "Symptom pattern suggests a chronic condition. More specific timing information would improve accuracy.".

(** The block guarded by [pattern === 'unknown' || !duration_days]. *)
Definition inferRules (symptomsLower text : string) (r : TimeCourseResult)
  : TimeCourseResult :=
  let d := duration_days r in
  if (isUnknown (pattern r) || negb (truthy d))%bool then
    if includes symptomsLower "weight loss" then
      mkResult (orNum d 21) chronic msgWeightLoss true
    else if ((includes symptomsLower "palpitation" || includes symptomsLower "heart") &&
             (includes text "worse" || includes text "increase" ||
              includes text "frequent"))%bool then
      mkResult (orNum d 30) progressive msgCardiac true
    else if ((includes symptomsLower "tremor" || includes symptomsLower "shaking") &&
             (includes symptomsLower "anxiety" || includes symptomsLower "nervous"))%bool then
      mkResult (orNum d 60) chronic msgTremor true
    else if (includes symptomsLower "numbness" || includes symptomsLower "tingling" ||
             includes symptomsLower "weakness" ||
             includes symptomsLower "vision problem")%bool then
      mkResult (orNum d 45)
               (if (includes text "worse" || includes text "progress")%bool
                then progressive else chronic)
               msgNeuro true
    else if negb (truthy d) then
      mkResult (Some 30) chronic msgDefault true
    else
      mkResult d (pattern r) (interpretation r) true
  else r.

Definition durationSentence (d : option Z) : string :=
  match d with
  | Some n =>
      if n =? 0 then ""
      else if n >? 90 then
        "Symptoms have been present for over 3 months, suggesting a chronic condition."
      else if n >? 21 then
        "Symptoms lasting over 3 weeks suggest a chronic rather than acute condition."
      else if n >? 14 then
        "Symptoms lasting over 2 weeks suggest a chronic condition rather than an acute illness."
      else "Recent onset (within 2 weeks) may indicate an acute condition."
  | None => ""
  end.

Definition patternSentence (p : Pattern) : string :=
  match p with
  | relapsing => " Relapsing pattern suggests an autoimmune or episodic condition."
  | progressive => " Progressive pattern suggests a neurologic or degenerative condition."
  | chronic => " Chronic pattern suggests a long-standing condition."
  | _ => ""
  end.

(** The two [if (!interpretation)] blocks at the end. *)
Definition buildInterpretation (r : TimeCourseResult) : TimeCourseResult :=
  let built :=
    if String.eqb (interpretation r) "" then
      durationSentence (duration_days r) ++ patternSentence (pattern r)
    else interpretation r in
  mkResult (duration_days r) (pattern r)
           (if String.eqb built "" then msgDefault else built)
           (derived r).

Definition inferTimeCourse (symptoms answers : list string) : TimeCourseResult :=
  let text := toLowerCase (join " " symptoms ++ " " ++ join " " answers) in
  let symptomsLower := toLowerCase (join " " symptoms) in
  let d := extractDurationFromText text in
  let r0 := mkResult d (explicitPattern text d) "" false in
  buildInterpretation (inferRules symptomsLower text r0).

End TimeInference.


(* ================================================================== *)
(** ** Reference tables and their lookups
       (src/ai/medical-data/symptom-weights.ts, disease-database.ts) *)
(* ================================================================== *)

Module MedicalData.
Import Js.
Local Open Scope Q_scope.

(** [normalized.includes(key) || key.includes(normalized)] *)
Definition partialMatch (normalized key : string) : bool :=
  (includes normalized key || includes key normalized)%bool.

(** Truthiness of a number. *)
Definition nonzero (q : Q) : bool := negb (Qeq_bool q 0).

Record SymptomWeight : Type := mkWeight {
  severity_weight : Q;
  specificity_weight : Q
}.

Definition SYMPTOM_WEIGHTS : list (string * SymptomWeight) :=
  [ ("fever", mkWeight 0.7 0.3);
    ("headache", mkWeight 0.5 0.2);
    ("fatigue", mkWeight 0.6 0.2);
    ("weakness", mkWeight 0.7 0.3);
    ("pain", mkWeight 0.6 0.2);
    ("joint pain", mkWeight 0.6 0.4);
    ("muscle pain", mkWeight 0.5 0.3);
    ("chest pain", mkWeight 0.8 0.4);
    ("abdominal pain", mkWeight 0.7 0.3);
    ("back pain", mkWeight 0.6 0.2);
    ("dizziness", mkWeight 0.6 0.3);
    ("vertigo", mkWeight 0.7 0.5);
    ("numbness", mkWeight 0.7 0.5);
    ("tingling", mkWeight 0.6 0.4);
    ("vision problems", mkWeight 0.8 0.6);
    ("blurred vision", mkWeight 0.7 0.5);
    ("double vision", mkWeight 0.8 0.7);
    ("memory problems", mkWeight 0.7 0.4);
    ("confusion", mkWeight 0.8 0.5);
    ("seizures", mkWeight 0.9 0.7);
    ("weight loss", mkWeight 0.8 0.6);
    ("night sweats", mkWeight 0.7 0.7);
    ("swollen glands", mkWeight 0.6 0.5);
    ("rash", mkWeight 0.6 0.4);
    ("skin changes", mkWeight 0.5 0.4);
    ("cough", mkWeight 0.5 0.2);
    ("shortness of breath", mkWeight 0.8 0.4);
    ("difficulty breathing", mkWeight 0.9 0.5);
    ("nausea", mkWeight 0.5 0.2);
    ("vomiting", mkWeight 0.6 0.3);
    ("diarrhea", mkWeight 0.5 0.2);
    ("constipation", mkWeight 0.4 0.2);
    ("orthostatic dizziness", mkWeight 0.7 0.8);
    ("migratory joint pain", mkWeight 0.7 0.7);
    ("transient rash", mkWeight 0.6 0.6);
    ("dry eyes", mkWeight 0.4 0.5);
    ("dry mouth", mkWeight 0.4 0.5) ].

Definition getSymptomScore (symptom : string) : Q :=
  let normalizedSymptom := trim (toLowerCase symptom) in
  match lookup SYMPTOM_WEIGHTS normalizedSymptom with
  | Some weight => severity_weight weight * specificity_weight weight
  | None =>
      match find (fun kw => partialMatch normalizedSymptom (fst kw)) SYMPTOM_WEIGHTS with
      | Some (_, weight) => severity_weight weight * specificity_weight weight
      | None => 0.5 * 0.3
      end
  end.

Record DiseaseData : Type := mkDisease {
  name : string;
  cluster : list string;
  symptom_relevance_map : list (string * Q);
  description : string;
  webmd_search_term : string
}.

Definition DISEASE_DATABASE : list DiseaseData :=
  [ mkDisease "Systemic Lupus Erythematosus (SLE)"
      ["autoimmune"]
      [("fever", 0.7);
       ("fatigue", 0.8);
       ("joint pain", 0.8);
       ("rash", 0.7);
       ("chest pain", 0.6);
       ("hair loss", 0.6);
       ("mouth sores", 0.5)]
      "Autoimmune disease causing inflammation throughout the body, often with joint pain, skin rashes, and fatigue."
      "lupus";
    mkDisease "Rheumatoid Arthritis"
      ["autoimmune"]
      [("joint pain", 0.9);
       ("morning stiffness", 0.8);
       ("fatigue", 0.7);
       ("swollen joints", 0.9);
       ("fever", 0.4)]
      "Chronic autoimmune condition causing joint inflammation, pain, and stiffness, especially in the morning."
      "rheumatoid arthritis";
    mkDisease "Adult-Onset Still's Disease (AOSD)"
      ["autoimmune"]
      [("fever", 0.9);
       ("joint pain", 0.8);
       ("rash", 0.7);
       ("sore throat", 0.6);
       ("fatigue", 0.8);
       ("muscle pain", 0.7);
       ("migratory joint pain", 0.8);
       ("transient rash", 0.7)]
      "Rare inflammatory condition with high fevers, joint pain, and a characteristic salmon-colored rash."
      "adult still disease";
    mkDisease "Sjögren's Syndrome"
      ["autoimmune"]
      [("dry eyes", 0.9);
       ("dry mouth", 0.9);
       ("fatigue", 0.7);
       ("joint pain", 0.6);
       ("numbness", 0.5);
       ("vision problems", 0.6)]
      "Autoimmune disorder causing dry eyes and mouth, often with fatigue and joint pain."
      "sjogren syndrome";
    mkDisease "Systemic Vasculitis"
      ["autoimmune"]
      [("fever", 0.7);
       ("fatigue", 0.7);
       ("joint pain", 0.6);
       ("rash", 0.7);
       ("weight loss", 0.6);
       ("night sweats", 0.5);
       ("numbness", 0.5)]
      "Inflammation of blood vessels causing various symptoms depending on affected organs."
      "vasculitis";
    mkDisease "Sarcoidosis"
      ["autoimmune"]
      [("shortness of breath", 0.7);
       ("cough", 0.6);
       ("fatigue", 0.7);
       ("swollen glands", 0.6);
       ("rash", 0.5);
       ("joint pain", 0.5);
       ("vision problems", 0.4)]
      "Inflammatory disease causing small clusters of inflammatory cells in various organs."
      "sarcoidosis";
    mkDisease "Multiple Sclerosis (MS)"
      ["neurologic"]
      [("numbness", 0.8);
       ("tingling", 0.8);
       ("vision problems", 0.8);
       ("blurred vision", 0.7);
       ("double vision", 0.7);
       ("weakness", 0.7);
       ("dizziness", 0.6);
       ("fatigue", 0.7);
       ("balance problems", 0.7)]
      "Autoimmune disease affecting the central nervous system, causing various neurological symptoms."
      "multiple sclerosis";
    mkDisease "Guillain-Barré Syndrome (GBS)"
      ["neurologic"; "infectious"]
      [("weakness", 0.9);
       ("numbness", 0.8);
       ("tingling", 0.8);
       ("difficulty breathing", 0.7);
       ("pain", 0.6)]
      "Rare autoimmune disorder causing rapid-onset muscle weakness, often after an infection."
      "guillain barre syndrome";
    mkDisease "Adrenal Insufficiency"
      ["endocrine"]
      [("fatigue", 0.8);
       ("weakness", 0.7);
       ("weight loss", 0.6);
       ("dizziness", 0.7);
       ("orthostatic dizziness", 0.8);
       ("nausea", 0.5);
       ("abdominal pain", 0.5)]
      "Condition where adrenal glands don't produce enough hormones, causing fatigue and weakness."
      "adrenal insufficiency";
    mkDisease "Hyperthyroidism"
      ["endocrine"]
      [("weight loss", 0.7);
       ("fatigue", 0.6);
       ("anxiety", 0.6);
       ("sweating", 0.6);
       ("heart palpitations", 0.7)]
      "Overactive thyroid gland causing increased metabolism, weight loss, and anxiety."
      "hyperthyroidism";
    mkDisease "Hypothyroidism"
      ["endocrine"]
      [("fatigue", 0.8);
       ("weight gain", 0.7);
       ("weakness", 0.6);
       ("depression", 0.6);
       ("cold intolerance", 0.6)]
      "Underactive thyroid gland causing fatigue, weight gain, and slowed metabolism."
      "hypothyroidism";
    mkDisease "Pheochromocytoma"
      ["endocrine"]
      [("heart palpitations", 0.9);
       ("sweating", 0.8);
       ("anxiety", 0.7);
       ("tremor", 0.7);
       ("headache", 0.6);
       ("high blood pressure", 0.8)]
      "Rare tumor of adrenal glands causing episodic high blood pressure, palpitations, and sweating."
      "pheochromocytoma";
    mkDisease "Diabetes Mellitus Type 2"
      ["endocrine"; "metabolic/nutritional"]
      [("weight loss", 0.7);
       ("fatigue", 0.7);
       ("frequent urination", 0.9);
       ("excessive thirst", 0.9);
       ("blurred vision", 0.6)]
      "Metabolic disorder causing high blood sugar, often with increased urination, thirst, and weight loss."
      "diabetes type 2";
    mkDisease "Hyperparathyroidism"
      ["endocrine"]
      [("fatigue", 0.7);
       ("weakness", 0.6);
       ("depression", 0.5);
       ("bone pain", 0.6);
       ("kidney stones", 0.7)]
      "Overactive parathyroid glands causing high calcium levels, fatigue, and weakness."
      "hyperparathyroidism";
    mkDisease "Graves' Disease"
      ["endocrine"]
      [("weight loss", 0.8);
       ("heart palpitations", 0.9);
       ("anxiety", 0.8);
       ("tremor", 0.8);
       ("heat intolerance", 0.8);
       ("sweating", 0.7);
       ("fatigue", 0.6)]
      "Autoimmune cause of hyperthyroidism with weight loss, rapid heartbeat, and anxiety."
      "graves disease";
    mkDisease "POTS (Postural Orthostatic Tachycardia Syndrome)"
      ["autonomic dysfunction"]
      [("dizziness", 0.8);
       ("orthostatic dizziness", 0.9);
       ("fatigue", 0.7);
       ("heart palpitations", 0.7);
       ("numbness", 0.5);
       ("brain fog", 0.6)]
      "Condition causing rapid heart rate and dizziness when standing, often with fatigue."
      "pots syndrome";
    mkDisease "Autonomic Dysfunction"
      ["autonomic dysfunction"]
      [("orthostatic dizziness", 0.8);
       ("dizziness", 0.7);
       ("numbness", 0.6);
       ("fatigue", 0.6);
       ("heart palpitations", 0.6)]
      "Dysfunction of the autonomic nervous system affecting heart rate, blood pressure, and other automatic functions."
      "autonomic dysfunction";
    mkDisease "Lymphoma"
      ["malignancy/hematologic"]
      [("swollen glands", 0.8);
       ("weight loss", 0.8);
       ("night sweats", 0.8);
       ("fever", 0.7);
       ("fatigue", 0.7);
       ("itching", 0.5)]
      "Cancer of the lymphatic system, often presenting with swollen lymph nodes, weight loss, and night sweats."
      "lymphoma";
    mkDisease "Chronic EBV Infection"
      ["infectious"]
      [("fatigue", 0.8);
       ("fever", 0.6);
       ("swollen glands", 0.7);
       ("sore throat", 0.6);
       ("night sweats", 0.5)]
      "Persistent Epstein-Barr virus infection causing chronic fatigue and other symptoms."
      "epstein barr virus";
    mkDisease "Chronic CMV Infection"
      ["infectious"]
      [("fatigue", 0.7);
       ("fever", 0.6);
       ("swollen glands", 0.6);
       ("night sweats", 0.5)]
      "Persistent cytomegalovirus infection causing fatigue and flu-like symptoms."
      "cmv infection";
    mkDisease "Tuberculosis (TB)"
      ["infectious"]
      [("cough", 0.8);
       ("weight loss", 0.7);
       ("night sweats", 0.8);
       ("fever", 0.7);
       ("fatigue", 0.7);
       ("chest pain", 0.6)]
      "Bacterial infection primarily affecting the lungs, causing persistent cough, weight loss, and night sweats."
      "tuberculosis";
    mkDisease "Vitamin B12 Deficiency"
      ["metabolic/nutritional"]
      [("fatigue", 0.7);
       ("weakness", 0.6);
       ("numbness", 0.7);
       ("tingling", 0.7);
       ("memory problems", 0.5)]
      "Deficiency causing fatigue, neurological symptoms, and anemia."
      "b12 deficiency";
    mkDisease "Iron Deficiency Anemia"
      ["metabolic/nutritional"]
      [("fatigue", 0.8);
       ("weakness", 0.7);
       ("shortness of breath", 0.6);
       ("dizziness", 0.6)]
      "Low iron levels causing fatigue, weakness, and shortness of breath."
      "iron deficiency anemia" ].

(** The body shared by both relevance lookups: the exact entry is taken
    only when its value is truthy. *)
Definition relevanceIn (map : list (string * Q)) (normalizedSymptom : string) : Q :=
  match lookup map normalizedSymptom with
  | Some v =>
      if nonzero v then v
      else match find (fun kv => partialMatch normalizedSymptom (fst kv)) map with
           | Some (_, value) => value
           | None => 0
           end
  | None =>
      match find (fun kv => partialMatch normalizedSymptom (fst kv)) map with
      | Some (_, value) => value
      | None => 0
      end
  end.

Definition getDiseaseRelevanceFactor (diseaseName symptom : string) : Q :=
  match find (fun d => String.eqb (name d) diseaseName) DISEASE_DATABASE with
  | None => 0
  | Some disease =>
      relevanceIn (symptom_relevance_map disease) (trim (toLowerCase symptom))
  end.

End MedicalData.

(* ================================================================== *)
(** ** Red-flag detection (red-flag-detection.ts) *)
(* ================================================================== *)

Module RedFlagDetection.
Import Js.
Local Open Scope Q_scope.

Record RedFlag : Type := mkRedFlag {
  name : string;
  detected : bool;
  severity : Q
}.

Record RedFlagMultipliers : Type := mkMultipliers {
  malignancy_multiplier : Q;
  chronic_infection_multiplier : Q;
  MS_multiplier : Q;
  dysautonomia_multiplier : Q;
  adrenal_insufficiency_multiplier : Q;
  autoimmune_multiplier : Q
}.

(** The two locals that the rules of [detectRedFlags] update in place. *)
Record Detection : Type := mkDetection {
  redFlags : list RedFlag;
  multipliers : RedFlagMultipliers
}.

Definition initialMultipliers : RedFlagMultipliers :=
  mkMultipliers 1.0 1.0 1.0 1.0 1.0 1.0.

(** [(?:kg|kilograms?|pounds?|lbs)] *)
Definition reUnit : regex :=
  Alt (Lit "kg")
      (Alt (Seq (Lit "kilogram") (Opt (Lit "s")))
           (Alt (Seq (Lit "pound") (Opt (Lit "s"))) (Lit "lbs"))).

Definition weightLossPatterns : list regex :=
  [ Seq (Alt (Lit "lost") (Lit "losing"))
        (Seq Spaces1 (Seq Digits (Seq Spaces0 reUnit)));
    Seq (Lit "weight")
        (Seq Spaces1 (Seq (Lit "loss") (Seq Spaces1 (Seq (Lit "of")
        (Seq Spaces1 (Seq Digits (Seq Spaces0 reUnit)))))));
    Seq Digits
        (Seq Spaces0 (Seq reUnit (Seq Spaces1
        (Seq (Opt (Seq (Lit "weight") Spaces1)) (Lit "loss"))))) ].

(** The [for] loop over [weightLossPatterns]: the first pattern that
    matches sets the amount and ends the loop. *)
Fixpoint firstAmount (ps : list regex) (text : string) : Q :=
  match ps with
  | [] => 0
  | re :: ps' =>
      match regexMatch re text with
      | Some cap =>
          match match cap with Some digits => parseInt digits | None => None end with
          | Some value =>
              if (includes text "pound" || includes text "lb")%bool
              then inject_Z value * 0.453592
              else inject_Z value
          | None => 0
          end
      | None => firstAmount ps' text
      end
  end.

Definition weightLossAmount (text : string) : Q :=
  let amount := firstAmount weightLossPatterns text in
  if (Qeq_bool amount 0 &&
      (includes text "significant weight loss" ||
       includes text "a lot of weight" ||
       includes text "unintentional weight loss"))%bool
  then 3 else amount.

Definition hasNeuroSymptoms (text : string) : bool :=
  (includes text "numbness" || includes text "tingling" ||
   includes text "weakness" || includes text "balance problem")%bool.

Definition hasVisualChanges (text : string) : bool :=
  (includes text "vision" || includes text "blurred" ||
   includes text "double vision" || includes text "visual")%bool.

Definition flagged (flagName : string) (st : Detection) : bool :=
  existsb (fun rf => String.eqb (name rf) flagName) (redFlags st).

Definition ruleWeightLoss (text : string) (st : Detection) : Detection :=
  if (includes text "weight loss" || includes text "lost weight")%bool then
    let amount := weightLossAmount text in
    if Qle_bool 2 amount then
      let m := multipliers st in
      mkDetection
        (redFlags st ++ [mkRedFlag "Significant Weight Loss" true (JsNum.mathMin (amount / 5) 1.0)])
        (mkMultipliers (malignancy_multiplier m + 1.5)
                       (chronic_infection_multiplier m) (MS_multiplier m)
                       (dysautonomia_multiplier m)
                       (adrenal_insufficiency_multiplier m) (autoimmune_multiplier m))
    else st
  else st.

Definition ruleNightSweats (text : string) (st : Detection) : Detection :=
  if (includes text "night sweat" || includes text "sweating at night" ||
      includes text "drenching sweat" || includes text "soaked at night")%bool then
    let m := multipliers st in
    mkDetection
      (redFlags st ++ [mkRedFlag "Night Sweats" true 0.8])
      (mkMultipliers (malignancy_multiplier m + 1.4)
                     (chronic_infection_multiplier m + 1.4) (MS_multiplier m)
                     (dysautonomia_multiplier m)
                     (adrenal_insufficiency_multiplier m) (autoimmune_multiplier m))
  else st.

Definition ruleNeuroVisual (text : string) (st : Detection) : Detection :=
  if (hasNeuroSymptoms text && hasVisualChanges text)%bool then
    let m := multipliers st in
    mkDetection
      (redFlags st ++ [mkRedFlag "Neurological + Visual Symptoms" true 0.9])
      (mkMultipliers (malignancy_multiplier m)
                     (chronic_infection_multiplier m) (MS_multiplier m + 1.6)
                     (dysautonomia_multiplier m)
                     (adrenal_insufficiency_multiplier m) (autoimmune_multiplier m))
  else st.

Definition ruleOrthostatic (text : string) (st : Detection) : Detection :=
  if (includes text "orthostatic" ||
      (includes text "dizziness" && includes text "standing") ||
      (includes text "dizzy" && (includes text "stand" || includes text "up")))%bool then
    let m := multipliers st in
    mkDetection
      (redFlags st ++ [mkRedFlag "Orthostatic Dizziness" true 0.7])
      (mkMultipliers (malignancy_multiplier m)
                     (chronic_infection_multiplier m) (MS_multiplier m)
                     (dysautonomia_multiplier m + 1.4)
                     (adrenal_insufficiency_multiplier m + 1.3) (autoimmune_multiplier m))
  else st.

Definition ruleOrthostaticNeuro (text : string) (st : Detection) : Detection :=
  if (flagged "Orthostatic Dizziness" st && hasNeuroSymptoms text)%bool then
    let m := multipliers st in
    mkDetection
      (redFlags st)
      (mkMultipliers (malignancy_multiplier m)
                     (chronic_infection_multiplier m) (MS_multiplier m)
                     (dysautonomia_multiplier m + 0.3)
                     (adrenal_insufficiency_multiplier m + 0.2) (autoimmune_multiplier m))
  else st.

(** [detectRedFlags(symptoms, answers, profile)]; the profile is not read. *)
Definition detectRedFlags (symptoms : string) (answers : list string) : Detection :=
  let text := toLowerCase (symptoms ++ " " ++ join " " answers) in
  let st := mkDetection [] initialMultipliers in
  let st := ruleWeightLoss text st in
  let st := ruleNightSweats text st in
  let st := ruleNeuroVisual text st in
  let st := ruleOrthostatic text st in
  ruleOrthostaticNeuro text st.

Definition isMalignancy (diseaseName : string) : bool :=
  (includes diseaseName "Lymphoma" || includes diseaseName "Cancer")%bool.
Definition isChronicInfection (diseaseName : string) : bool :=
  (includes diseaseName "EBV" || includes diseaseName "CMV" ||
   includes diseaseName "Tuberculosis" || includes diseaseName "TB" ||
   includes diseaseName "Chronic Infection")%bool.
Definition isMS (diseaseName : string) : bool :=
  (includes diseaseName "Multiple Sclerosis" || includes diseaseName "MS")%bool.
Definition isDysautonomia (diseaseName : string) : bool :=
  (includes diseaseName "POTS" || includes diseaseName "Autonomic Dysfunction")%bool.
Definition isAdrenal (diseaseName : string) : bool :=
  includes diseaseName "Adrenal Insufficiency".
Definition isAutoimmune (diseaseName : string) : bool :=
  (includes diseaseName "Lupus" || includes diseaseName "Rheumatoid" ||
   includes diseaseName "Still" || includes diseaseName "Sj√∂gren" ||
   includes diseaseName "Vasculitis" || includes diseaseName "Sarcoidosis")%bool.

(** [applyRedFlagMultipliers]: the running [multiplier *= ...]. *)
Definition applyRedFlagMultipliers (diseaseName : string) (m : RedFlagMultipliers) : Q :=
  let multiplier := 1.0 in
  let multiplier :=
    if isMalignancy diseaseName then multiplier * malignancy_multiplier m else multiplier in
  let multiplier :=
    if isChronicInfection diseaseName
    then multiplier * chronic_infection_multiplier m else multiplier in
  let multiplier :=
    if isMS diseaseName then multiplier * MS_multiplier m else multiplier in
  let multiplier :=
    if isDysautonomia diseaseName
    then multiplier * dysautonomia_multiplier m else multiplier in
  let multiplier :=
    if isAdrenal diseaseName
    then multiplier * adrenal_insufficiency_multiplier m else multiplier in
  let multiplier :=
    if isAutoimmune diseaseName then multiplier * autoimmune_multiplier m else multiplier in
  multiplier.

End RedFlagDetection.

(* ================================================================== *)
(** ** The client-side scorer (src/client/scoring.ts) *)
(* ================================================================== *)

Module Scoring.
Import Js JsNum.
Import MedicalData.
Local Open Scope Q_scope.

Record ConditionResult : Type := mkCondition {
  condition : string;
  likelihood : Q;
  displayLikelihood : string;
  c_description : string;
  c_webmd_search_term : string;
  c_cluster : list string;
  explanation : string
}.

Record RedFlags : Type := mkRedFlags { flags : list string; urgent : bool }.

Record Scored : Type := mkScored {
  conditions : list ConditionResult;
  redFlags : RedFlags;
  label : option string
}.

Definition closeCallLabel : string := "Close call — consider more information".

Section Client.
(** The two imported tables, [symptomWeights.json] and [diseases.json]. *)
Variable symptomWeightsData : list (string * SymptomWeight).
Variable diseasesData : list DiseaseData.

Definition getSymptomScore (symptom : string) : Q :=
  let normalized := trim (toLowerCase symptom) in
  match lookup symptomWeightsData normalized with
  | Some w => severity_weight w * specificity_weight w
  | None =>
      match find (fun kw => partialMatch normalized (fst kw)) symptomWeightsData with
      | Some (_, weight) => severity_weight weight * specificity_weight weight
      | None => 0.5 * 0.3
      end
  end.

Definition getDiseaseRelevance (disease : DiseaseData) (symptom : string) : Q :=
  relevanceIn (symptom_relevance_map disease) (trim (toLowerCase symptom)).

Definition applyConditionFiltering (symptoms : list string) : list string :=
  let symptomsLower := toLowerCase (join " " symptoms) in
  let priorityConditions : list string := [] in
  let priorityConditions :=
    if (includes symptomsLower "weight loss" &&
        (includes symptomsLower "heat" || includes symptomsLower "sweating") &&
        (includes symptomsLower "palpitation" || includes symptomsLower "heart"))%bool
    then (priorityConditions ++ ["Hyperthyroidism"; "Graves' Disease"; "Pheochromocytoma"])%list
    else priorityConditions in
  let priorityConditions :=
    if ((includes symptomsLower "frequent urination" ||
         includes symptomsLower "excessive thirst") &&
        includes symptomsLower "weight loss")%bool
    then (priorityConditions ++ ["Diabetes Mellitus Type 2"])%list
    else priorityConditions in
  let priorityConditions :=
    if ((includes symptomsLower "numbness" || includes symptomsLower "tingling" ||
         includes symptomsLower "weakness") &&
        (includes symptomsLower "dizziness" || includes symptomsLower "orthostatic"))%bool
    then (priorityConditions ++
          ["Multiple Sclerosis (MS)";
           "POTS (Postural Orthostatic Tachycardia Syndrome)";
           "Autonomic Dysfunction"])%list
    else priorityConditions in
  priorityConditions.

Definition checkRedFlags (symptoms : list string) : RedFlags :=
  let text := toLowerCase (join " " symptoms) in
  let st := mkRedFlags [] false in
  let st :=
    if (includes text "chest pain" &&
        (includes text "syncope" || includes text "fainting" ||
         (includes text "severe" && includes text "breathing")))%bool
    then mkRedFlags (flags st ++ ["Chest pain with syncope or severe breathing difficulty"])%list
                    true
    else st in
  let st :=
    if (includes text "weight loss" && includes text "night sweat")%bool
    then mkRedFlags (flags st ++ ["Unintentional weight loss with night sweats"])%list true
    else st in
  st.

(** [priorityConditions.includes(name)] *)
Definition listIncludes (l : list string) (x : string) : bool :=
  existsb (String.eqb x) l.

(** The inner [symptoms.forEach]: the running [(rawScore, matchedSymptomCount)]. *)
Definition accumulate (disease : DiseaseData) (symptoms : list string) : Q * nat :=
  fold_left
    (fun acc symptom =>
       let symptomScore := getSymptomScore symptom in
       let relevance := getDiseaseRelevance disease symptom in
       if ltb 0 relevance
       then (fst acc + relevance * symptomScore, S (snd acc))
       else acc)
    symptoms (0, O).

Definition symptomMatchRatio (disease : DiseaseData) (symptoms : list string) : Q :=
  ofNat (snd (accumulate disease symptoms)) / ofNat (Nat.max (length symptoms) 1).

(** The body of [diseaseList.forEach] in [calculateDiseaseScores]. *)
Definition scoreDisease (symptoms priorityConditions : list string)
           (diseaseScores : list (string * Q)) (disease : DiseaseData)
  : list (string * Q) :=
  let rawScore := fst (accumulate disease symptoms) in
  if (ltb (symptomMatchRatio disease symptoms) 0.15 &&
      negb (listIncludes priorityConditions (name disease)))%bool
  then diseaseScores
  else
    let rawScore :=
      if listIncludes priorityConditions (name disease)
      then rawScore * 1.3 else rawScore in
    setEntry diseaseScores (name disease) rawScore.

Definition calculateDiseaseScores (symptoms answers : list string)
  : list (string * Q) :=
  let priorityConditions := applyConditionFiltering symptoms in
  fold_left (scoreDisease symptoms priorityConditions) diseasesData [].

Definition normalizeScores (scores : list (string * Q)) : list (string * Q) :=
  let maxScore := maxOf (map snd scores) 0.001 in
  if Qeq_bool maxScore 0 then scores
  else
    fold_left (fun normalized e => setEntry normalized (fst e) (snd e / maxScore))
              scores [].

Definition clampDisplayScore (score : Q) : option (Q * string) :=
  if Qeq_bool score 0 then None
  else
    let clampedScore := if ltb score 0.05 then 0.05 else score in
    if ltb clampedScore 0.10
    then Some (clampedScore, "Low likelihood (<10%)")
    else Some (clampedScore, showInt (mathRound (clampedScore * 100)) ++ "%").

Definition getDisplayConditions (conditions : list ConditionResult)
  : list ConditionResult * option string :=
  match conditions with
  | [] => ([], None)
  | _ =>
      let orZero (c : option ConditionResult) : Q :=
        match c with
        | Some c => if nonzero (likelihood c) then likelihood c else 0
        | None => 0
        end in
      let topScore := orZero (nth_error conditions 0) in
      let secondScore := orZero (nth_error conditions 1) in
      let scoreDiff := topScore - secondScore in
      let n := if ltb topScore 0.40 then 3%nat else 5%nat in
      if (ltb scoreDiff 0.10 && Nat.ltb 1 (length conditions))%bool
      then (firstn 3 conditions, Some closeCallLabel)
      else (firstn n conditions, None)
  end.

(** The body of [normalizedScores.forEach] in [scoreSymptoms]. *)
Definition pushCondition (symptoms : list string) (conditions : list ConditionResult)
           (entry : string * Q) : list ConditionResult :=
  let (diseaseName, score) := entry in
  match clampDisplayScore score with
  | None => conditions
  | Some (clampedScore, display) =>
      match find (fun d => String.eqb (name d) diseaseName) diseasesData with
      | None => conditions
      | Some disease =>
          let matchedSymptoms :=
            filter (fun s => ltb 0 (getDiseaseRelevance disease s)) symptoms in
          let explanation :=
            "This condition may be considered based on " ++
            join " and " (firstn 2 matchedSymptoms) ++
            (if Nat.ltb 2 (length matchedSymptoms) then " and other symptoms" else "") ++
            "." in
          (conditions ++
             [mkCondition diseaseName clampedScore display (description disease)
                          (webmd_search_term disease) (cluster disease) explanation])%list
      end
  end.

Definition scoreSymptoms (symptoms answers : list string) : Scored :=
  let redFlags := checkRedFlags symptoms in
  let rawScores := calculateDiseaseScores symptoms answers in
  let normalizedScores := normalizeScores rawScores in
  let conditions := fold_left (pushCondition symptoms) normalizedScores [] in
  let conditions := sortCmp (fun a b => likelihood b - likelihood a) conditions in
  let (displayConditions, label) := getDisplayConditions conditions in
  mkScored displayConditions redFlags label.

End Client.



End Scoring.

(* ================================================================== *)
(** ** Time-course logic of the advanced pipeline (time-course-logic.ts) *)
(* ================================================================== *)

Module TimeCourseLogic.
Import Js JsNum.
Import TimeInference.
Local Open Scope Q_scope.

Record TimeCourseData : Type := mkTimeCourse {
  tc_duration_days : option Z;
  tc_pattern : Pattern;
  tc_derived : bool
}.

Record DiseaseScoreAdjustment : Type := mkAdjustment {
  diseaseName : string;
  multiplier : Q;
  reason : string
}.

Definition acuteDiseases : list string :=
  ["Guillain-Barré Syndrome (GBS)"; "Acute Infection"].

Definition chronicDiseases : list string :=
  ["Systemic Lupus Erythematosus (SLE)"; "Rheumatoid Arthritis";
   "Adult-Onset Still's Disease (AOSD)"; "Sjögren's Syndrome";
   "Systemic Vasculitis"; "Sarcoidosis"; "Multiple Sclerosis (MS)";
   "Chronic EBV Infection"; "Chronic CMV Infection"; "Tuberculosis (TB)";
   "Lymphoma"].

Definition autoimmuneDiseases : list string :=
  ["Systemic Lupus Erythematosus (SLE)"; "Rheumatoid Arthritis";
   "Adult-Onset Still's Disease (AOSD)"; "Sjögren's Syndrome";
   "Systemic Vasculitis"; "Sarcoidosis"; "Multiple Sclerosis (MS)"].

Definition neurologicDiseases : list string :=
  ["Multiple Sclerosis (MS)"; "Guillain-Barré Syndrome (GBS)"].

(** [list.some(d => diseaseName.includes(d))] *)
Definition someIncluded (list : list string) (diseaseName : string) : bool :=
  existsb (fun d => includes diseaseName d) list.

(** The body of [diseaseNames.forEach]: the running multiplier and reasons. *)
Definition adjust (duration : Z) (pattern : Pattern) (diseaseName : string)
  : Q * list string :=
  let st : Q * list string := (1.0, []) in
  let st :=
    if (duration >? 14)%Z then
      let st :=
        if someIncluded acuteDiseases diseaseName
        then (fst st * 0.5, (snd st ++ ["symptoms too long for acute condition"])%list)
        else st in
      if someIncluded chronicDiseases diseaseName
      then (fst st * 1.3, (snd st ++ ["symptoms duration suggests chronic condition"])%list)
      else st
    else if ((duration >? 0)%Z && (duration <=? 14)%Z)%bool then
      if someIncluded acuteDiseases diseaseName
      then (fst st * 1.2, (snd st ++ ["symptoms duration suggests acute condition"])%list)
      else st
    else st in
  let st :=
    match pattern with
    | relapsing =>
        if someIncluded autoimmuneDiseases diseaseName
        then (fst st * 1.4,
              (snd st ++ ["relapsing pattern suggests autoimmune condition"])%list)
        else st
    | _ => st
    end in
  let st :=
    match pattern with
    | progressive =>
        if someIncluded neurologicDiseases diseaseName
        then (fst st * 1.3,
              (snd st ++ ["progressive pattern suggests neurologic condition"])%list)
        else st
    | _ => st
    end in
  st.

Definition applyTimeCourseLogic (timeCourse : TimeCourseData) (diseaseNames : list string)
  : list DiseaseScoreAdjustment :=
  let duration :=
    match orNum (tc_duration_days timeCourse) 0 with Some n => n | None => 0%Z end in
  let pattern := tc_pattern timeCourse in
  fold_left
    (fun adjustments diseaseName =>
       let (multiplier, reasons) := adjust duration pattern diseaseName in
       if negb (Qeq_bool multiplier 1.0)
       then (adjustments ++ [mkAdjustment diseaseName multiplier (join "; " reasons)])%list
       else adjustments)
    diseaseNames [].

Definition durationPatterns : list (regex * Z) :=
  [ (reAmount "day" "d", 1%Z);
    (reAmount "week" "w", 7%Z);
    (reAmount "month" "mo", 30%Z);
    (reAmount "year" "y", 365%Z);
    (reSince "day" "d", 1%Z);
    (reSince "week" "w", 7%Z);
    (reSince "month" "mo", 30%Z);
    (reSince "year" "y", 365%Z) ].

(** The inference block under [if (pattern === 'unknown')]: five
    successive [if]s over the three locals. *)
Definition inferFromSymptoms (symptomsLower text : string) (tc : TimeCourseData)
  : TimeCourseData :=
  let tc :=
    if (includes symptomsLower "weight loss" && negb (truthy (tc_duration_days tc)))%bool
    then mkTimeCourse (Some 21%Z) chronic true else tc in
  let tc :=
    if ((includes symptomsLower "palpitation" || includes symptomsLower "heart") &&
        (includes text "worse" || includes text "increase" ||
         includes text "frequent"))%bool
    then mkTimeCourse (orNum (tc_duration_days tc) 30) progressive true else tc in
  let tc :=
    if ((includes symptomsLower "tremor" || includes symptomsLower "shaking") &&
        (includes symptomsLower "anxiety" || includes symptomsLower "nervous" ||
         includes symptomsLower "panic"))%bool
    then mkTimeCourse (orNum (tc_duration_days tc) 60) chronic true else tc in
  let tc :=
    if (includes symptomsLower "numbness" || includes symptomsLower "tingling" ||
        includes symptomsLower "weakness" || includes symptomsLower "vision problem")%bool
    then mkTimeCourse (orNum (tc_duration_days tc) 45)
                      (if (includes text "worse" || includes text "progress")%bool
                       then progressive else chronic)
                      true
    else tc in
  let tc :=
    match tc_duration_days tc with
    | Some n =>
        if (isUnknown (tc_pattern tc) && negb (n =? 0)%Z)%bool
        then mkTimeCourse (Some n)
                          (if (n >? 90)%Z then chronic
                           else if (n >? 21)%Z then chronic
                           else if (n >? 14)%Z then chronic
                           else acute)
                          true
        else tc
    | None => tc
    end in
  tc.

Definition extractTimeCourseData (symptoms : string) (answers : list string)
  : TimeCourseData :=
  let text := toLowerCase (symptoms ++ " " ++ join " " answers) in
  let symptomsLower := toLowerCase symptoms in
  let duration_days := firstDuration durationPatterns text in
  let pattern := explicitPattern text duration_days in
  let tc := mkTimeCourse duration_days pattern false in
  if isUnknown pattern then inferFromSymptoms symptomsLower text tc else tc.

End TimeCourseLogic.

(* ================================================================== *)
(** ** Pattern detection (pattern-detection.ts) *)
(* ================================================================== *)

Module PatternDetection.
Import Js.
Local Open Scope Q_scope.

Record PatternMatch : Type := mkPattern {
  pattern : string;
  detected : bool;
  diseases : list string;
  multiplier : Q
}.

Definition detectPatterns (symptoms : string) (answers : list string)
  : list PatternMatch :=
  let text := toLowerCase (symptoms ++ " " ++ join " " answers) in
  let patterns : list PatternMatch := [] in
  let hasMigratoryJointPain :=
    (includes text "migratory joint" ||
     (includes text "joint pain" &&
      (includes text "moving" || includes text "different joints")))%bool in
  let hasTransientRash :=
    (includes text "transient rash" ||
     (includes text "rash" &&
      (includes text "comes and goes" || includes text "appears and disappears")))%bool in
  let patterns :=
    if (hasMigratoryJointPain && hasTransientRash)%bool
    then (patterns ++
          [mkPattern "Migratory Joint Pain + Transient Rash" true
             ["Systemic Lupus Erythematosus (SLE)"; "Systemic Vasculitis";
              "Adult-Onset Still's Disease (AOSD)"] 1.5])%list
    else patterns in
  let hasNeuroSymptoms :=
    (includes text "numbness" || includes text "tingling" ||
     includes text "weakness" || includes text "balance problem")%bool in
  let hasVisualSymptoms :=
    (includes text "vision problem" || includes text "blurred vision" ||
     includes text "double vision" || includes text "visual change")%bool in
  let patterns :=
    if (hasNeuroSymptoms && hasVisualSymptoms)%bool
    then (patterns ++
          [mkPattern "Neurological + Visual Symptoms" true
             ["Multiple Sclerosis (MS)"; "Sjögren's Syndrome"] 1.4])%list
    else patterns in
  let hasWeightLoss := (includes text "weight loss" || includes text "lost weight")%bool in
  let hasNightSweats :=
    (includes text "night sweat" || includes text "sweating at night")%bool in
  let patterns :=
    if (hasWeightLoss && hasNightSweats)%bool
    then (patterns ++
          [mkPattern "Weight Loss + Night Sweats" true
             ["Lymphoma"; "Chronic EBV Infection"; "Chronic CMV Infection";
              "Tuberculosis (TB)"] 1.6])%list
    else patterns in
  let hasOrthostaticDizziness :=
    (includes text "orthostatic" ||
     (includes text "dizziness" && includes text "standing"))%bool in
  let hasNumbness := (includes text "numbness" || includes text "tingling")%bool in
  let patterns :=
    if (hasOrthostaticDizziness && hasNumbness)%bool
    then (patterns ++
          [mkPattern "Orthostatic Dizziness + Numbness" true
             ["POTS (Postural Orthostatic Tachycardia Syndrome)";
              "Autonomic Dysfunction"; "Adrenal Insufficiency"] 1.5])%list
    else patterns in
  patterns.

Definition applyPatternMultipliers (diseaseName : string) (patterns : list PatternMatch)
  : Q :=
  fold_left
    (fun m p =>
       if (detected p && existsb (fun d => includes diseaseName d) (diseases p))%bool
       then m * multiplier p else m)
    patterns 1.0.

End PatternDetection.

(* ================================================================== *)
(** ** Multi-system reasoning (multi-system-reasoning.ts) *)
(* ================================================================== *)

Module MultiSystemReasoning.
Import Js JsNum.
Local Open Scope Q_scope.

Record SystemInvolvement : Type := mkInvolvement {
  system : string;
  symptoms : list string;
  score : Q
}.

Definition SYMPTOM_SYSTEM_MAP : list (string * list string) :=
  objectLiteral
  [ ("weight loss", ["endocrine/metabolic"]);
    ("weight gain", ["endocrine/metabolic"]);
    ("heat intolerance", ["endocrine/metabolic"]);
    ("cold intolerance", ["endocrine/metabolic"]);
    ("sweating", ["endocrine/metabolic"]);
    ("excessive thirst", ["endocrine/metabolic"]);
    ("frequent urination", ["endocrine/metabolic"]);
    ("tremor", ["endocrine/metabolic"; "neurological"]);
    ("heart palpitations", ["cardiac"; "autonomic"]);
    ("chest pain", ["cardiac"]);
    ("shortness of breath", ["cardiac"; "respiratory"]);
    ("difficulty breathing", ["cardiac"; "respiratory"]);
    ("numbness", ["neurological"]);
    ("tingling", ["neurological"]);
    ("weakness", ["neurological"]);
    ("vision problems", ["neurological"]);
    ("blurred vision", ["neurological"]);
    ("double vision", ["neurological"]);
    ("memory problems", ["neurological"]);
    ("confusion", ["neurological"]);
    ("seizures", ["neurological"]);
    ("balance problems", ["neurological"]);
    ("orthostatic dizziness", ["autonomic"]);
    ("dizziness", ["autonomic"; "neurological"]);
    ("heart palpitations", ["autonomic"; "cardiac"]);
    ("brain fog", ["autonomic"]);
    ("nausea", ["gastrointestinal"]);
    ("vomiting", ["gastrointestinal"]);
    ("diarrhea", ["gastrointestinal"]);
    ("constipation", ["gastrointestinal"]);
    ("abdominal pain", ["gastrointestinal"]);
    ("fatigue", ["hematologic"; "endocrine/metabolic"; "autoimmune"]);
    ("weakness", ["hematologic"; "neurological"]);
    ("swollen glands", ["hematologic"; "infectious"]);
    ("joint pain", ["autoimmune"]);
    ("rash", ["autoimmune"]);
    ("fatigue", ["autoimmune"; "hematologic"]);
    ("fever", ["autoimmune"; "infectious"]);
    ("cough", ["respiratory"]);
    ("shortness of breath", ["respiratory"; "cardiac"]) ].

(** [systemMap.get(system).push(symptom)], after an empty list was set
    for a system not yet in the map. *)
Definition pushTo (systemMap : list (string * list string)) (system symptom : string)
  : list (string * list string) :=
  let systemMap :=
    match lookup systemMap system with
    | Some _ => systemMap
    | None => setEntry systemMap system []
    end in
  match lookup systemMap system with
  | Some l => setEntry systemMap system (l ++ [symptom])%list
  | None => systemMap
  end.

Definition analyzeSystemInvolvement (symptoms : list string) : list SystemInvolvement :=
  let systemMap :=
    fold_left
      (fun systemMap symptom =>
         let normalized := trim (toLowerCase symptom) in
         let systems :=
           match lookup SYMPTOM_SYSTEM_MAP normalized with
           | Some systems => systems
           | None => ["endocrine/metabolic"]
           end in
         fold_left (fun systemMap system => pushTo systemMap system symptom)
                   systems systemMap)
      symptoms [] in
  let results :=
    map (fun e : string * list string =>
           let (system, symptoms) := e in
           mkInvolvement system symptoms
                         (ofNat (length symptoms) / ofNat (length symptoms)))
        systemMap in
  sortCmp (fun a b => score b - score a) results.

Definition conditionSystemMap : list (string * list string) :=
  [ ("Hyperthyroidism", ["endocrine/metabolic"; "cardiac"; "autonomic"]);
    ("Graves' Disease", ["endocrine/metabolic"; "cardiac"; "autonomic"]);
    ("Pheochromocytoma", ["endocrine/metabolic"; "cardiac"; "autonomic"]);
    ("Diabetes Mellitus", ["endocrine/metabolic"; "cardiac"]);
    ("POTS", ["autonomic"; "cardiac"; "neurological"]);
    ("Multiple Sclerosis", ["neurological"; "autonomic"]);
    ("Lupus", ["autoimmune"; "cardiac"; "hematologic"]);
    ("Lymphoma", ["hematologic"; "autoimmune"]) ].

Definition getConditionSystems (conditionName : string) : list string :=
  match find (fun e => includes conditionName (fst e)) conditionSystemMap with
  | Some (_, systems) => systems
  | None => ["endocrine/metabolic"]
  end.

Definition calculateMultiSystemOverlap (conditionSystems : list string)
           (involvedSystems : list SystemInvolvement) : Q :=
  let involvedSystemNames := map system involvedSystems in
  let overlap :=
    length (filter (fun s => existsb (String.eqb s) involvedSystemNames) conditionSystems) in
  let totalSystems := Nat.max (length conditionSystems) (length involvedSystems) in
  ofNat overlap / ofNat totalSystems.

End MultiSystemReasoning.

(* ================================================================== *)
(** ** Cluster classification (cluster-classification.ts) *)
(* ================================================================== *)

Module ClusterClassification.
Import Js JsNum.
Import MedicalData.
Local Open Scope Q_scope.

Record ClusterScore : Type := mkClusterScore {
  cluster : string;
  score : Q
}.

Definition SYMPTOM_CLUSTER_MAP : list (string * list string) :=
  objectLiteral
  [ ("joint pain", ["autoimmune"]);
    ("migratory joint pain", ["autoimmune"]);
    ("rash", ["autoimmune"]);
    ("transient rash", ["autoimmune"]);
    ("swollen joints", ["autoimmune"]);
    ("dry eyes", ["autoimmune"]);
    ("dry mouth", ["autoimmune"]);
    ("numbness", ["neurologic"]);
    ("tingling", ["neurologic"]);
    ("vision problems", ["neurologic"]);
    ("blurred vision", ["neurologic"]);
    ("double vision", ["neurologic"]);
    ("weakness", ["neurologic"]);
    ("memory problems", ["neurologic"]);
    ("confusion", ["neurologic"]);
    ("seizures", ["neurologic"]);
    ("balance problems", ["neurologic"]);
    ("weight loss", ["endocrine"; "malignancy/hematologic"]);
    ("weight gain", ["endocrine"]);
    ("sweating", ["endocrine"]);
    ("cold intolerance", ["endocrine"]);
    ("heat intolerance", ["endocrine"]);
    ("fever", ["infectious"; "autoimmune"; "malignancy/hematologic"]);
    ("night sweats", ["infectious"; "malignancy/hematologic"]);
    ("swollen glands", ["infectious"; "malignancy/hematologic"]);
    ("cough", ["infectious"]);
    ("night sweats", ["malignancy/hematologic"; "infectious"]);
    ("weight loss", ["malignancy/hematologic"; "endocrine"]);
    ("swollen glands", ["malignancy/hematologic"; "infectious"]);
    ("orthostatic dizziness", ["autonomic dysfunction"; "endocrine"]);
    ("dizziness", ["autonomic dysfunction"; "neurologic"; "endocrine"]);
    ("heart palpitations", ["autonomic dysfunction"; "endocrine"]);
    ("fatigue", ["metabolic/nutritional"; "endocrine"; "autoimmune"]);
    ("weakness", ["metabolic/nutritional"; "neurologic"; "endocrine"]) ].

Definition allClusters : list string :=
  [ "autoimmune"; "endocrine"; "neurologic"; "infectious";
    "malignancy/hematologic"; "autonomic dysfunction"; "metabolic/nutritional" ].

(** [m.get(key) || dflt] on a map of numbers. *)
Definition getOr (m : list (string * Q)) (key : string) (dflt : Q) : Q :=
  match lookup m key with
  | Some v => if nonzero v then v else dflt
  | None => dflt
  end.

(** The clusters of one symptom: the exact key, else the first key that
    matches partially, else the default cluster. *)
Definition clustersOf (normalizedSymptom : string) : list string :=
  let clusters :=
    match lookup SYMPTOM_CLUSTER_MAP normalizedSymptom with
    | Some clusters => clusters
    | None =>
        match find (fun e => partialMatch normalizedSymptom (fst e))
                   SYMPTOM_CLUSTER_MAP with
        | Some (_, clusterList) => clusterList
        | None => []
        end
    end in
  if Nat.eqb (length clusters) 0 then ["metabolic/nutritional"] else clusters.

Definition classifySymptomClusters (symptoms : list string)
           (symptomWeights : list (string * Q)) : list ClusterScore :=
  let clusterScores :=
    fold_left (fun m cluster => setEntry m cluster 0) allClusters [] in
  let clusterScores :=
    fold_left
      (fun clusterScores symptom =>
         let normalizedSymptom := trim (toLowerCase symptom) in
         let symptomScore := getOr symptomWeights normalizedSymptom 0.5 in
         let clusters := clustersOf normalizedSymptom in
         let scorePerCluster := symptomScore / ofNat (length clusters) in
         fold_left
           (fun clusterScores cluster =>
              let currentScore := getOr clusterScores cluster 0 in
              setEntry clusterScores cluster (currentScore + scorePerCluster))
           clusters clusterScores)
      symptoms clusterScores in
  sortCmp (fun a b => score b - score a)
          (map (fun e : string * Q => mkClusterScore (fst e) (snd e)) clusterScores).

(** The loop of [getDominantClusters]: clusters of positive score are
    taken until their scores add up to the threshold. *)
Fixpoint takeDominant (clusterScores : list ClusterScore) (cumulativeScore threshold : Q)
  : list string :=
  match clusterScores with
  | [] => []
  | cs :: rest =>
      if ltb 0 (score cs) then
        let cumulativeScore := cumulativeScore + score cs in
        if Qle_bool threshold cumulativeScore then [cluster cs]
        else cluster cs :: takeDominant rest cumulativeScore threshold
      else takeDominant rest cumulativeScore threshold
  end.

Definition getDominantClusters (clusterScores : list ClusterScore) : list string :=
  match clusterScores with
  | [] => ["metabolic/nutritional"]
  | top :: _ =>
      let totalScore := fold_left (fun sum cs => sum + score cs) clusterScores 0 in
      if Qeq_bool totalScore 0 then ["metabolic/nutritional"]
      else
        let dominant := takeDominant clusterScores 0 (totalScore * 0.6) in
        match dominant with
        | [] => [cluster top]
        | _ => dominant
        end
  end.

End ClusterClassification.

(* ================================================================== *)
(** ** The advanced pipeline (src/ai/flows/advanced-symptom-analysis.ts) *)
(* ================================================================== *)

Module Advanced.
Import Js JsNum.
Import MedicalData.
Local Open Scope Q_scope.

Record Profile : Type := mkProfile {
  p_name : string;
  age : string;
  gender : string
}.

Record AdvancedSymptomAnalysisInput : Type := mkInput {
  symptoms : string;
  medicalHistory : option string;
  questionnaireAnswers : string;
  profile : option Profile
}.

Record ConditionResult : Type := mkCondition {
  condition : string;
  likelihood : Q;
  c_description : string;
  c_webmd_search_term : string;
  c_cluster : list string;
  explanation : string;
  displayLikelihood : string
}.

Record TimeCourseOut : Type := mkTimeCourseOut {
  duration_days : option Z;
  pattern : TimeInference.Pattern;
  interpretation : string
}.

Record AdvancedAnalysisOutput : Type := mkOutput {
  conditions : list ConditionResult;
  dominant_clusters : list string;
  red_flags : list RedFlagDetection.RedFlag;
  time_course : TimeCourseOut
}.

(** A call either throws or resolves to its output. *)
Inductive Outcome : Type :=
| Threw (message : string)
| Resolved (output : AdvancedAnalysisOutput).

Definition extractSymptomsList (symptomsText : string) : list string :=
  filter (fun s => Nat.ltb 0 (String.length s)) (map trim (split symptomsText)).

Definition matchedSymptomsOf (disease : DiseaseData) (symptoms : list string)
  : list string :=
  filter (fun s => ltb 0 (getDiseaseRelevanceFactor (name disease) s)) symptoms.

(** [matchedSymptoms.length / Math.max(symptoms.length, 1)] *)
Definition matchRatio (disease : DiseaseData) (symptoms : list string) : Q :=
  ofNat (length (matchedSymptomsOf disease symptoms)) /
  ofNat (Nat.max (length symptoms) 1).

Definition symptomClusterScore (disease : DiseaseData) (symptoms : list string) : Q :=
  let matchedSymptoms := matchedSymptomsOf disease symptoms in
  if Nat.ltb 0 (length matchedSymptoms) then
    let sum :=
      fold_left
        (fun acc symptom =>
           acc + getSymptomScore symptom *
                 getDiseaseRelevanceFactor (name disease) symptom)
        matchedSymptoms 0 in
    let expectedSymptomCount := length (symptom_relevance_map disease) in
    (sum / ofNat (Nat.max (length symptoms) expectedSymptomCount)) *
    (ofNat (length matchedSymptoms) / ofNat (Nat.max (length symptoms) 1))
  else 0.

Definition demographicScore (disease : DiseaseData) (profile : option Profile) : Q :=
  match profile with
  | Some p =>
      if String.eqb (age p) "" then 1.0
      else
        let age := parseInt (age p) in
        let below (limit : Z) : bool :=
          match age with Some a => (a <? limit)%Z | None => false end in
        if (includes (name disease) "Still" && below 16%Z)%bool then 0.3
        else if (includes (name disease) "MS" && below 20%Z)%bool then 0.5
        else 1.0
  | None => 1.0
  end.

(** The body of [DISEASE_DATABASE.forEach] in [calculateDiseaseScores]. *)
Definition scoreDisease (symptoms : list string)
           (timeCourse : TimeCourseLogic.TimeCourseData)
           (redFlagMultipliers : RedFlagDetection.RedFlagMultipliers)
           (patterns : list PatternDetection.PatternMatch)
           (profile : option Profile)
           (systemInvolvement : list MultiSystemReasoning.SystemInvolvement)
           (diseaseScores : list (string * Q)) (disease : DiseaseData)
  : list (string * Q) :=
  let multiSystemCount := length (map MultiSystemReasoning.system systemInvolvement) in
  let totalScore := 0 in
  let symptomClusterScore := symptomClusterScore disease symptoms in
  if ltb (matchRatio disease symptoms) 0.3 then diseaseScores
  else
    let totalScore := totalScore + symptomClusterScore * 0.40 in
    let conditionSystems := MultiSystemReasoning.getConditionSystems (name disease) in
    let systemOverlapScore :=
      MultiSystemReasoning.calculateMultiSystemOverlap conditionSystems systemInvolvement in
    let totalScore :=
      if (Nat.leb 3 multiSystemCount && Nat.leb 2 (length conditionSystems))%bool
      then totalScore + systemOverlapScore * 0.20 * 1.5
      else totalScore + systemOverlapScore * 0.20 in
    let timeCourseAdjustments :=
      TimeCourseLogic.applyTimeCourseLogic timeCourse [name disease] in
    let temporalScore :=
      match timeCourseAdjustments with
      | adjustment :: _ => mathMin (TimeCourseLogic.multiplier adjustment) 2.0 / 2.0
      | [] => 1.0
      end in
    let totalScore := totalScore + temporalScore * 0.15 in
    let patternMultiplier :=
      PatternDetection.applyPatternMultipliers (name disease) patterns in
    let patternScore := mathMin patternMultiplier 2.0 / 2.0 in
    let totalScore := totalScore + patternScore * 0.10 in
    let totalScore := totalScore + demographicScore disease profile * 0.10 in
    let redFlagMultiplier :=
      RedFlagDetection.applyRedFlagMultipliers (name disease) redFlagMultipliers in
    let rareImpactScore := mathMin redFlagMultiplier 2.0 / 2.0 in
    let totalScore := totalScore + rareImpactScore * 0.05 in
    setEntry diseaseScores (name disease) totalScore.

Definition calculateDiseaseScores (symptoms : list string)
           (timeCourse : TimeCourseLogic.TimeCourseData)
           (redFlagMultipliers : RedFlagDetection.RedFlagMultipliers)
           (patterns : list PatternDetection.PatternMatch)
           (profile : option Profile)
           (systemInvolvement : option (list MultiSystemReasoning.SystemInvolvement))
  : list (string * Q) :=
  let systemInvolvement :=
    match systemInvolvement with
    | Some si => si
    | None => MultiSystemReasoning.analyzeSystemInvolvement symptoms
    end in
  fold_left
    (scoreDisease symptoms timeCourse redFlagMultipliers patterns profile systemInvolvement)
    DISEASE_DATABASE [].

Definition applyConditionFiltering (symptoms answers : list string) : list string :=
  let text := toLowerCase (join " " symptoms ++ " " ++ join " " answers) in
  let symptomsLower := toLowerCase (join " " symptoms) in
  let priorityConditions : list string := [] in
  let priorityConditions :=
    if (includes symptomsLower "weight loss" &&
        (includes symptomsLower "heat" || includes symptomsLower "sweating") &&
        (includes symptomsLower "palpitation" || includes symptomsLower "heart"))%bool
    then (priorityConditions ++
          ["Hyperthyroidism"; "Graves' Disease"; "Pheochromocytoma"])%list
    else priorityConditions in
  let priorityConditions :=
    if ((includes symptomsLower "frequent urination" ||
         includes symptomsLower "excessive thirst") &&
        includes symptomsLower "weight loss")%bool
    then (priorityConditions ++ ["Diabetes Mellitus Type 2"; "Hyperthyroidism"])%list
    else priorityConditions in
  let priorityConditions :=
    if (includes symptomsLower "palpitation" &&
        (includes text "stress" || includes text "exertion" || includes text "trigger") &&
        (includes symptomsLower "tremor" || includes symptomsLower "shaking"))%bool
    then (priorityConditions ++
          ["Pheochromocytoma"; "Hyperthyroidism"; "POTS"; "Autonomic Dysfunction"])%list
    else priorityConditions in
  let priorityConditions :=
    if ((includes symptomsLower "numbness" || includes symptomsLower "tingling" ||
         includes symptomsLower "weakness") &&
        (includes symptomsLower "dizziness" || includes symptomsLower "orthostatic"))%bool
    then (priorityConditions ++
          ["Multiple Sclerosis (MS)"; "POTS"; "Autonomic Dysfunction";
           "Guillain-Barré Syndrome (GBS)"])%list
    else priorityConditions in
  priorityConditions.

(** [Math.max(...values)] of the values of a map that has entries; with no
    entry the loop of [normalizeScores] has nothing to do. *)
Definition normalizeScores (scores : list (string * Q)) : list (string * Q) :=
  match scores with
  | [] => []
  | first :: others =>
      let maxScore := maxOf (map snd others) (snd first) in
      if Qeq_bool maxScore 0 then scores
      else
        fold_left
          (fun normalized e =>
             let score := snd e in
             let normalizedScore := (score / maxScore) * 100 in
             if (ltb 0 score && ltb normalizedScore 5)%bool
             then setEntry normalized (fst e) 5
             else setEntry normalized (fst e) normalizedScore)
          scores []
  end.

(** The priority boost: [diseaseScores.set(name, (diseaseScores.get(name) || 0) * 1.3)]. *)
Definition boost (diseaseScores : list (string * Q)) (conditionName : string)
  : list (string * Q) :=
  let currentScore :=
    match lookup diseaseScores conditionName with
    | Some score => if nonzero score then score else 0
    | None => 0
    end in
  setEntry diseaseScores conditionName (currentScore * 1.3).

(** An entry of [Array.from(map.entries())] is an array object of its own:
    [ref] is its identity (the address it was allocated at). *)
Record Pair : Type := mkPair {
  ref : nat;
  p_key : string;
  p_value : Q
}.

(** [Array.from(m.entries())], allocating from address [next] on. *)
Fixpoint entriesFrom (m : list (string * Q)) (next : nat) : list Pair * nat :=
  match m with
  | [] => ([], next)
  | (k, v) :: m' =>
      let (rest, next') := entriesFrom m' (S next) in
      (mkPair next k v :: rest, next')
  end.

(** [arr.indexOf(x)] for an object [x]: [===] on objects compares identity. *)
Fixpoint indexOfFrom (arr : list Pair) (x : nat) (i : Z) : Z :=
  match arr with
  | [] => (-1)%Z
  | p :: arr' => if Nat.eqb (ref p) x then i else indexOfFrom arr' x (i + 1)%Z
  end.

Definition indexOf (arr : list Pair) (x : nat) : Z := indexOfFrom arr x 0%Z.

(** [sortedAll.filter(([_, score]) => score >= threshold ||
    sortedAll.indexOf([_, score]) < 3)]: the array literal in the callback
    is a new object, allocated at [next], each time it is evaluated. *)
Fixpoint filterShown (sortedAll rest : list Pair) (threshold : Q) (next : nat)
  : list Pair * nat :=
  match rest with
  | [] => ([], next)
  | p :: rest' =>
      if Qle_bool threshold (p_value p) then
        let (kept, next') := filterShown sortedAll rest' threshold next in
        (p :: kept, next')
      else
        let fresh := next in
        let keep := (indexOf sortedAll fresh <? 3)%Z in
        let (kept, next') := filterShown sortedAll rest' threshold (S next) in
        (if keep then p :: kept else kept, next')
  end.

Definition sortedAllOf (normalizedScores : list (string * Q)) : list Pair * nat :=
  let (entries, next) := entriesFrom normalizedScores O in
  (sortCmp (fun a b => p_value b - p_value a) entries, next).

Definition thresholdOf (sortedAll : list Pair) : Q :=
  let topScore :=
    match nth_error sortedAll 0 with
    | Some p => if nonzero (p_value p) then p_value p else 0
    | None => 0
    end in
  if ltb topScore 25 then 0 else 25.

Definition sortedDiseasesOf (normalizedScores : list (string * Q)) : list Pair :=
  let (sortedAll, next) := sortedAllOf normalizedScores in
  firstn 10 (fst (filterShown sortedAll sortedAll (thresholdOf sortedAll) next)).

Definition displayScoreOf (score : Q) : Q :=
  if (ltb score 5 && ltb 0 score)%bool then 5 else score.

Definition displayLikelihoodOf (displayScore : Q) : string :=
  if (ltb displayScore 10 && ltb 0 displayScore)%bool
  then "Low likelihood (<10%)"
  else showInt (mathRound displayScore) ++ "%".

Definition interpretationOf (symptoms : list string)
           (timeCourse : TimeCourseLogic.TimeCourseData) : string :=
  let derived := TimeCourseLogic.tc_derived timeCourse in
  let duration := TimeCourseLogic.tc_duration_days timeCourse in
  let pattern := TimeCourseLogic.tc_pattern timeCourse in
  if truthy duration then
    (if andNum duration (fun n => n >? 90)%Z then
       "Symptoms have been present for over 3 months, suggesting a chronic condition."
     else if andNum duration (fun n => n >? 21)%Z then
       "Symptoms lasting over 3 weeks suggest a chronic rather than acute condition."
     else if andNum duration (fun n => n >? 14)%Z then
       "Symptoms lasting over 2 weeks suggest a chronic condition rather than an acute illness."
     else "Recent onset (within 2 weeks) may indicate an acute condition.")
    ++ (if derived then " (inferred from symptom pattern)" else "")
  else
    match pattern with
    | TimeInference.relapsing =>
        "Relapsing pattern suggests an autoimmune or episodic condition."
    | TimeInference.progressive =>
        "Progressive pattern suggests a neurologic or degenerative condition."
    | TimeInference.chronic => "Chronic pattern suggests a long-standing condition."
    | TimeInference.acute => "Acute pattern suggests a recent-onset condition."
    | TimeInference.unknown =>
        if existsb (fun s => includes (toLowerCase s) "weight loss") symptoms then
          "Weight loss patterns typically develop over weeks to months, suggesting a chronic process."
        else if existsb (fun s => (includes (toLowerCase s) "palpitation" ||
                                   includes (toLowerCase s) "heart")%bool) symptoms then
          "Cardiac symptoms with progression suggest a chronic pattern."
        else
          "Symptom pattern suggests a chronic condition. More specific timing information would improve accuracy."
    end.

(** The score map as [advancedSymptomAnalysis] computes it, before the
    priority boost. *)
Definition diseaseScoresOf (input : AdvancedSymptomAnalysisInput) : list (string * Q) :=
  let symptoms := extractSymptomsList (symptoms input) in
  let timeCourse :=
    TimeCourseLogic.extractTimeCourseData (Advanced.symptoms input)
                                          [questionnaireAnswers input] in
  let detection :=
    RedFlagDetection.detectRedFlags (Advanced.symptoms input)
                                    [questionnaireAnswers input] in
  let patterns :=
    PatternDetection.detectPatterns (Advanced.symptoms input)
                                    [questionnaireAnswers input] in
  let systemInvolvement := MultiSystemReasoning.analyzeSystemInvolvement symptoms in
  calculateDiseaseScores symptoms timeCourse (RedFlagDetection.multipliers detection)
                         patterns (profile input) (Some systemInvolvement).

Definition priorityConditionsOf (input : AdvancedSymptomAnalysisInput) : list string :=
  applyConditionFiltering (extractSymptomsList (symptoms input))
                          [questionnaireAnswers input].

Definition normalizedScoresOf (input : AdvancedSymptomAnalysisInput)
  : list (string * Q) :=
  normalizeScores (fold_left boost (priorityConditionsOf input) (diseaseScoresOf input)).

Section Collaborators.
(** The environment variable [GROQ_API_KEY], and the hosted model asked
    for an explanation: [None] when the call fails or has no content. *)
Variable apiKey : option string.
Variable completion : string -> list string -> list string -> Q -> option string.

Definition fallbackExplanation : string :=
  "This condition may be considered based on your reported symptoms.".

Definition generateConditionExplanation (condition : string)
           (symptoms matchedSymptoms : list string) (likelihood : Q) : string :=
  match completion condition symptoms matchedSymptoms likelihood with
  | Some content =>
      if String.eqb (trim content) "" then fallbackExplanation else trim content
  | None => fallbackExplanation
  end.

(** The body of the loop over [sortedDiseases]. *)
Definition pushCondition (symptoms : list string) (conditions : list ConditionResult)
           (entry : Pair) : list ConditionResult :=
  let diseaseName := p_key entry in
  let score := p_value entry in
  match find (fun d => String.eqb (name d) diseaseName) DISEASE_DATABASE with
  | None => conditions
  | Some disease =>
      let matchedSymptoms :=
        filter (fun s => ltb 0 (getDiseaseRelevanceFactor diseaseName s)) symptoms in
      let explanation :=
        generateConditionExplanation diseaseName symptoms matchedSymptoms score in
      let displayScore := displayScoreOf score in
      (conditions ++
         [mkCondition diseaseName (displayScore / 100) (description disease)
                      (webmd_search_term disease) (cluster disease) explanation
                      (displayLikelihoodOf displayScore)])%list
  end.

Definition advancedSymptomAnalysis (input : AdvancedSymptomAnalysisInput) : Outcome :=
  let missingKey :=
    match apiKey with
    | Some key => String.eqb (trim key) ""
    | None => true
    end in
  if missingKey
  then Threw "GROQ_API_KEY is not set. Please add it to your .env.local file."
  else
    let symptoms := extractSymptomsList (symptoms input) in
    if Nat.eqb (length symptoms) 0 then Threw "No symptoms detected"
    else
      let timeCourse :=
        TimeCourseLogic.extractTimeCourseData (Advanced.symptoms input)
                                              [questionnaireAnswers input] in
      let detection :=
        RedFlagDetection.detectRedFlags (Advanced.symptoms input)
                                        [questionnaireAnswers input] in
      let symptomWeights :=
        fold_left
          (fun m s => setEntry m (trim (toLowerCase s)) (getSymptomScore s))
          symptoms [] in
      let clusterScores :=
        ClusterClassification.classifySymptomClusters symptoms symptomWeights in
      let dominantClusters := ClusterClassification.getDominantClusters clusterScores in
      let sortedDiseases := sortedDiseasesOf (normalizedScoresOf input) in
      let conditions := fold_left (pushCondition symptoms) sortedDiseases [] in
      Resolved
        (mkOutput conditions dominantClusters (RedFlagDetection.redFlags detection)
                  (mkTimeCourseOut (TimeCourseLogic.tc_duration_days timeCourse)
                                   (TimeCourseLogic.tc_pattern timeCourse)
                                   (interpretationOf symptoms timeCourse))).

End Collaborators.

(** The conditions of a call that resolved; none when it threw. *)
Definition conditionsOf (o : Outcome) : list ConditionResult :=
  match o with
  | Resolved output => conditions output
  | Threw _ => []
  end.

(** A condition shown under [diseaseName] at likelihood 0 with the text "0%". *)
Definition shownAtZero (diseaseName : string) (c : ConditionResult) : bool :=
  (String.eqb (condition c) diseaseName && Qeq_bool (likelihood c) 0 &&
   String.eqb (displayLikelihood c) "0%")%bool.

End Advanced.

(* ================================================================== *)
(** ** What the statements below refer to *)
(* ================================================================== *)

Module Statements.
Import Js JsNum.
Local Open Scope Q_scope.



(** The matched-symptom ratio in the words of the specification: the
    number of reported symptoms of positive relevance over the number of
    reported symptoms (over 1 when there is none). *)
Definition matchedRatio (relevance : string -> Q) (symptoms : list string) : Q :=
  ofNat (length (filter (fun s => ltb 0 (relevance s)) symptoms)) /
  ofNat (Nat.max (length symptoms) 1).


(** Every text that [inferTimeCourse] can return as interpretation. *)
Definition interpretations : list string :=
  let sentences :=
    [ "";
      "Symptoms have been present for over 3 months, suggesting a chronic condition.";
      "Symptoms lasting over 3 weeks suggest a chronic rather than acute condition.";
      "Symptoms lasting over 2 weeks suggest a chronic condition rather than an acute illness.";
      "Recent onset (within 2 weeks) may indicate an acute condition." ] in
  let patterns :=
    [ TimeInference.acute; TimeInference.relapsing; TimeInference.progressive;
      TimeInference.chronic; TimeInference.unknown ] in
  ([ TimeInference.msgWeightLoss; TimeInference.msgCardiac; TimeInference.msgTremor;
     TimeInference.msgNeuro; TimeInference.msgDefault ] ++
   filter (fun t => negb (String.eqb t ""))
     (flat_map (fun s => map (fun p => (s ++ TimeInference.patternSentence p)%string) patterns)
               sentences))%list.





(** No string occurs twice in [l]. *)
Fixpoint distinct (l : list string) : bool :=
  match l with
  | [] => true
  | x :: l' => (negb (existsb (String.eqb x) l') && distinct l')%bool
  end.

(** An input of the advanced pipeline: three priority conditions are
    triggered, and two of them match too few of the four symptoms. *)
Definition zeroScoreInput : Advanced.AdvancedSymptomAnalysisInput :=
  Advanced.mkInput "weight loss, heat intolerance, heartburn, cough" None "" None.


End Statements.

(* ================================================================== *)
(** ** Notions used by the further properties *)
(* ================================================================== *)

Module Notions.
Import Js JsNum.
Local Open Scope Q_scope.

(** Descending order of [key], ties allowed. *)
Definition descending {A : Type} (key : A -> Q) : list A -> Prop :=
  StronglySorted (fun a b => key b <= key a).

(** [rest] is what is left of [s] after some prefix. *)
Definition isSuffix (rest s : string) : Prop := exists pre, s = pre ++ rest.

(** Every character of [s] satisfies [p]. *)
Fixpoint allChars (p : ascii -> bool) (s : string) : bool :=
  match s with
  | EmptyString => true
  | String c s' => (p c && allChars p s')%bool
  end.

(** A non-empty run of decimal digits. *)
Definition isNumeral (d : string) : Prop := d <> "" /\ allChars isDigit d = true.

(** Group 1, when it took part in the match, holds a numeral. *)
Definition capturesNumeral (cap : option string) : Prop :=
  match cap with
  | Some d => isNumeral d
  | None => True
  end.

(** No match of [r] can do without a digit. *)
Fixpoint needsDigit (r : regex) : bool :=
  match r with
  | Digits => true
  | Seq r1 r2 => (needsDigit r1 || needsDigit r2)%bool
  | Alt r1 r2 => (needsDigit r1 && needsDigit r2)%bool
  | _ => false
  end.

(** [r] has no capturing group. *)
Fixpoint groupless (r : regex) : bool :=
  match r with
  | Digits => false
  | Seq r1 r2 | Alt r1 r2 => (groupless r1 && groupless r2)%bool
  | Opt r1 => groupless r1
  | _ => true
  end.

(** None of the six multipliers is below 1. *)
Definition atLeastOne (m : RedFlagDetection.RedFlagMultipliers) : Prop :=
  1 <= RedFlagDetection.malignancy_multiplier m /\
  1 <= RedFlagDetection.chronic_infection_multiplier m /\
  1 <= RedFlagDetection.MS_multiplier m /\
  1 <= RedFlagDetection.dysautonomia_multiplier m /\
  1 <= RedFlagDetection.adrenal_insufficiency_multiplier m /\
  1 <= RedFlagDetection.autoimmune_multiplier m.

(** A flag that is marked detected, with a severity in (0, 1]. *)
Definition wellFormedFlag (rf : RedFlagDetection.RedFlag) : Prop :=
  RedFlagDetection.detected rf = true /\
  0 < RedFlagDetection.severity rf /\ RedFlagDetection.severity rf <= 1.



(** The sum of a list of numbers. *)
Definition total (l : list Q) : Q := fold_right Qplus 0 l.



End Notions.

(* ================================================================== *)
(** * Properties *)
(* ================================================================== *)

(** ** Numbers, lists and maps *)

Section NumberFacts.
Local Open Scope Q_scope.
Import JsNum.

Lemma ltb_true (a b : Q) : ltb a b = true <-> a < b.
Proof.
  unfold ltb. rewrite negb_true_iff, <- not_true_iff_false, Qle_bool_iff.
  split; intro H; [apply Qnot_le_lt; exact H | apply Qlt_not_le; exact H].
Qed.

Lemma ltb_false (a b : Q) : ltb a b = false <-> b <= a.
Proof.
  unfold ltb. rewrite negb_false_iff. apply Qle_bool_iff.
Qed.

Lemma mathMax_ge_l (a b : Q) : a <= mathMax a b.
Proof.
  unfold mathMax. destruct (Qle_bool a b) eqn:E.
  - apply Qle_bool_iff; exact E.
  - apply Qle_refl.
Qed.

Lemma mathMax_ge_r (a b : Q) : b <= mathMax a b.
Proof.
  unfold mathMax. destruct (Qle_bool a b) eqn:E.
  - apply Qle_refl.
  - apply not_true_iff_false in E. rewrite Qle_bool_iff in E.
    apply Qlt_le_weak, Qnot_le_lt; exact E.
Qed.

Lemma maxOf_ge_last (l : list Q) (last : Q) : last <= maxOf l last.
Proof.
  induction l as [|x l IH]; simpl.
  - apply Qle_refl.
  - eapply Qle_trans; [exact IH | apply mathMax_ge_r].
Qed.

Lemma maxOf_ge_elem (l : list Q) (last x : Q) : In x l -> x <= maxOf l last.
Proof.
  induction l as [|y l IH]; simpl; intros H; [contradiction|].
  destruct H as [-> | H].
  - apply mathMax_ge_l.
  - eapply Qle_trans; [apply IH; exact H | apply mathMax_ge_r].
Qed.
End NumberFacts.

Section ListFacts.
Import JsNum.

Lemma insertCmp_In {A : Type} (cmp : A -> A -> Q) (x y : A) (l : list A) :
  In y (insertCmp cmp x l) <-> y = x \/ In y l.
Proof.
  induction l as [|z l IH]; simpl.
  - intuition.
  - destruct (ltb 0 (cmp x z)); simpl; rewrite ?IH; intuition.
Qed.

Lemma sortCmp_In {A : Type} (cmp : A -> A -> Q) (y : A) (l : list A) :
  In y (sortCmp cmp l) <-> In y l.
Proof.
  unfold sortCmp. induction l as [|x l IH]; simpl.
  - tauto.
  - rewrite insertCmp_In, IH. intuition.
Qed.

Lemma firstn_incl {A : Type} (n : nat) (l : list A) (x : A) :
  In x (firstn n l) -> In x l.
Proof.
  revert l. induction n as [|n IH]; intros [|y l]; simpl; try tauto.
  intros [H | H]; [left; exact H | right; apply IH; exact H].
Qed.

Lemma setEntry_In {V : Type} (m : list (string * V)) (key : string) (v : V)
      (k : string) (w : V) :
  In (k, w) (Js.setEntry m key v) -> (k = key /\ w = v) \/ In (k, w) m.
Proof.
  induction m as [|[k0 v0] m IH]; simpl.
  - intros [H | []]. inversion H; subst. left; split; reflexivity.
  - destruct (String.eqb k0 key) eqn:E; simpl.
    + apply String.eqb_eq in E. subst k0.
      intros [H | H]; [inversion H; subst; left; split; reflexivity | right; right; exact H].
    + intros [H | H]; [right; left; exact H |].
      destruct (IH H) as [H' | H']; [left; exact H' | right; right; exact H'].
Qed.

(** What a loop of [set] calls can leave in a map. *)
Lemma fold_setEntry_In {V E : Type} (key : E -> string) (val : E -> V)
      (es : list E) (acc : list (string * V)) (k : string) (w : V) :
  In (k, w) (fold_left (fun m e => Js.setEntry m (key e) (val e)) es acc) ->
  In (k, w) acc \/ exists e, In e es /\ k = key e /\ w = val e.
Proof.
  revert acc. induction es as [|e es IH]; simpl; intros acc H.
  - left; exact H.
  - destruct (IH _ H) as [H' | (e' & He' & Hk & Hw)].
    + destruct (setEntry_In _ _ _ _ _ H') as [[-> ->] | H''].
      * right. exists e. auto.
      * left; exact H''.
    + right. exists e'. auto.
Qed.

Lemma includes_startsWith (hay needle : string) :
  Js.startsWith hay needle = true -> Js.includes hay needle = true.
Proof.
  destruct hay; simpl; intros ->; reflexivity.
Qed.

Lemma includes_append (pre hay needle : string) :
  Js.includes hay needle = true -> Js.includes (pre ++ hay) needle = true.
Proof.
  induction pre as [|c pre IH]; simpl; intro H; [exact H|].
  rewrite (IH H). apply orb_true_r.
Qed.
End ListFacts.

(** ** The client-side scorer *)

Section ClientFacts.
Local Open Scope Q_scope.
Import Js JsNum MedicalData Scoring.

Lemma includes_percent (s : string) : includes (s ++ "%") "%" = true.
Proof.
  apply includes_append. reflexivity.
Qed.

(** What [clampDisplayScore] returns when it returns something. *)
Lemma clampDisplayScore_Some (score s : Q) (d : string) :
  clampDisplayScore score = Some (s, d) ->
  ~ score == 0 /\ 0.05 <= s /\ (score <= 1 -> s <= 1) /\
  includes d "%" = true /\
  (s < 0.10 -> d = "Low likelihood (<10%)").
Proof.
  unfold clampDisplayScore.
  destruct (Qeq_bool score 0) eqn:Z; [discriminate|].
  assert (NZ : ~ score == 0).
  { intro H. apply Qeq_bool_iff in H. congruence. }
  destruct (ltb score 0.05) eqn:F.
  - change (ltb 0.05 0.10) with true. cbv iota.
    intros H; inversion H; subst. repeat split; auto; try reflexivity.
    + apply Qle_refl.
    + intros _. discriminate.
  - apply ltb_false in F.
    destruct (ltb score 0.10) eqn:L; intros H; inversion H; subst.
    + repeat split; auto.
    + apply ltb_false in L. repeat split; auto.
      * apply includes_percent.
      * intro H'. exfalso. apply (Qlt_not_le _ _ H' L).
Qed.

Lemma normalizeScores_le_1 (scores : list (string * Q)) (k : string) (v : Q) :
  In (k, v) (normalizeScores scores) -> v <= 1.
Proof.
  unfold normalizeScores.
  set (maxScore := maxOf (map snd scores) 0.001).
  assert (P : 0.001 <= maxScore) by apply maxOf_ge_last.
  assert (Pos : 0 < maxScore).
  { eapply Qlt_le_trans; [|exact P]. reflexivity. }
  destruct (Qeq_bool maxScore 0) eqn:Z.
  { apply Qeq_bool_iff in Z. rewrite Z in Pos. discriminate. }
  intro H.
  destruct (fold_setEntry_In fst (fun e => snd e / maxScore) _ _ _ _ H)
    as [[] | (e & He & _ & ->)].
  apply Qle_shift_div_r; [exact Pos|].
  rewrite Qmult_1_l. apply maxOf_ge_elem. apply in_map. exact He.
Qed.

Lemma pushCondition_In (D : list DiseaseData) (symptoms : list string)
      (entries : list (string * Q)) (acc : list ConditionResult) (c : ConditionResult) :
  In c (fold_left (pushCondition D symptoms) entries acc) ->
  In c acc \/
  exists diseaseName score,
    In (diseaseName, score) entries /\
    clampDisplayScore score = Some (likelihood c, displayLikelihood c) /\
    condition c = diseaseName.
Proof.
  revert acc. induction entries as [|[n sc] entries IH]; simpl; intros acc H.
  - left; exact H.
  - destruct (IH _ H) as [H' | (n' & sc' & Hin & Hc)].
    + destruct (clampDisplayScore sc) as [[s d]|] eqn:C; [|left; exact H'].
      destruct (find _ D) as [disease|]; [|left; exact H'].
      apply in_app_or in H'. destruct H' as [H' | [<- | []]]; [left; exact H'|].
      right. exists n, sc. simpl. auto.
    + right. exists n', sc'. auto.
Qed.

Lemma getDisplayConditions_incl (l : list ConditionResult) (c : ConditionResult) :
  In c (fst (getDisplayConditions l)) -> In c l.
Proof.
  unfold getDisplayConditions. destruct l as [|c0 l]; [simpl; tauto|].
  match goal with |- context [if ?b then _ else _] => destruct b end;
    cbn [fst]; apply firstn_incl.
Qed.

(** Every condition that [scoreSymptoms] returns comes out of
    [clampDisplayScore] applied to a normalized score. *)
Lemma scoreSymptoms_conditions (W : list (string * SymptomWeight))
      (D : list DiseaseData) (symptoms answers : list string) (c : ConditionResult) :
  In c (conditions (scoreSymptoms W D symptoms answers)) ->
  exists diseaseName score,
    In (diseaseName, score)
       (normalizeScores (calculateDiseaseScores W D symptoms answers)) /\
    clampDisplayScore score = Some (likelihood c, displayLikelihood c) /\
    condition c = diseaseName.
Proof.
  unfold scoreSymptoms.
  destruct (getDisplayConditions _) as [shown lbl] eqn:G. cbn [conditions].
  intro H.
  assert (H' : In c (fst (getDisplayConditions
              (sortCmp (fun a b => likelihood b - likelihood a)
                 (fold_left (pushCondition D symptoms)
                    (normalizeScores (calculateDiseaseScores W D symptoms answers))
                    []))))) by (rewrite G; exact H).
  apply getDisplayConditions_incl, sortCmp_In, pushCondition_In in H'.
  destruct H' as [[] | H']. exact H'.
Qed.
End ClientFacts.

Section ClientClaims.
Local Open Scope Q_scope.
Import Js JsNum MedicalData Scoring.

(** The simple pipeline never shows a likelihood of 0: a condition whose
    normalized score is 0 is dropped. *)
Lemma scoreSymptoms_no_zero (W : list (string * SymptomWeight))
      (D : list DiseaseData) (symptoms answers : list string) :
  Forall (fun c => ~ likelihood c == 0)
         (conditions (scoreSymptoms W D symptoms answers)).
Proof.
  apply Forall_forall. intros c H.
  destruct (scoreSymptoms_conditions _ _ _ _ _ H) as (n & sc & _ & C & _).
  apply clampDisplayScore_Some in C. destruct C as (_ & F & _).
  intro Z. rewrite Z in F. apply F. reflexivity.
Qed.

(** C2: every condition that [scoreSymptoms] returns has its likelihood in
    [0.05, 1]; its display text contains the percent sign when the
    likelihood is at least 0.10 and is the fixed text
    "Low likelihood (<10%)" when the likelihood is below 0.10; and a
    positive score below 0.05 is raised to 0.05. *)
Theorem C2_likelihood_range_and_display (W : list (string * SymptomWeight))
        (D : list DiseaseData) (symptoms answers : list string) :
  Forall (fun c =>
            0.05 <= likelihood c /\ likelihood c <= 1 /\
            (0.10 <= likelihood c -> includes (displayLikelihood c) "%" = true) /\
            (0 < likelihood c /\ likelihood c < 0.10 ->
             displayLikelihood c = "Low likelihood (<10%)"))
         (conditions (scoreSymptoms W D symptoms answers)) /\
  (forall score,
      0 < score -> score < 0.05 ->
      clampDisplayScore score = Some (0.05, "Low likelihood (<10%)")).
Proof.
  split.
  - apply Forall_forall. intros c H.
    destruct (scoreSymptoms_conditions _ _ _ _ _ H) as (n & sc & N & C & _).
    apply normalizeScores_le_1 in N.
    apply clampDisplayScore_Some in C. destruct C as (_ & F & U & P & L).
    split; [exact F|]. split; [apply U; exact N|]. split; [intros _; exact P|].
    intros [_ Hlt]. apply L. exact Hlt.
  - intros score Pos Low. unfold clampDisplayScore.
    destruct (Qeq_bool score 0) eqn:Z.
    + apply Qeq_bool_iff in Z. rewrite Z in Pos. discriminate Pos.
    + apply ltb_true in Low. rewrite Low. reflexivity.
Qed.


Lemma listIncludes_In (l : list string) (x : string) :
  listIncludes l x = true -> In x l.
Proof.
  unfold listIncludes. rewrite existsb_exists.
  intros (y & Hy & E). apply String.eqb_eq in E. subst y. exact Hy.
Qed.

(** The loop of the simple [calculateDiseaseScores] enters a disease only
    past the guard [symptomMatchRatio < 0.15 && !priority]. *)
Lemma scoreDisease_guard (W : list (string * SymptomWeight))
      (symptoms priority : list string) (ds : list DiseaseData)
      (acc : list (string * Q)) (k : string) (v : Q) :
  In (k, v) (fold_left (scoreDisease W symptoms priority) ds acc) ->
  In (k, v) acc \/
  exists d, In d ds /\ name d = k /\
            (0.15 <= symptomMatchRatio W d symptoms \/ In (name d) priority).
Proof.
  revert acc. induction ds as [|d ds IH]; simpl; intros acc H.
  - left; exact H.
  - destruct (IH _ H) as [H' | (d' & Hd & Hk & Hg)].
    + unfold scoreDisease in H'.
      destruct (ltb (symptomMatchRatio W d symptoms) 0.15) eqn:R;
        destruct (listIncludes priority (name d)) eqn:P; simpl in H';
        try (left; exact H');
        (destruct (setEntry_In _ _ _ _ _ H') as [[-> _] | H'']; [|left; exact H'']);
        right; exists d; (split; [left; reflexivity|]); (split; [reflexivity|]).
      * right. apply listIncludes_In; exact P.
      * right. apply listIncludes_In; exact P.
      * left. apply ltb_false; exact R.
    + right. exists d'. auto.
Qed.
End ClientClaims.

(** ** The advanced pipeline *)

Section AdvancedFacts.
Local Open Scope Q_scope.
Import Js JsNum MedicalData Advanced.

Lemma advanced_scoreDisease_guard symptoms tc m pats prof si
      (ds : list DiseaseData) (acc : list (string * Q)) (k : string) (v : Q) :
  In (k, v) (fold_left (scoreDisease symptoms tc m pats prof si) ds acc) ->
  In (k, v) acc \/
  exists d, In d ds /\ name d = k /\ 0.3 <= matchRatio d symptoms.
Proof.
  revert acc. induction ds as [|d ds IH]; simpl; intros acc H.
  - left; exact H.
  - destruct (IH _ H) as [H' | (d' & Hd & Hk & Hg)].
    + unfold scoreDisease in H'.
      destruct (ltb (matchRatio d symptoms) 0.3) eqn:R; [left; exact H'|].
      destruct (setEntry_In _ _ _ _ _ H') as [[-> _] | H'']; [|left; exact H''].
      right. exists d. split; [left; reflexivity|]. split; [reflexivity|].
      apply ltb_false; exact R.
    + right. exists d'. auto.
Qed.

(** The pair objects of [Array.from(map.entries())] sit at the addresses
    from [next] up to the new allocation pointer. *)
Lemma entriesFrom_refs (m : list (string * Q)) (next : nat) :
  (next <= snd (entriesFrom m next))%nat /\
  forall p, In p (fst (entriesFrom m next)) ->
            (next <= ref p < snd (entriesFrom m next))%nat.
Proof.
  revert next. induction m as [|[k v] m IH]; intros next; simpl.
  - split; [lia | intros p []].
  - specialize (IH (S next)). destruct (entriesFrom m (S next)) as [rest next'].
    simpl in *. destruct IH as [L R]. split; [lia|].
    intros p [<- | H]; simpl; [lia|]. specialize (R p H). lia.
Qed.

Lemma sortedAllOf_refs (ns : list (string * Q)) (p : Pair) :
  In p (fst (sortedAllOf ns)) -> (ref p < snd (sortedAllOf ns))%nat.
Proof.
  unfold sortedAllOf. pose proof (entriesFrom_refs ns 0) as [_ R].
  destruct (entriesFrom ns 0) as [es next]. simpl in *.
  intro H. apply sortCmp_In in H. specialize (R p H). lia.
Qed.

(** An object that was just allocated is found nowhere in an older array. *)
Lemma indexOf_fresh (arr : list Pair) (x : nat) :
  (forall p, In p arr -> (ref p < x)%nat) -> indexOf arr x = (-1)%Z.
Proof.
  unfold indexOf. generalize 0%Z.
  induction arr as [|p arr IH]; intros i H; simpl; [reflexivity|].
  destruct (Nat.eqb (ref p) x) eqn:E.
  - apply Nat.eqb_eq in E. specialize (H p (or_introl eq_refl)). lia.
  - apply IH. intros q Hq. apply H. right; exact Hq.
Qed.

Lemma filterShown_keeps_all (sortedAll rest : list Pair) (threshold : Q) (next : nat) :
  (forall p, In p sortedAll -> (ref p < next)%nat) ->
  fst (filterShown sortedAll rest threshold next) = rest.
Proof.
  revert next. induction rest as [|p rest IH]; intros next H; simpl; [reflexivity|].
  destruct (Qle_bool threshold (p_value p)).
  - specialize (IH next H).
    destruct (filterShown sortedAll rest threshold next) as [kept next'].
    simpl in *. rewrite IH. reflexivity.
  - rewrite (indexOf_fresh _ _ H).
    assert (H' : forall q, In q sortedAll -> (ref q < S next)%nat).
    { intros q Hq. specialize (H q Hq). lia. }
    specialize (IH (S next) H').
    destruct (filterShown sortedAll rest threshold (S next)) as [kept next'].
    simpl in *. rewrite IH. reflexivity.
Qed.
End AdvancedFacts.

Section AdvancedClaims.
Local Open Scope Q_scope.
Import Js JsNum MedicalData Advanced Statements.

(** The run of the advanced pipeline on [zeroScoreInput], evaluated. *)
Lemma zeroScoreInput_run
      (completion : string -> list string -> list string -> Q -> option string) :
  existsb (shownAtZero "Hyperthyroidism")
          (conditionsOf (advancedSymptomAnalysis (Some "key") completion zeroScoreInput))
  = true.
Proof.
  vm_compute. reflexivity.
Qed.

Lemma zeroScoreInput_shown
      (completion : string -> list string -> list string -> Q -> option string) :
  exists output c,
    advancedSymptomAnalysis (Some "key") completion zeroScoreInput = Resolved output /\
    In c (conditions output) /\
    condition c = "Hyperthyroidism" /\
    likelihood c == 0 /\ displayLikelihood c = "0%".
Proof.
  pose proof (zeroScoreInput_run completion) as H.
  destruct (advancedSymptomAnalysis (Some "key") completion zeroScoreInput)
    as [msg | output]; [discriminate H|].
  apply existsb_exists in H. destruct H as (c & Hin & Hc).
  unfold shownAtZero in Hc.
  apply andb_true_iff in Hc. destruct Hc as [Hc Hd].
  apply andb_true_iff in Hc. destruct Hc as [Hn Hz].
  exists output, c. split; [reflexivity|]. split; [exact Hin|].
  split; [apply String.eqb_eq; exact Hn|].
  split; [apply Qeq_bool_iff; exact Hz | apply String.eqb_eq; exact Hd].
Qed.

(** C1, at the input where it fails: the advanced pipeline returns
    "Hyperthyroidism" with likelihood 0, whatever the explanation
    service answers. *)
Theorem C1_advanced_returns_zero_likelihood
        (completion : string -> list string -> list string -> Q -> option string) :
  exists output c,
    advancedSymptomAnalysis (Some "key") completion zeroScoreInput = Resolved output /\
    In c (conditions output) /\
    condition c = "Hyperthyroidism" /\ likelihood c == 0.
Proof.
  destruct (zeroScoreInput_shown completion) as (output & c & R & Hin & Hn & Hz & _).
  exists output, c. auto.
Qed.

(** C10: the display filter of the advanced pipeline excludes nothing, so
    that the first ten of all sorted entries are surfaced; and for some
    input a priority condition that is not in the score map is inserted
    with score 0 and comes out with likelihood 0 and the text "0%". *)
Theorem C10_display_filter_excludes_nothing :
  (forall normalizedScores,
      sortedDiseasesOf normalizedScores =
      firstn 10 (fst (sortedAllOf normalizedScores))) /\
  (exists input diseaseName,
      In diseaseName (priorityConditionsOf input) /\
      lookup (diseaseScoresOf input) diseaseName = None /\
      (exists zero,
          lookup (fold_left boost (priorityConditionsOf input) (diseaseScoresOf input))
                 diseaseName = Some zero /\ zero == 0) /\
      forall completion, exists output c,
          advancedSymptomAnalysis (Some "key") completion input = Resolved output /\
          In c (conditions output) /\
          condition c = diseaseName /\
          likelihood c == 0 /\ displayLikelihood c = "0%").
Proof.
  split.
  - intros ns. unfold sortedDiseasesOf.
    pose proof (sortedAllOf_refs ns) as R.
    destruct (sortedAllOf ns) as [sortedAll next]. simpl in *.
    rewrite filterShown_keeps_all by exact R. reflexivity.
  - exists zeroScoreInput, "Hyperthyroidism".
    split.
    { assert (E : existsb (String.eqb "Hyperthyroidism")
                          (priorityConditionsOf zeroScoreInput) = true)
        by (vm_compute; reflexivity).
      apply existsb_exists in E. destruct E as (x & Hx & Ex).
      apply String.eqb_eq in Ex. subst x. exact Hx. }
    split; [vm_compute; reflexivity|].
    split.
    { assert (E : match lookup (fold_left boost (priorityConditionsOf zeroScoreInput)
                                          (diseaseScoresOf zeroScoreInput))
                               "Hyperthyroidism" with
                  | Some zero => Qeq_bool zero 0
                  | None => false
                  end = true) by (vm_compute; reflexivity).
      destruct (lookup _ "Hyperthyroidism") as [zero|]; [|discriminate E].
      exists zero. split; [reflexivity | apply Qeq_bool_iff; exact E]. }
    exact zeroScoreInput_shown.
Qed.
End AdvancedClaims.

(** ** Time-course inference *)

Section TimeInferenceFacts.
Import Js TimeInference Statements.









Lemma In_by_eqb (x : string) (l : list string) :
  existsb (String.eqb x) l = true -> In x l.
Proof.
  rewrite existsb_exists. intros (y & Hy & E).
  apply String.eqb_eq in E. subst y. exact Hy.
Qed.

Ltac fixed_text := apply In_by_eqb; vm_compute; reflexivity.

(** The closing blocks keep a text that a rule has set and fill an empty
    one from the duration and pattern sentences. *)
Lemma buildInterpretation_fixed (r : TimeCourseResult) :
  interpretation r = "" \/
  In (interpretation r) [msgWeightLoss; msgCardiac; msgTremor; msgNeuro; msgDefault] ->
  In (interpretation (buildInterpretation r)) interpretations.
Proof.
  unfold buildInterpretation. cbn [interpretation].
  intros [E | H].
  - rewrite E. change (String.eqb "" "") with true. cbv iota.
    destruct (duration_days r) as [n|]; unfold durationSentence.
    + destruct (n =? 0); [destruct (pattern r); fixed_text|].
      destruct (n >? 90); [destruct (pattern r); fixed_text|].
      destruct (n >? 21); [destruct (pattern r); fixed_text|].
      destruct (n >? 14); destruct (pattern r); fixed_text.
    + destruct (pattern r); fixed_text.
  - simpl in H.
    destruct H as [E | [E | [E | [E | [E | []]]]]]; rewrite <- E; fixed_text.
Qed.

Lemma inferRules_interpretation (symptomsLower text : string) (d : option Z)
      (p : Pattern) :
  let r := inferRules symptomsLower text (mkResult d p "" false) in
  interpretation r = "" \/
  In (interpretation r) [msgWeightLoss; msgCardiac; msgTremor; msgNeuro; msgDefault].
Proof.
  unfold inferRules. cbn [duration_days pattern interpretation derived]. cbv zeta.
  repeat match goal with
         | |- context [if ?b then mkResult _ _ _ _ else _] => destruct b
         end; cbn [interpretation]; simpl; tauto.
Qed.

(** Whatever the input, the interpretation is one of the fixed texts. *)
Lemma interpretation_fixed (symptoms answers : list string) :
  In (interpretation (inferTimeCourse symptoms answers)) interpretations.
Proof.
  unfold inferTimeCourse. cbv zeta.
  apply buildInterpretation_fixed, inferRules_interpretation.
Qed.

(** Whatever the input, the interpretation is never empty and
    never says "not available" or "unavailable". *)
Lemma interpretation_never_unavailable (symptoms answers : list string) :
  let text := interpretation (inferTimeCourse symptoms answers) in
  text <> "" /\
  includes (toLowerCase text) "not available" = false /\
  includes (toLowerCase text) "unavailable" = false.
Proof.
  cbv zeta.
  assert (A : forallb (fun t => negb (String.eqb t "") &&
                                negb (includes (toLowerCase t) "not available") &&
                                negb (includes (toLowerCase t) "unavailable"))%bool
                      interpretations = true) by (vm_compute; reflexivity).
  rewrite forallb_forall in A.
  specialize (A _ (interpretation_fixed symptoms answers)).
  apply andb_true_iff in A. destruct A as [A C].
  apply andb_true_iff in A. destruct A as [A B].
  apply negb_true_iff in A, B, C.
  split; [apply String.eqb_neq; exact A | split; assumption].
Qed.

(** An empty symptom list with no answer falls through to the default
    chronic pattern over 30 days. *)
Lemma inferTimeCourse_empty :
  inferTimeCourse [] [] = mkResult (Some 30) chronic msgDefault true.
Proof.
  vm_compute. reflexivity.
Qed.
End TimeInferenceFacts.

Section TimeInferenceClaims.
Import Js TimeInference Statements.

(** C4, at an input where it fails: with one symptom and the answer
    "for 3 weeks" the inferencer returns the pattern [unknown]. *)
Theorem C4_pattern_left_unknown :
  inferTimeCourse ["fatigue"] ["for 3 weeks"] =
  mkResult (Some 21) unknown
    "Symptoms lasting over 2 weeks suggest a chronic condition rather than an acute illness."
    true.
Proof.
  vm_compute. reflexivity.
Qed.



End TimeInferenceClaims.

(** ** The threshold on the matched-symptom ratio *)

Section ThresholdClaims.
Local Open Scope Q_scope.
Import Js JsNum MedicalData Statements.

(** The counter of the inner loop counts the symptoms of positive relevance. *)
Lemma accumulate_count (W : list (string * SymptomWeight)) (d : DiseaseData)
      (symptoms : list string) :
  snd (Scoring.accumulate W d symptoms) =
  length (filter (fun s => ltb 0 (Scoring.getDiseaseRelevance d s)) symptoms).
Proof.
  unfold Scoring.accumulate.
  assert (G : forall acc,
             snd (fold_left
                    (fun acc symptom =>
                       if ltb 0 (Scoring.getDiseaseRelevance d symptom)
                       then (fst acc + Scoring.getDiseaseRelevance d symptom *
                                       Scoring.getSymptomScore W symptom,
                             S (snd acc))
                       else acc) symptoms acc) =
             (snd acc +
              length (filter (fun s => ltb 0 (Scoring.getDiseaseRelevance d s))
                             symptoms))%nat).
  { induction symptoms as [|s symptoms IH]; intros acc; simpl; [lia|].
    rewrite IH. destruct (ltb 0 (Scoring.getDiseaseRelevance d s)); simpl; lia. }
  apply (G (0, O)).
Qed.

Lemma symptomMatchRatio_matchedRatio (W : list (string * SymptomWeight))
      (d : DiseaseData) (symptoms : list string) :
  Scoring.symptomMatchRatio W d symptoms =
  matchedRatio (Scoring.getDiseaseRelevance d) symptoms.
Proof.
  unfold Scoring.symptomMatchRatio, matchedRatio. rewrite accumulate_count. reflexivity.
Qed.


Lemma advanced_calculateDiseaseScores_loop symptoms tc m pats prof involvement :
  Advanced.calculateDiseaseScores symptoms tc m pats prof involvement =
  fold_left
    (Advanced.scoreDisease symptoms tc m pats prof
       match involvement with
       | Some si => si
       | None => MultiSystemReasoning.analyzeSystemInvolvement symptoms
       end)
    DISEASE_DATABASE [].
Proof.
  reflexivity.
Qed.



End ThresholdClaims.

(** ** The key matching rule *)

Section LookupFacts.
Local Open Scope Q_scope.
Import Js JsNum MedicalData Statements.








Lemma find_by_name (ds : list DiseaseData) (d : DiseaseData) :
  NoDup (List.map name ds) -> In d ds ->
  find (fun d' => String.eqb (name d') (name d)) ds = Some d.
Proof.
  induction ds as [|d0 ds IH]; simpl; intros ND Hin; [contradiction|].
  inversion ND as [|x l Hx ND']; subst.
  destruct Hin as [-> | Hin].
  - rewrite String.eqb_refl. reflexivity.
  - destruct (String.eqb (name d0) (name d)) eqn:E.
    + apply String.eqb_eq in E. exfalso. apply Hx. rewrite E.
      apply in_map; exact Hin.
    + apply IH; assumption.
Qed.

Lemma distinct_NoDup (l : list string) : distinct l = true -> NoDup l.
Proof.
  induction l as [|x l IH]; simpl; intro H; [constructor|].
  apply andb_true_iff in H. destruct H as [Hx Hl].
  constructor; [|apply IH; exact Hl].
  intro Hin. apply negb_true_iff in Hx.
  assert (E : existsb (String.eqb x) l = true).
  { apply existsb_exists. exists x. split; [exact Hin | apply String.eqb_refl]. }
  congruence.
Qed.

Lemma DISEASE_DATABASE_names : NoDup (List.map name DISEASE_DATABASE).
Proof.
  apply distinct_NoDup. vm_compute. reflexivity.
Qed.

End LookupFacts.

Section LookupClaims.
Local Open Scope Q_scope.
Import Js JsNum MedicalData Statements.

End LookupClaims.

(** ** Red-flag multipliers *)

Section RedFlagClaims.
Local Open Scope Q_scope.
Import Js JsNum RedFlagDetection Statements.





End RedFlagClaims.

(** ** The statements at concrete inputs *)

Section Witnesses.
Local Open Scope Q_scope.
Import Js JsNum MedicalData Statements.

(** The range and display statement on the conditions scored for the one
    symptom "fatigue", of which there are some. *)
Lemma C2_likelihood_range_and_display_witness :
  Scoring.conditions (Scoring.scoreSymptoms SYMPTOM_WEIGHTS DISEASE_DATABASE
                                            ["fatigue"] []) <> [] /\
  Forall (fun c =>
            0.05 <= Scoring.likelihood c /\ Scoring.likelihood c <= 1 /\
            (0.10 <= Scoring.likelihood c ->
             includes (Scoring.displayLikelihood c) "%" = true) /\
            (0 < Scoring.likelihood c /\ Scoring.likelihood c < 0.10 ->
             Scoring.displayLikelihood c = "Low likelihood (<10%)"))
         (Scoring.conditions (Scoring.scoreSymptoms SYMPTOM_WEIGHTS DISEASE_DATABASE
                                                    ["fatigue"] [])).
Proof.
  split.
  - vm_compute. discriminate.
  - apply (proj1 (C2_likelihood_range_and_display SYMPTOM_WEIGHTS DISEASE_DATABASE
                                                  ["fatigue"] [])).
Defined.


End Witnesses.

(* ================================================================== *)
(** * Further properties of the code *)
(* ================================================================== *)

(** ** Sorting and maps *)

Section SortFacts.
Local Open Scope Q_scope.
Import JsNum Notions.

Variable A : Type.
Variable key : A -> Q.

Lemma insertCmp_descending (x : A) (l : list A) :
  descending key l -> descending key (insertCmp (fun a b => key b - key a) x l).
Proof.
  unfold descending. induction l as [|y l IH]; simpl; intro S.
  - constructor; constructor.
  - inversion S as [|y' l' Sl Fy]; subst.
    destruct (ltb 0 (key y - key x)) eqn:E.
    + apply ltb_true in E.
      constructor; [apply IH; exact Sl|].
      apply Forall_forall. intros z Hz.
      apply insertCmp_In in Hz. destruct Hz as [-> | Hz].
      * lra.
      * rewrite Forall_forall in Fy. apply Fy; exact Hz.
    + apply ltb_false in E.
      constructor; [exact S|].
      constructor; [lra|].
      rewrite Forall_forall in Fy. apply Forall_forall. intros z Hz.
      specialize (Fy z Hz). lra.
Qed.

Lemma sortCmp_descending (l : list A) :
  descending key (sortCmp (fun a b => key b - key a) l).
Proof.
  unfold sortCmp. induction l as [|x l IH]; simpl.
  - constructor.
  - apply insertCmp_descending; exact IH.
Qed.

Lemma firstn_descending (n : nat) (l : list A) :
  descending key l -> descending key (firstn n l).
Proof.
  unfold descending. revert l. induction n as [|n IH]; intros [|x l] S; simpl;
    try constructor.
  - inversion S; subst. apply IH; assumption.
  - inversion S as [|x' l' Sl Fx]; subst.
    rewrite Forall_forall in Fx. apply Forall_forall.
    intros z Hz. apply Fx. eapply firstn_incl; exact Hz.
Qed.

Lemma insertCmp_Permutation (cmp : A -> A -> Q) (x : A) (l : list A) :
  Permutation (insertCmp cmp x l) (x :: l).
Proof.
  induction l as [|y l IH]; simpl; [reflexivity|].
  destruct (ltb 0 (cmp x y)); [|reflexivity].
  rewrite IH. apply perm_swap.
Qed.

Lemma sortCmp_Permutation (cmp : A -> A -> Q) (l : list A) :
  Permutation (sortCmp cmp l) l.
Proof.
  unfold sortCmp. induction l as [|x l IH]; simpl; [reflexivity|].
  rewrite insertCmp_Permutation. constructor. exact IH.
Qed.
End SortFacts.

Section MapFacts.
Import Js.
Variable V : Type.

Lemma setEntry_keys (m : list (string * V)) (k : string) (v : V) :
  map fst (setEntry m k v) =
  if existsb (String.eqb k) (map fst m) then map fst m else (map fst m ++ [k])%list.
Proof.
  induction m as [|[k0 v0] m IH]; simpl; [reflexivity|].
  rewrite (String.eqb_sym k k0).
  destruct (String.eqb k0 k) eqn:E; simpl.
  - apply String.eqb_eq in E. subst. reflexivity.
  - rewrite IH. destruct (existsb (String.eqb k) (map fst m)); reflexivity.
Qed.

Lemma existsb_eqb_In (k : string) (l : list string) :
  existsb (String.eqb k) l = true <-> In k l.
Proof.
  rewrite existsb_exists. split.
  - intros (y & Hy & E). apply String.eqb_eq in E. subst. exact Hy.
  - intro H. exists k. split; [exact H | apply String.eqb_refl].
Qed.

Lemma setEntry_NoDup (m : list (string * V)) (k : string) (v : V) :
  NoDup (map fst m) -> NoDup (map fst (setEntry m k v)).
Proof.
  intro ND. rewrite setEntry_keys.
  destruct (existsb (String.eqb k) (map fst m)) eqn:E; [exact ND|].
  apply NoDup_app; [exact ND | repeat constructor; simpl; tauto |].
  intros x Hx [<- | []].
  apply existsb_eqb_In in Hx. congruence.
Qed.

Lemma setEntry_key_In (m : list (string * V)) (k : string) (v : V) :
  In k (map fst (setEntry m k v)).
Proof.
  rewrite setEntry_keys.
  destruct (existsb (String.eqb k) (map fst m)) eqn:E.
  - apply existsb_eqb_In; exact E.
  - apply in_or_app. right. left. reflexivity.
Qed.

Lemma setEntry_keys_incl (m : list (string * V)) (k k' : string) (v : V) :
  In k' (map fst m) -> In k' (map fst (setEntry m k v)).
Proof.
  rewrite setEntry_keys. destruct (existsb _ _); [tauto|].
  intro H. apply in_or_app. left; exact H.
Qed.

(** Insert, then look up: the value just set is the one found. *)
Lemma lookup_setEntry (m : list (string * V)) (k : string) (v : V) :
  lookup (setEntry m k v) k = Some v.
Proof.
  induction m as [|[k0 v0] m IH]; simpl.
  - rewrite String.eqb_refl. reflexivity.
  - destruct (String.eqb k0 k) eqn:E; simpl; rewrite E; [reflexivity | exact IH].
Qed.

Lemma lookup_setEntry_other (m : list (string * V)) (k k' : string) (v : V) :
  k' <> k -> lookup (setEntry m k v) k' = lookup m k'.
Proof.
  intro N. induction m as [|[k0 v0] m IH]; simpl.
  - destruct (String.eqb k k') eqn:E; [apply String.eqb_eq in E; congruence | reflexivity].
  - destruct (String.eqb k0 k) eqn:E; simpl.
    + apply String.eqb_eq in E. subst k0.
      destruct (String.eqb k k') eqn:E'; [apply String.eqb_eq in E'; congruence | reflexivity].
    + destruct (String.eqb k0 k'); [reflexivity | exact IH].
Qed.

Lemma lookup_In_keys (m : list (string * V)) (k : string) :
  In k (map fst m) -> exists v, lookup m k = Some v /\ In (k, v) m.
Proof.
  induction m as [|[k0 v0] m IH]; simpl; [tauto|].
  intro H. destruct (String.eqb k0 k) eqn:E.
  - apply String.eqb_eq in E. subst. exists v0. auto.
  - destruct H as [H | H]; [apply String.eqb_neq in E; congruence|].
    destruct (IH H) as (v & L & Hin). exists v. auto.
Qed.
End MapFacts.

(** ** The client-side scorer, further *)

Section ClientMore.
Local Open Scope Q_scope.
Import Js JsNum MedicalData Scoring Notions.

Variable W : list (string * SymptomWeight).
Variable D : list DiseaseData.

Lemma scoreDisease_NoDup symptoms priority (ds : list DiseaseData) (acc : list (string * Q)) :
  NoDup (map fst acc) ->
  NoDup (map fst (fold_left (scoreDisease W symptoms priority) ds acc)).
Proof.
  revert acc. induction ds as [|d ds IH]; simpl; intros acc ND; [exact ND|].
  apply IH. unfold scoreDisease.
  destruct (_ && _)%bool; [exact ND | apply setEntry_NoDup; exact ND].
Qed.

Lemma fold_setEntry_NoDup {E : Type} (key : E -> string) (val : E -> Q)
      (es : list E) (acc : list (string * Q)) :
  NoDup (map fst acc) ->
  NoDup (map fst (fold_left (fun m e => setEntry m (key e) (val e)) es acc)).
Proof.
  revert acc. induction es as [|e es IH]; simpl; intros acc ND; [exact ND|].
  apply IH, setEntry_NoDup; exact ND.
Qed.

Lemma normalizeScores_NoDup (scores : list (string * Q)) :
  NoDup (map fst scores) -> NoDup (map fst (normalizeScores scores)).
Proof.
  intro ND. unfold normalizeScores.
  destruct (Qeq_bool _ 0); [exact ND|].
  apply (fold_setEntry_NoDup fst (fun e => snd e / _)). constructor.
Qed.

(** What the loop of [scoreSymptoms] appends for one entry. *)
Lemma pushCondition_cases (symptoms : list string) (acc : list ConditionResult)
      (e : string * Q) :
  pushCondition D symptoms acc e = acc \/
  exists c d, pushCondition D symptoms acc e = (acc ++ [c])%list /\
              condition c = fst e /\ In d D /\ name d = fst e /\
              c_description c = description d /\
              c_webmd_search_term c = webmd_search_term d /\
              c_cluster c = cluster d /\
              clampDisplayScore (snd e) = Some (likelihood c, displayLikelihood c).
Proof.
  destruct e as [n sc]. unfold pushCondition.
  destruct (clampDisplayScore sc) as [[s disp]|] eqn:C; [|left; reflexivity].
  destruct (find _ D) as [d|] eqn:F; [|left; reflexivity].
  right. eexists. exists d. split; [reflexivity|]. simpl.
  apply find_some in F. destruct F as [Hd E]. apply String.eqb_eq in E.
  repeat split; auto.
Qed.

Lemma pushCondition_names (symptoms : list string) (entries : list (string * Q))
      (acc : list ConditionResult) :
  NoDup (map condition acc ++ map fst entries) ->
  NoDup (map condition (fold_left (pushCondition D symptoms) entries acc)).
Proof.
  revert acc. induction entries as [|e entries IH]; simpl; intros acc ND.
  - rewrite app_nil_r in ND. exact ND.
  - apply IH.
    destruct (pushCondition_cases symptoms acc e) as [-> | (c & d & -> & Hc & _)].
    + apply NoDup_remove_1 in ND. exact ND.
    + rewrite map_app. simpl. rewrite Hc. rewrite <- app_assoc. exact ND.
Qed.

Lemma getDisplayConditions_prefix (l : list ConditionResult) :
  exists n, fst (getDisplayConditions l) = firstn n l.
Proof.
  unfold getDisplayConditions. destruct l as [|c l]; [exists O; reflexivity|].
  match goal with |- context [if (?b && ?b')%bool then _ else _] =>
                    destruct (b && b')%bool end; cbn [fst]; eexists; reflexivity.
Qed.

(** The conditions that [scoreSymptoms] returns: a prefix of the sorted
    list of what the loop pushed. *)
Lemma scoreSymptoms_prefix (symptoms answers : list string) :
  exists n,
    conditions (scoreSymptoms W D symptoms answers) =
    firstn n (sortCmp (fun a b => likelihood b - likelihood a)
                (fold_left (pushCondition D symptoms)
                   (normalizeScores (calculateDiseaseScores W D symptoms answers)) [])).
Proof.
  unfold scoreSymptoms.
  match goal with |- context [getDisplayConditions ?l] =>
    destruct (getDisplayConditions_prefix l) as [n Hn];
    destruct (getDisplayConditions l) as [shown lbl] end.
  exists n. exact Hn.
Qed.

(** X1: The ranked list is in descending order of likelihood. *)
Theorem scoreSymptoms_ranked (symptoms answers : list string) :
  descending likelihood (conditions (scoreSymptoms W D symptoms answers)).
Proof.
  destruct (scoreSymptoms_prefix symptoms answers) as [n ->].
  apply firstn_descending, sortCmp_descending.
Qed.

(** X2: No condition is listed twice. *)
Theorem scoreSymptoms_no_duplicate (symptoms answers : list string) :
  NoDup (map condition (conditions (scoreSymptoms W D symptoms answers))).
Proof.
  destruct (scoreSymptoms_prefix symptoms answers) as [n ->].
  rewrite <- firstn_map.
  match goal with |- NoDup (firstn n ?l) => assert (ND : NoDup l) end.
  { eapply Permutation_NoDup.
    - apply Permutation_map. symmetry. apply sortCmp_Permutation.
    - apply pushCondition_names. simpl.
      apply normalizeScores_NoDup.
      unfold calculateDiseaseScores. apply scoreDisease_NoDup. constructor. }
  rewrite <- (firstn_skipn n) in ND. apply NoDup_app_remove_r in ND. exact ND.
Qed.

Lemma pushCondition_origin (symptoms : list string) (entries : list (string * Q))
      (acc : list ConditionResult) (c : ConditionResult) :
  In c (fold_left (pushCondition D symptoms) entries acc) ->
  In c acc \/
  exists d, In d D /\ name d = condition c /\
            c_description c = description d /\
            c_webmd_search_term c = webmd_search_term d /\
            c_cluster c = cluster d.
Proof.
  revert acc. induction entries as [|e entries IH]; simpl; intros acc H.
  - left; exact H.
  - destruct (IH _ H) as [H' | H']; [|right; exact H'].
    destruct (pushCondition_cases symptoms acc e)
      as [E | (c' & d & E & Hc & Hd & Hn & Hdesc & Hw & Hcl & _)];
      rewrite E in H'; [left; exact H'|].
    apply in_app_or in H'. destruct H' as [H' | [<- | []]]; [left; exact H'|].
    right. exists d. rewrite Hc. auto.
Qed.

(** X3: Every condition returned is a disease of the table and carries its
    description, its search term and its clusters. *)
Theorem scoreSymptoms_from_table (symptoms answers : list string) :
  Forall (fun c =>
            exists d, In d D /\ name d = condition c /\
                      c_description c = description d /\
                      c_webmd_search_term c = webmd_search_term d /\
                      c_cluster c = cluster d)
         (conditions (scoreSymptoms W D symptoms answers)).
Proof.
  apply Forall_forall. intros c H.
  destruct (scoreSymptoms_prefix symptoms answers) as [n E]. rewrite E in H.
  apply firstn_incl, sortCmp_In, pushCondition_origin in H.
  destruct H as [[] | H]. exact H.
Qed.

(** X4: With no symptom nothing is scored: no condition, no flag, no label. *)
Theorem scoreSymptoms_no_symptom (answers : list string) :
  scoreSymptoms W D [] answers = mkScored [] (mkRedFlags [] false) None.
Proof.
  assert (E : calculateDiseaseScores W D [] answers = []).
  { unfold calculateDiseaseScores.
    change (applyConditionFiltering []) with (@nil string).
    assert (G : forall acc, fold_left (scoreDisease W [] []) D acc = acc).
    { induction D as [|d ds IH]; intros acc; simpl; [reflexivity|]. apply IH. }
    apply G. }
  unfold scoreSymptoms. rewrite E. reflexivity.
Qed.

(** X5: The urgent mark is set exactly when a red flag was raised. *)
Theorem checkRedFlags_urgent (symptoms : list string) :
  urgent (checkRedFlags symptoms) = negb (Nat.eqb (length (flags (checkRedFlags symptoms))) 0).
Proof.
  unfold checkRedFlags. cbv zeta.
  repeat match goal with
         | |- context [if ?b then mkRedFlags _ _ else _] => destruct b
         end; reflexivity.
Qed.

Lemma scoreDisease_keys_kept symptoms priority (ds : list DiseaseData)
      (acc : list (string * Q)) (k : string) :
  In k (map fst acc) ->
  In k (map fst (fold_left (scoreDisease W symptoms priority) ds acc)).
Proof.
  revert acc. induction ds as [|d ds IH]; simpl; intros acc H; [exact H|].
  apply IH. unfold scoreDisease.
  destruct (_ && _)%bool; [exact H | apply setEntry_keys_incl; exact H].
Qed.

Lemma scoreDisease_enters symptoms priority (ds : list DiseaseData)
      (acc : list (string * Q)) (d : DiseaseData) :
  In d ds ->
  0.15 <= symptomMatchRatio W d symptoms \/ In (name d) priority ->
  In (name d) (map fst (fold_left (scoreDisease W symptoms priority) ds acc)).
Proof.
  revert acc. induction ds as [|d0 ds IH]; simpl; intros acc Hd G; [contradiction|].
  destruct Hd as [-> | Hd]; [|apply IH; assumption].
  apply scoreDisease_keys_kept. unfold scoreDisease.
  assert (B : (ltb (symptomMatchRatio W d symptoms) 0.15 &&
               negb (listIncludes priority (name d)))%bool = false).
  { destruct G as [G | G].
    - apply ltb_false in G. rewrite G. reflexivity.
    - assert (P : listIncludes priority (name d) = true).
      { unfold listIncludes. apply existsb_eqb_In. exact G. }
      rewrite P. apply andb_false_r. }
  rewrite B. apply setEntry_key_In.
Qed.

(** X6: The scored set of the simple scorer, exactly: a name is in it if and
    only if a disease of that name matches at least 15% of the symptoms or
    is a priority condition. *)
Theorem calculateDiseaseScores_scored_set (symptoms answers : list string) (k : string) :
  In k (map fst (calculateDiseaseScores W D symptoms answers)) <->
  exists d, In d D /\ name d = k /\
            (0.15 <= Statements.matchedRatio (getDiseaseRelevance d) symptoms \/
             In (name d) (applyConditionFiltering symptoms)).
Proof.
  unfold calculateDiseaseScores. split.
  - intro H. apply in_map_iff in H. destruct H as ([k' v] & <- & H).
    apply scoreDisease_guard in H. destruct H as [[] | (d & Hd & Hk & G)].
    exists d. rewrite <- symptomMatchRatio_matchedRatio with (W := W). auto.
  - intros (d & Hd & <- & G).
    rewrite <- symptomMatchRatio_matchedRatio with (W := W) in G.
    apply scoreDisease_enters; assumption.
Qed.
End ClientMore.

Section DisplayMore.
Local Open Scope Q_scope.
Import Js JsNum MedicalData Scoring Notions.


End DisplayMore.

(** ** The regular-expression matcher *)

Section MatcherFacts.
Import Js Notions.

Lemma isSuffix_refl (s : string) : isSuffix s s.
Proof.
  exists "". reflexivity.
Qed.

Lemma append_assoc (a b c : string) : (a ++ b) ++ c = a ++ (b ++ c).
Proof.
  induction a as [|x a IH]; simpl; [reflexivity | rewrite IH; reflexivity].
Qed.

Lemma isSuffix_trans (a b c : string) : isSuffix a b -> isSuffix b c -> isSuffix a c.
Proof.
  intros [p ->] [q ->]. exists (q ++ p). symmetry. apply append_assoc.
Qed.

Lemma isSuffix_tail (c : ascii) (s : string) : isSuffix s (String c s).
Proof.
  exists (String c ""). reflexivity.
Qed.

Lemma noDigit_suffix (rest s : string) :
  isSuffix rest s -> noDigit s = true -> noDigit rest = true.
Proof.
  intros [pre ->]. induction pre as [|c pre IH]; simpl; [tauto|].
  intro H. apply andb_true_iff in H. apply IH. tauto.
Qed.

Lemma allChars_snoc (p : ascii -> bool) (s : string) (c : ascii) :
  allChars p s = true -> p c = true -> allChars p (s ++ String c "") = true.
Proof.
  induction s as [|x s IH]; simpl; intros H Hc.
  - rewrite Hc. reflexivity.
  - apply andb_true_iff in H. destruct H as [Hx Hs]. rewrite Hx. apply IH; assumption.
Qed.

(** A greedy run hands its continuation a run of characters of the class
    and the rest of the text. *)
Lemma greedy_inv {A : Type} (p : ascii -> bool) (s taken : string)
      (k : string -> string -> option A) (x : A) :
  allChars p taken = true ->
  greedy p s taken k = Some x ->
  exists taken' rest,
    k taken' rest = Some x /\ allChars p taken' = true /\ isSuffix rest s /\
    (taken' = "" -> taken = "").
Proof.
  revert taken. induction s as [|c s IH]; simpl; intros taken T H.
  - exists taken, "". repeat split; auto using isSuffix_refl.
  - destruct (p c) eqn:Pc.
    + destruct (greedy p s (taken ++ String c "") k) as [y|] eqn:G.
      * inversion H; subst y.
        destruct (IH _ (allChars_snoc _ _ _ T Pc) G) as (t' & rest & K & T' & S & E).
        exists t', rest. repeat split; auto.
        -- eapply isSuffix_trans; [exact S | apply isSuffix_tail].
        -- intro Z. specialize (E Z). destruct taken; discriminate E.
      * exists taken, (String c s). repeat split; auto using isSuffix_refl.
    + exists taken, (String c s). repeat split; auto using isSuffix_refl.
Qed.

Lemma stripLit_suffix (lit s rest : string) :
  stripLit lit s = Some rest -> isSuffix rest s.
Proof.
  revert s. induction lit as [|b lit IH]; intros s H; simpl in H.
  - destruct s; inversion H; apply isSuffix_refl.
  - destruct s as [|a s]; [discriminate|].
    destruct (Ascii.eqb (lowerChar a) (lowerChar b)); [|discriminate].
    eapply isSuffix_trans; [apply IH; exact H | apply isSuffix_tail].
Qed.

(** A successful match ends in a successful call of the continuation, on a
    suffix of the text, with a numeral in group 1 if it was set. *)
Lemma matchAt_inv {A : Type} (r : regex) (s : string) (cap : option string)
      (k : string -> option string -> option A) (x : A) :
  capturesNumeral cap ->
  matchAt r s cap k = Some x ->
  exists rest cap',
    k rest cap' = Some x /\ isSuffix rest s /\ capturesNumeral cap' /\
    (groupless r = true -> cap' = cap).
Proof.
  revert s cap k x. induction r as [l| | | |r1 IH1 r2 IH2|r1 IH1 r2 IH2|r1 IH1];
    intros s cap k x C H; simpl in H.
  - destruct (stripLit l s) as [rest|] eqn:L; [|discriminate].
    exists rest, cap. repeat split; auto. eapply stripLit_suffix; exact L.
  - apply greedy_inv in H; [|reflexivity].
    destruct H as (t & rest & K & T & S & _).
    destruct t as [|c t]; [discriminate|].
    exists rest, (Some (String c t)). repeat split; auto; discriminate.
  - apply greedy_inv in H; [|reflexivity].
    destruct H as (t & rest & K & T & S & _). exists rest, cap. auto.
  - apply greedy_inv in H; [|reflexivity].
    destruct H as (t & rest & K & T & S & _).
    destruct t; [discriminate|]. exists rest, cap. auto.
  - destruct (matchAt r1 s cap k) as [y|] eqn:M.
    + inversion H; subst y. destruct (IH1 _ _ _ _ C M) as (rest & cap' & K & S & C' & G).
      exists rest, cap'. repeat split; auto. simpl. intro B.
      apply andb_true_iff in B. tauto.
    + destruct (IH2 _ _ _ _ C H) as (rest & cap' & K & S & C' & G).
      exists rest, cap'. repeat split; auto. simpl. intro B.
      apply andb_true_iff in B. tauto.
  - destruct (IH1 _ _ _ _ C H) as (rest1 & cap1 & K1 & S1 & C1 & G1).
    destruct (IH2 _ _ _ _ C1 K1) as (rest & cap' & K & S & C' & G).
    exists rest, cap'. repeat split; auto.
    + eapply isSuffix_trans; eassumption.
    + simpl. intro B. apply andb_true_iff in B. destruct B as [B1 B2].
      rewrite (G B2). apply G1; exact B1.
  - destruct (matchAt r1 s cap k) as [y|] eqn:M.
    + inversion H; subst y. destruct (IH1 _ _ _ _ C M) as (rest & cap' & K & S & C' & G).
      exists rest, cap'. auto.
    + exists s, cap. repeat split; auto using isSuffix_refl.
Qed.

(** [regexMatch] reports a match exactly when the regex matches at some
    position of the text. *)
Lemma regexMatch_sound (r : regex) (text : string) (cap : option string) :
  regexMatch r text = Some cap ->
  exists s, isSuffix s text /\ matchAt r s None (fun _ c => Some c) = Some cap.
Proof.
  induction text as [|c text IH]; simpl.
  - destruct (matchAt r "" None _) as [y|] eqn:M; [|discriminate].
    intro H. inversion H; subst. exists "". split; [apply isSuffix_refl | exact M].
  - destruct (matchAt r (String c text) None _) as [y|] eqn:M.
    + intro H. inversion H; subst. exists (String c text).
      split; [apply isSuffix_refl | exact M].
    + intro H. destruct (IH H) as (s & S & M'). exists s.
      split; [eapply isSuffix_trans; [exact S | apply isSuffix_tail] | exact M'].
Qed.

Lemma regexMatch_complete (r : regex) (text s : string) (cap : option string) :
  isSuffix s text ->
  matchAt r s None (fun _ c => Some c) = Some cap ->
  regexMatch r text <> None.
Proof.
  intros [pre ->]. induction pre as [|c pre IH]; intro M.
  - destruct s; simpl; rewrite M; discriminate.
  - change (String c pre ++ s) with (String c (pre ++ s)). simpl.
    destruct (matchAt r (String c (pre ++ s)) None _); [discriminate|].
    apply IH; exact M.
Qed.

(** What [regexMatch] captures is a numeral. *)
Lemma regexMatch_numeral (r : regex) (text : string) (cap : option string) :
  regexMatch r text = Some cap -> capturesNumeral cap.
Proof.
  intro H. apply regexMatch_sound in H. destruct H as (s & _ & M).
  apply matchAt_inv in M; [|exact I].
  destruct M as (rest & cap' & K & _ & C & _). inversion K; subst. exact C.
Qed.

(** A regex that needs a digit matches nothing in a text without digits. *)
Lemma matchAt_needsDigit {A : Type} (r : regex) (s : string) (cap : option string)
      (k : string -> option string -> option A) :
  needsDigit r = true -> noDigit s = true -> capturesNumeral cap ->
  matchAt r s cap k = None.
Proof.
  revert s cap k. induction r as [l| | | |r1 IH1 r2 IH2|r1 IH1 r2 IH2|r1 IH1];
    intros s cap k N D C; simpl in N; try discriminate; simpl.
  - destruct s as [|c s]; [reflexivity|].
    simpl in D. apply andb_true_iff in D. destruct D as [Dc _].
    apply negb_true_iff in Dc. simpl. rewrite Dc. reflexivity.
  - apply andb_true_iff in N. destruct N as [N1 N2].
    rewrite IH1 by assumption. apply IH2; assumption.
  - destruct (matchAt r1 s cap (fun rest cap' => matchAt r2 rest cap' k)) as [x|] eqn:M;
      [|reflexivity].
    exfalso. destruct (needsDigit r1) eqn:N1.
    + rewrite IH1 in M by assumption. discriminate.
    + simpl in N. apply matchAt_inv in M; [|exact C].
      destruct M as (rest & cap' & K & S & C' & _).
      rewrite IH2 in K; [discriminate | exact N | | exact C'].
      eapply noDigit_suffix; eassumption.
Qed.

Lemma regexMatch_needsDigit (r : regex) (text : string) :
  needsDigit r = true -> noDigit text = true -> regexMatch r text = None.
Proof.
  intros N. induction text as [|c text IH]; intro D; simpl.
  - rewrite matchAt_needsDigit; auto. exact I.
  - rewrite matchAt_needsDigit; [|exact N | exact D | exact I].
    apply IH. simpl in D. apply andb_true_iff in D. tauto.
Qed.

Lemma parseDigits_nonneg (d : string) (acc : Z) : 0 <= acc -> 0 <= parseDigits d acc.
Proof.
  revert acc. induction d as [|c d IH]; cbn [parseDigits]; intros acc H; [exact H|].
  destruct (isDigit c) eqn:E; [|exact H].
  apply IH. unfold isDigit in E. cbv zeta in E.
  apply andb_true_iff in E. destruct E as [E1 E2].
  apply Nat.leb_le in E1. unfold digitValue. lia.
Qed.

Lemma parseInt_numeral (d : string) :
  isNumeral d -> exists n, parseInt d = Some n /\ 0 <= n.
Proof.
  intros [NE AD]. destruct d as [|c d]; [congruence|].
  simpl in AD. apply andb_true_iff in AD. destruct AD as [Dc _].
  unfold parseInt.
  assert (T : trimStart (String c d) = String c d).
  { simpl. unfold isDigit in Dc. unfold isSpace.
    apply andb_true_iff in Dc. destruct Dc as [D1 D2].
    apply Nat.leb_le in D1. apply Nat.leb_le in D2.
    destruct (Nat.eqb (nat_of_ascii c) 32) eqn:E1.
    - apply Nat.eqb_eq in E1. lia.
    - destruct (Nat.leb (nat_of_ascii c) 13) eqn:E2.
      + apply Nat.leb_le in E2. lia.
      + rewrite andb_false_r. reflexivity. }
  rewrite T.
  assert (U : parseUnsigned (String c d) = Some (parseDigits (String c d) 0)).
  { unfold parseUnsigned. rewrite Dc. reflexivity. }
  assert (NS : c <> "-"%char /\ c <> "+"%char).
  { split; intro; subst c; discriminate Dc. }
  destruct NS as [N1 N2].
  exists (parseDigits (String c d) 0). split; [|apply parseDigits_nonneg; lia].
  rewrite <- U.
  destruct c as [[] [] [] [] [] [] [] []]; try reflexivity; congruence.
Qed.
End MatcherFacts.

(** ** Time-course inference, further *)

Section TimeInferenceMore.
Import Js TimeInference Notions.

Lemma firstDuration_nonneg (ps : list (regex * Z)) (text : string) (n : Z) :
  Forall (fun p => 0 < snd p) ps ->
  firstDuration ps text = Some n -> 0 <= n.
Proof.
  induction ps as [|[re m] ps IH]; simpl; intros P H; [discriminate|].
  inversion P as [|p ps' Pm Pps]; subst. simpl in Pm.
  destruct (regexMatch re text) as [cap|] eqn:M; [|apply IH; assumption].
  apply regexMatch_numeral in M.
  destruct cap as [d|]; [|discriminate].
  destruct (parseInt_numeral d M) as (v & E & V). rewrite E in H. simpl in H.
  inversion H; subst. nia.
Qed.

Lemma extractDuration_nonneg (text : string) (n : Z) :
  extractDurationFromText text = Some n -> 0 <= n.
Proof.
  apply firstDuration_nonneg. unfold durationPatterns.
  repeat constructor.
Qed.

Lemma truthy_positive (d : option Z) :
  (forall n, d = Some n -> 0 <= n) -> truthy d = true ->
  exists n, d = Some n /\ 0 < n.
Proof.
  intros N T. destruct d as [n|]; [|discriminate].
  simpl in T. apply negb_true_iff, Z.eqb_neq in T.
  exists n. split; [reflexivity|]. specialize (N n eq_refl). lia.
Qed.

Lemma orNum_positive (d : option Z) (dflt : Z) :
  (forall n, d = Some n -> 0 <= n) -> 0 < dflt ->
  exists n, orNum d dflt = Some n /\ 0 < n.
Proof.
  intros N P. unfold orNum. destruct (truthy d) eqn:T.
  - apply truthy_positive; assumption.
  - exists dflt. auto.
Qed.

(** X8: The result always has a duration, a positive number of days. *)
Theorem inferTimeCourse_duration_positive (symptoms answers : list string) :
  exists n, duration_days (inferTimeCourse symptoms answers) = Some n /\ 0 < n.
Proof.
  unfold inferTimeCourse. cbv zeta.
  set (text := toLowerCase (join " " symptoms ++ " " ++ join " " answers)).
  set (sl := toLowerCase (join " " symptoms)).
  pose proof (extractDuration_nonneg text) as N.
  set (d := extractDurationFromText text) in *.
  set (p := explicitPattern text d).
  unfold buildInterpretation. cbn [duration_days].
  unfold inferRules. cbn [duration_days pattern interpretation derived]. cbv zeta.
  destruct (isUnknown p || negb (truthy d))%bool eqn:G.
  - repeat match goal with
           | |- context [if ?b then mkResult _ _ _ _ else _] =>
               destruct b eqn:?; cbn [duration_days]
           end;
      try (apply orNum_positive; [exact N | lia]).
    + exists 30. split; [reflexivity | lia].
    + apply truthy_positive; [exact N|].
      match goal with H : negb (truthy d) = false |- _ =>
        apply negb_false_iff in H; exact H end.
  - cbn [duration_days]. apply orb_false_iff in G. destruct G as [_ G].
    apply negb_false_iff in G. apply truthy_positive; assumption.
Qed.

Lemma extractDuration_noDigit (text : string) :
  noDigit text = true -> extractDurationFromText text = None.
Proof.
  intro D. unfold extractDurationFromText, durationPatterns, firstDuration.
  repeat (rewrite regexMatch_needsDigit; [|reflexivity | exact D]).
  reflexivity.
Qed.

(** X9: With no digit in the symptoms and answers the duration is one of the
    four defaults and the result is marked as derived. *)
Theorem inferTimeCourse_without_number (symptoms answers : list string) :
  noDigit (toLowerCase (join " " symptoms ++ " " ++ join " " answers)) = true ->
  derived (inferTimeCourse symptoms answers) = true /\
  In (duration_days (inferTimeCourse symptoms answers))
     [Some 21; Some 30; Some 60; Some 45].
Proof.
  intro D. unfold inferTimeCourse. cbv zeta.
  rewrite (extractDuration_noDigit _ D).
  unfold buildInterpretation. cbn [duration_days derived].
  unfold inferRules. cbn [duration_days pattern interpretation derived]. cbv zeta.
  change (truthy None) with false. change (negb false) with true.
  rewrite orb_true_r. cbv iota.
  repeat match goal with
         | |- context [if ?b then mkResult _ _ _ _ else _] => destruct b
         end; cbn [duration_days derived orNum truthy]; simpl; tauto.
Qed.

Lemma inferTimeCourse_without_number_witness :
  derived (inferTimeCourse ["fatigue"] ["it comes and goes"]) = true /\
  In (duration_days (inferTimeCourse ["fatigue"] ["it comes and goes"]))
     [Some 21; Some 30; Some 60; Some 45].
Proof.
  apply (inferTimeCourse_without_number ["fatigue"] ["it comes and goes"]).
  reflexivity.
Defined.



(** A pattern with a "for/since/over/last" prefix matches only where the
    pattern without the prefix matches too. *)
Lemma reSince_needs_reAmount (long short text : string) :
  regexMatch (reAmount long short) text = None ->
  regexMatch (reSince long short) text = None.
Proof.
  intro N. destruct (regexMatch (reSince long short) text) as [cap|] eqn:M;
    [|reflexivity].
  exfalso. apply regexMatch_sound in M. destruct M as (s & S & M).
  unfold reSince in M.
  change (matchAt (Seq ?a ?b) s None ?k)
    with (matchAt a s None (fun rest cap' => matchAt b rest cap' k)) in M.
  apply matchAt_inv in M; [|exact I].
  destruct M as (rest1 & cap1 & M & S1 & _ & G). rewrite (G eq_refl) in M.
  change (matchAt (Seq ?a ?b) rest1 None ?k)
    with (matchAt a rest1 None (fun rest cap' => matchAt b rest cap' k)) in M.
  apply matchAt_inv in M; [|exact I].
  destruct M as (rest2 & cap2 & M & S2 & _ & G2). rewrite (G2 eq_refl) in M.
  eapply regexMatch_complete; [|exact M|exact N].
  eapply isSuffix_trans; [exact S2|]. eapply isSuffix_trans; eassumption.
Qed.

(** X11: The three prefixed patterns of [extractDurationFromText] (four in
    [extractTimeCourseData]) never decide: the patterns without prefix,
    which come first, give the same duration on every text. *)
Theorem prefixed_duration_patterns_unused (text : string) :
  extractDurationFromText text = firstDuration (firstn 4 durationPatterns) text /\
  firstDuration TimeCourseLogic.durationPatterns text =
  firstDuration (firstn 4 TimeCourseLogic.durationPatterns) text.
Proof.
  unfold extractDurationFromText, durationPatterns, TimeCourseLogic.durationPatterns.
  cbn [firstn firstDuration].
  destruct (regexMatch (reAmount "day" "d") text) eqn:E1; [split; reflexivity|].
  destruct (regexMatch (reAmount "week" "w") text) eqn:E2; [split; reflexivity|].
  destruct (regexMatch (reAmount "month" "mo") text) eqn:E3; [split; reflexivity|].
  destruct (regexMatch (reAmount "year" "y") text) eqn:E4; [split; reflexivity|].
  rewrite !reSince_needs_reAmount by assumption. split; reflexivity.
Qed.
End TimeInferenceMore.

(** ** Time-course logic of the advanced pipeline, further *)

Section TimeCourseLogicMore.
Local Open Scope Q_scope.
Import Js JsNum TimeInference TimeCourseLogic Notions.



Lemma adjust_multiplier (duration : Z) (pattern : Pattern) (diseaseName : string) :
  0 < fst (adjust duration pattern diseaseName) /\
  fst (adjust duration pattern diseaseName) <= 2.
Proof.
  unfold adjust. cbv zeta.
  destruct (duration >? 14)%Z;
    [|destruct ((duration >? 0)%Z && (duration <=? 14)%Z)%bool];
    destruct (someIncluded acuteDiseases diseaseName);
    destruct (someIncluded chronicDiseases diseaseName);
    destruct pattern;
    destruct (someIncluded autoimmuneDiseases diseaseName);
    destruct (someIncluded neurologicDiseases diseaseName);
    cbn [fst snd]; split; apply Qlt_alt || apply Qle_alt; vm_compute;
    reflexivity || discriminate.
Qed.

(** X13: [applyTimeCourseLogic] answers with adjustments for names it was
    given, at most one for each, and every multiplier in them is positive,
    at most 2 and different from 1. *)
Theorem applyTimeCourseLogic_adjustments (timeCourse : TimeCourseData)
        (diseaseNames : list string) :
  (length (applyTimeCourseLogic timeCourse diseaseNames) <= length diseaseNames)%nat /\
  Forall (fun a => In (diseaseName a) diseaseNames /\
                   0 < multiplier a /\ multiplier a <= 2 /\ ~ multiplier a == 1)
         (applyTimeCourseLogic timeCourse diseaseNames).
Proof.
  unfold applyTimeCourseLogic. cbv zeta.
  set (duration := match orNum (tc_duration_days timeCourse) 0 with
                   | Some n => n | None => 0%Z end).
  set (step := fun adjustments diseaseName => _).
  assert (G : forall names acc,
             (length (fold_left step names acc) <= length acc + length names)%nat /\
             (Forall (fun a => In (TimeCourseLogic.diseaseName a) (diseaseNames) /\
                               0 < multiplier a /\ multiplier a <= 2 /\
                               ~ multiplier a == 1) acc ->
              incl names diseaseNames ->
              Forall (fun a => In (TimeCourseLogic.diseaseName a) (diseaseNames) /\
                               0 < multiplier a /\ multiplier a <= 2 /\
                               ~ multiplier a == 1)
                     (fold_left step names acc))).
  { induction names as [|n names IH]; intros acc; simpl.
    - split; [lia | auto].
    - destruct (IH (step acc n)) as [L F]. split.
      + etransitivity; [exact L|]. subst step. cbv beta.
        destruct (adjust duration (tc_pattern timeCourse) n) as [m reasons].
        destruct (negb (Qeq_bool m 1.0)); [rewrite length_app; simpl; lia | lia].
      + intros Hacc Hincl. apply F.
        * subst step. cbv beta.
          pose proof (adjust_multiplier duration (tc_pattern timeCourse) n) as [P U].
          destruct (adjust duration (tc_pattern timeCourse) n) as [m reasons].
          simpl in P, U.
          destruct (Qeq_bool m 1.0) eqn:E; cbn [negb]; [exact Hacc|].
          apply Forall_app. split; [exact Hacc|].
          constructor; [|constructor]. cbn [TimeCourseLogic.diseaseName multiplier].
          split; [apply Hincl; left; reflexivity|].
          split; [exact P|]. split; [exact U|].
          intro Q1. apply Qeq_bool_neq in E. apply E. rewrite Q1. reflexivity.
        * intros x Hx. apply Hincl. right; exact Hx. }
  destruct (G diseaseNames []) as [L F]. split; [exact L|].
  apply F; [constructor | apply incl_refl].
Qed.
End TimeCourseLogicMore.

(** ** Red flags and patterns, further *)

Section RedFlagMore.
Local Open Scope Q_scope.
Import Js JsNum RedFlagDetection Notions.

Lemma product_at_least_one (x y : Q) : 1 <= x -> 1 <= y -> 1 <= x * y.
Proof.
  intros X Y. nra.
Qed.

Ltac rule_step :=
  match goal with
  | |- context [if ?b then _ else _] => destruct b
  end.

Lemma rules_raise (text : string) (st : Detection) :
  atLeastOne (multipliers st) ->
  atLeastOne (multipliers (ruleWeightLoss text st)) /\
  atLeastOne (multipliers (ruleNightSweats text st)) /\
  atLeastOne (multipliers (ruleNeuroVisual text st)) /\
  atLeastOne (multipliers (ruleOrthostatic text st)) /\
  atLeastOne (multipliers (ruleOrthostaticNeuro text st)).
Proof.
  unfold atLeastOne. intros (A & B & C & D & E & F).
  unfold ruleWeightLoss, ruleNightSweats, ruleNeuroVisual, ruleOrthostatic,
         ruleOrthostaticNeuro. cbv zeta.
  repeat split; repeat rule_step; simpl; lra.
Qed.

Lemma detectRedFlags_raise (symptoms : string) (answers : list string) :
  atLeastOne (multipliers (detectRedFlags symptoms answers)).
Proof.
  unfold detectRedFlags. cbv zeta.
  apply rules_raise, rules_raise, rules_raise, rules_raise, rules_raise.
  unfold atLeastOne. simpl. repeat split; lra.
Qed.

Lemma applyRedFlagMultipliers_raise (diseaseName : string) (m : RedFlagMultipliers) :
  atLeastOne m -> 1 <= applyRedFlagMultipliers diseaseName m.
Proof.
  intros (A & B & C & D & E & F).
  unfold applyRedFlagMultipliers. cbv zeta.
  repeat rule_step; repeat apply product_at_least_one; auto; lra.
Qed.

(** X14: No red-flag rule lowers a multiplier: after [detectRedFlags] each of
    the six is at least 1, and so is the multiplier that
    [applyRedFlagMultipliers] gives any condition. *)
Theorem red_flag_multipliers_at_least_one
        (symptoms : string) (answers : list string) (diseaseName : string) :
  atLeastOne (multipliers (detectRedFlags symptoms answers)) /\
  1 <= applyRedFlagMultipliers diseaseName (multipliers (detectRedFlags symptoms answers)).
Proof.
  split; [|apply applyRedFlagMultipliers_raise]; apply detectRedFlags_raise.
Qed.

Lemma mathMin_cases (a b : Q) :
  (mathMin a b = a /\ a <= b) \/ (mathMin a b = b /\ b <= a).
Proof.
  unfold mathMin. destruct (Qle_bool a b) eqn:E.
  - left. split; [reflexivity | apply Qle_bool_iff; exact E].
  - right. split; [reflexivity|].
    apply not_true_iff_false in E. rewrite Qle_bool_iff in E. lra.
Qed.

Lemma rules_flags (text : string) (st : Detection) :
  Forall wellFormedFlag (redFlags st) ->
  Forall wellFormedFlag (redFlags (ruleWeightLoss text st)) /\
  Forall wellFormedFlag (redFlags (ruleNightSweats text st)) /\
  Forall wellFormedFlag (redFlags (ruleNeuroVisual text st)) /\
  Forall wellFormedFlag (redFlags (ruleOrthostatic text st)) /\
  Forall wellFormedFlag (redFlags (ruleOrthostaticNeuro text st)).
Proof.
  intro F.
  assert (K : forall rf, wellFormedFlag rf ->
                         Forall wellFormedFlag (redFlags st ++ [rf])).
  { intros rf H. apply Forall_app. split; [exact F | constructor; [exact H | constructor]]. }
  unfold ruleWeightLoss, ruleNightSweats, ruleNeuroVisual, ruleOrthostatic,
         ruleOrthostaticNeuro. cbv zeta.
  repeat split.
  - destruct (_ || _)%bool; [|exact F].
    destruct (Qle_bool 2 (weightLossAmount text)) eqn:E; [|exact F].
    apply Qle_bool_iff in E. cbn [redFlags]. apply K.
    unfold wellFormedFlag. cbn [detected severity].
    split; [reflexivity|].
    destruct (mathMin_cases (weightLossAmount text / 5) 1.0) as [[-> L] | [-> L]].
    + split; [|lra]. apply Qlt_shift_div_l; lra.
    + split; lra.
  - rule_step; [|exact F]. apply K. unfold wellFormedFlag. simpl. repeat split; lra.
  - rule_step; [|exact F]. apply K. unfold wellFormedFlag. simpl. repeat split; lra.
  - rule_step; [|exact F]. apply K. unfold wellFormedFlag. simpl. repeat split; lra.
  - rule_step; exact F.
Qed.

Lemma rules_count (text : string) (st : Detection) :
  (length (redFlags (ruleWeightLoss text st)) <= S (length (redFlags st)))%nat /\
  (length (redFlags (ruleNightSweats text st)) <= S (length (redFlags st)))%nat /\
  (length (redFlags (ruleNeuroVisual text st)) <= S (length (redFlags st)))%nat /\
  (length (redFlags (ruleOrthostatic text st)) <= S (length (redFlags st)))%nat /\
  (length (redFlags (ruleOrthostaticNeuro text st)) = length (redFlags st))%nat.
Proof.
  unfold ruleWeightLoss, ruleNightSweats, ruleNeuroVisual, ruleOrthostatic,
         ruleOrthostaticNeuro. cbv zeta.
  repeat split; repeat rule_step; cbn [redFlags]; rewrite ?length_app; simpl; lia.
Qed.

(** X15: [detectRedFlags] returns at most four flags; each is marked detected
    and has a severity above 0 and at most 1. *)
Theorem red_flags_well_formed (symptoms : string) (answers : list string) :
  (length (redFlags (detectRedFlags symptoms answers)) <= 4)%nat /\
  Forall wellFormedFlag (redFlags (detectRedFlags symptoms answers)).
Proof.
  unfold detectRedFlags. cbv zeta.
  set (text := toLowerCase (symptoms ++ " " ++ join " " answers)).
  set (s0 := mkDetection [] initialMultipliers).
  set (s1 := ruleWeightLoss text s0). set (s2 := ruleNightSweats text s1).
  set (s3 := ruleNeuroVisual text s2). set (s4 := ruleOrthostatic text s3).
  split.
  - pose proof (rules_count text s0) as (L1 & _).
    pose proof (rules_count text s1) as (_ & L2 & _).
    pose proof (rules_count text s2) as (_ & _ & L3 & _).
    pose proof (rules_count text s3) as (_ & _ & _ & L4 & _).
    pose proof (rules_count text s4) as (_ & _ & _ & _ & L5).
    fold s1 in L1. fold s2 in L2. fold s3 in L3. fold s4 in L4.
    rewrite L5. change (length (redFlags s0)) with O in L1. lia.
  - apply rules_flags. fold s4. apply rules_flags. fold s3. apply rules_flags.
    fold s2. apply rules_flags. fold s1. apply rules_flags. constructor.
Qed.
End RedFlagMore.

Section PatternMore.
Local Open Scope Q_scope.
Import Js JsNum PatternDetection Notions.

Lemma applyPatternMultipliers_at_least_one (diseaseName : string)
      (patterns : list PatternMatch) :
  Forall (fun p => 1 <= multiplier p) patterns ->
  1 <= applyPatternMultipliers diseaseName patterns.
Proof.
  unfold applyPatternMultipliers.
  assert (G : forall acc, 1 <= acc ->
                Forall (fun p => 1 <= multiplier p) patterns ->
                1 <= fold_left
                       (fun m p =>
                          if (detected p &&
                              existsb (fun d => includes diseaseName d) (diseases p))%bool
                          then m * multiplier p else m) patterns acc).
  { induction patterns as [|p ps IH]; simpl; intros acc A F; [exact A|].
    inversion F; subst. apply IH; [|assumption].
    destruct (_ && _)%bool; [apply product_at_least_one; assumption | exact A]. }
  apply G. lra.
Qed.

Lemma detectPatterns_multipliers (symptoms : string) (answers : list string) :
  Forall (fun p => detected p = true /\ 1 <= multiplier p /\ multiplier p <= 2)
         (detectPatterns symptoms answers).
Proof.
  unfold detectPatterns. cbv zeta.
  repeat match goal with
         | |- context [if ?b then (_ ++ _)%list else _] => destruct b
         end; simpl; repeat constructor; simpl; lra.
Qed.

(** X16: A detected pattern never lowers a score: the multiplier that
    [applyPatternMultipliers] gives a condition from the patterns of
    [detectPatterns] is at least 1. *)
Theorem pattern_multiplier_at_least_one (symptoms : string) (answers : list string)
        (diseaseName : string) :
  1 <= applyPatternMultipliers diseaseName (detectPatterns symptoms answers).
Proof.
  apply applyPatternMultipliers_at_least_one.
  eapply Forall_impl; [|apply detectPatterns_multipliers].
  intros p (_ & L & _). exact L.
Qed.
End PatternMore.

(** ** Body systems, further *)

Section MultiSystemMore.
Local Open Scope Q_scope.
Import Js JsNum MultiSystemReasoning Notions.

Lemma ofNat_nonneg (n : nat) : 0 <= ofNat n.
Proof.
  unfold ofNat. change 0 with (inject_Z 0). rewrite <- Zle_Qle. lia.
Qed.

Lemma ofNat_le (a b : nat) : (a <= b)%nat -> ofNat a <= ofNat b.
Proof.
  intro H. unfold ofNat. rewrite <- Zle_Qle. lia.
Qed.

Lemma ofNat_pos (n : nat) : (0 < n)%nat -> 0 < ofNat n.
Proof.
  intro H. unfold ofNat. change 0 with (inject_Z 0). rewrite <- Zlt_Qlt. lia.
Qed.

Lemma ratio_unit (a b : nat) : (a <= b)%nat -> (0 < b)%nat ->
  0 <= ofNat a / ofNat b /\ ofNat a / ofNat b <= 1.
Proof.
  intros L P. pose proof (ofNat_pos b P) as Pb. split.
  - apply Qle_shift_div_l; [exact Pb|]. rewrite Qmult_0_l. apply ofNat_nonneg.
  - apply Qle_shift_div_r; [exact Pb|]. rewrite Qmult_1_l. apply ofNat_le; exact L.
Qed.

Lemma getConditionSystems_nonempty (conditionName : string) :
  (0 < length (getConditionSystems conditionName))%nat.
Proof.
  unfold getConditionSystems.
  destruct (find _ conditionSystemMap) as [[k systems]|] eqn:F; [|simpl; lia].
  apply find_some in F. destruct F as [Hin _].
  assert (A : forallb (fun e : string * list string => Nat.ltb 0 (length (snd e)))
                      conditionSystemMap = true) by reflexivity.
  rewrite forallb_forall in A. specialize (A _ Hin). apply Nat.ltb_lt in A. exact A.
Qed.

(** X17: The system overlap of a condition is a fraction between 0 and 1. *)
Theorem system_overlap_is_fraction (conditionName : string)
        (involvedSystems : list SystemInvolvement) :
  0 <= calculateMultiSystemOverlap (getConditionSystems conditionName) involvedSystems /\
  calculateMultiSystemOverlap (getConditionSystems conditionName) involvedSystems <= 1.
Proof.
  unfold calculateMultiSystemOverlap. cbv zeta.
  pose proof (getConditionSystems_nonempty conditionName) as P.
  apply ratio_unit.
  - etransitivity; [apply filter_length_le | apply Nat.le_max_l].
  - lia.
Qed.




Lemma lookup_In (V : Type) (m : list (string * V)) (k : string) (v : V) :
  lookup m k = Some v -> In (k, v) m.
Proof.
  induction m as [|[k0 v0] m IH]; simpl; [discriminate|].
  destruct (String.eqb k0 k) eqn:E.
  - apply String.eqb_eq in E. intro H. inversion H; subst. left; reflexivity.
  - intro H. right. apply IH; exact H.
Qed.

Lemma In_lookup (V : Type) (m : list (string * V)) (k : string) (v : V) :
  NoDup (map fst m) -> In (k, v) m -> lookup m k = Some v.
Proof.
  induction m as [|[k0 v0] m IH]; simpl; intros ND H; [contradiction|].
  inversion ND as [|x l Hx ND']; subst.
  destruct H as [H | H].
  - inversion H; subst. rewrite String.eqb_refl. reflexivity.
  - destruct (String.eqb k0 k) eqn:E; [|apply IH; assumption].
    apply String.eqb_eq in E. subst k0. exfalso. apply Hx.
    apply (in_map fst) in H. exact H.
Qed.



End MultiSystemMore.

(** ** Cluster classification, further *)

Section ClusterMore.
Local Open Scope Q_scope.
Import Js JsNum MedicalData ClusterClassification Notions.

Lemma total_app (a b : list Q) : total (a ++ b) == total a + total b.
Proof.
  unfold total. induction a as [|x a IH]; simpl; [ring | rewrite IH; ring].
Qed.







(** X20: [getDominantClusters] never returns an empty list, and what it returns
    are clusters of its argument or the catch-all cluster. *)
Theorem getDominantClusters_nonempty (clusterScores : list ClusterScore) :
  getDominantClusters clusterScores <> [] /\
  Forall (fun c => c = "metabolic/nutritional" \/ In c (map cluster clusterScores))
         (getDominantClusters clusterScores).
Proof.
  assert (T : forall cs cum th,
             Forall (fun c => In c (map cluster cs)) (takeDominant cs cum th)).
  { induction cs as [|c cs IH]; intros cum th; simpl; [constructor|].
    assert (W : forall x y, Forall (fun c0 => In c0 (map cluster cs)) (takeDominant cs x y) ->
                Forall (fun c0 => cluster c = c0 \/ In c0 (map cluster cs))
                       (takeDominant cs x y)).
    { intros x y F. eapply Forall_impl; [|exact F]. intros a Ha. right; exact Ha. }
    destruct (ltb 0 (score c)); [|apply W, IH].
    destruct (Qle_bool th (cum + score c)).
    - constructor; [left; reflexivity | constructor].
    - constructor; [left; reflexivity | apply W, IH]. }
  unfold getDominantClusters.
  destruct clusterScores as [|top rest];
    [split; [discriminate | repeat constructor; left; reflexivity]|].
  cbv zeta. destruct (Qeq_bool _ 0);
    [split; [discriminate | repeat constructor; left; reflexivity]|].
  specialize (T (top :: rest) 0).
  match goal with |- context [takeDominant _ 0 ?th] =>
    specialize (T th); destruct (takeDominant (top :: rest) 0 th) as [|x l] end.
  - split; [discriminate|]. constructor; [right; left; reflexivity | constructor].
  - split; [discriminate|]. eapply Forall_impl; [|exact T]. intros a Ha. right; exact Ha.
Qed.
End ClusterMore.

(** ** The symptom list of the advanced analysis *)

Section SymptomListMore.
Import Js JsNum MedicalData Advanced Notions.



Lemma trimStart_head (s : string) :
  match trimStart s with
  | EmptyString => True
  | String c _ => isSpace c = false
  end.
Proof.
  induction s as [|c s IH]; simpl; [exact I|].
  destruct (isSpace c) eqn:E; [exact IH | exact E].
Qed.




Lemma trimEnd_idempotent (s : string) : trimEnd (trimEnd s) = trimEnd s.
Proof.
  induction s as [|c s IH]; simpl; [reflexivity|].
  destruct (trimEnd s) as [|c' t] eqn:E.
  - destruct (isSpace c) eqn:Sp; simpl; [reflexivity | rewrite Sp; reflexivity].
  - cbn [trimEnd] in *. rewrite IH. reflexivity.
Qed.

Lemma trimEnd_head (c : ascii) (s : string) :
  isSpace c = false -> exists t, trimEnd (String c s) = String c t.
Proof.
  intro Sp. simpl. destruct (trimEnd s) as [|c' t].
  - rewrite Sp. exists "". reflexivity.
  - exists (String c' t). reflexivity.
Qed.


Lemma trim_idempotent (s : string) : trim (trim s) = trim s.
Proof.
  unfold trim. pose proof (trimStart_head s) as H.
  destruct (trimStart s) as [|c u].
  - reflexivity.
  - destruct (trimEnd_head c u H) as [t E]. rewrite E.
    cbn [trimStart]. rewrite H, <- E. apply trimEnd_idempotent.
Qed.







Section Call.
Variable apiKey : option string.
Variable completion : string -> list string -> list string -> Q -> option string.

End Call.
End SymptomListMore.

(** ** The advanced analysis, further *)

Section AdvancedMore.
Local Open Scope Q_scope.
Import Js JsNum MedicalData Advanced Notions.

Lemma entriesFrom_keys (m : list (string * Q)) (next : nat) :
  map p_key (fst (entriesFrom m next)) = map fst m.
Proof.
  revert next. induction m as [|[k v] m IH]; intros next; simpl; [reflexivity|].
  specialize (IH (S next)). destruct (entriesFrom m (S next)) as [rest next'].
  simpl in *. rewrite IH. reflexivity.
Qed.

Lemma entriesFrom_entries (m : list (string * Q)) (next : nat) (p : Pair) :
  In p (fst (entriesFrom m next)) -> In (p_key p, p_value p) m.
Proof.
  revert next. induction m as [|[k v] m IH]; intros next; simpl; [tauto|].
  specialize (IH (S next)). destruct (entriesFrom m (S next)) as [rest next'].
  simpl in *. intros [<- | H]; [left; reflexivity | right; apply IH; exact H].
Qed.

(** The filter of [advancedSymptomAnalysis] keeps everything, so that the
    diseases shown are the first ten of the sorted entries. *)
Lemma sortedDiseasesOf_prefix (ns : list (string * Q)) :
  sortedDiseasesOf ns =
  firstn 10 (sortCmp (fun a b => p_value b - p_value a) (fst (entriesFrom ns 0))).
Proof.
  unfold sortedDiseasesOf. pose proof (sortedAllOf_refs ns) as R.
  destruct (sortedAllOf ns) as [sortedAll next] eqn:E. simpl in R.
  rewrite filterShown_keeps_all by exact R.
  unfold sortedAllOf in E. destruct (entriesFrom ns 0) as [es n].
  inversion E. reflexivity.
Qed.

Lemma sortedDiseasesOf_length (ns : list (string * Q)) :
  (length (sortedDiseasesOf ns) <= 10)%nat.
Proof.
  rewrite sortedDiseasesOf_prefix. apply firstn_le_length.
Qed.

Lemma sortedDiseasesOf_descending (ns : list (string * Q)) :
  descending p_value (sortedDiseasesOf ns).
Proof.
  rewrite sortedDiseasesOf_prefix. apply firstn_descending, sortCmp_descending.
Qed.

Lemma firstn_NoDup {A : Type} (n : nat) (l : list A) : NoDup l -> NoDup (firstn n l).
Proof.
  intro ND. rewrite <- (firstn_skipn n l) in ND.
  apply NoDup_app_remove_r in ND. exact ND.
Qed.

Lemma sortedDiseasesOf_NoDup (ns : list (string * Q)) :
  NoDup (map fst ns) -> NoDup (map p_key (sortedDiseasesOf ns)).
Proof.
  intro ND. rewrite sortedDiseasesOf_prefix, <- firstn_map. apply firstn_NoDup.
  eapply Permutation_NoDup.
  - apply Permutation_map. symmetry. apply sortCmp_Permutation.
  - rewrite entriesFrom_keys. exact ND.
Qed.

Lemma sortedDiseasesOf_entries (ns : list (string * Q)) (p : Pair) :
  In p (sortedDiseasesOf ns) -> In (p_key p, p_value p) ns.
Proof.
  rewrite sortedDiseasesOf_prefix. intro H.
  apply firstn_incl, sortCmp_In in H. eapply entriesFrom_entries; exact H.
Qed.

Lemma advanced_scoreDisease_NoDup symptoms tc m pats prof si
      (ds : list DiseaseData) (acc : list (string * Q)) :
  NoDup (map fst acc) ->
  NoDup (map fst (fold_left (scoreDisease symptoms tc m pats prof si) ds acc)).
Proof.
  revert acc. induction ds as [|d ds IH]; simpl; intros acc ND; [exact ND|].
  apply IH. unfold scoreDisease. cbv zeta.
  destruct (ltb _ 0.3); [exact ND | apply setEntry_NoDup; exact ND].
Qed.

Lemma boost_NoDup (ps : list string) (m : list (string * Q)) :
  NoDup (map fst m) -> NoDup (map fst (fold_left boost ps m)).
Proof.
  revert m. induction ps as [|p ps IH]; simpl; intros m ND; [exact ND|].
  apply IH. unfold boost. apply setEntry_NoDup; exact ND.
Qed.

Lemma advanced_normalizeScores_NoDup (scores : list (string * Q)) :
  NoDup (map fst scores) -> NoDup (map fst (Advanced.normalizeScores scores)).
Proof.
  intro ND. unfold Advanced.normalizeScores.
  destruct scores as [|first others]; [constructor|]. cbv zeta.
  destruct (Qeq_bool _ 0); [exact ND|].
  set (maxScore := maxOf (map snd others) (snd first)).
  clearbody maxScore. clear ND. generalize (first :: others). intro es.
  assert (G : NoDup (map fst (@nil (string * Q)))) by constructor.
  revert G. generalize (@nil (string * Q)).
  induction es as [|e es IH]; simpl; intros acc G; [exact G|].
  apply IH. destruct (_ && _)%bool; apply setEntry_NoDup; exact G.
Qed.

Lemma normalizedScoresOf_NoDup (input : AdvancedSymptomAnalysisInput) :
  NoDup (map fst (normalizedScoresOf input)).
Proof.
  unfold normalizedScoresOf. apply advanced_normalizeScores_NoDup, boost_NoDup.
  unfold diseaseScoresOf. cbv zeta. rewrite advanced_calculateDiseaseScores_loop.
  apply advanced_scoreDisease_NoDup. constructor.
Qed.

Lemma displayScoreOf_monotone (a b : Q) :
  a <= b -> displayScoreOf a <= displayScoreOf b.
Proof.
  intro L. unfold displayScoreOf.
  destruct (ltb a 5) eqn:A5; destruct (ltb 0 a) eqn:A0;
    destruct (ltb b 5) eqn:B5; destruct (ltb 0 b) eqn:B0; cbn [andb];
    repeat match goal with
           | H : ltb _ _ = true |- _ => apply ltb_true in H
           | H : ltb _ _ = false |- _ => apply ltb_false in H
           end; lra.
Qed.

Section Listing.
Variable apiKey : option string.
Variable completion : string -> list string -> list string -> Q -> option string.

(** The loop over [sortedDiseases] appends, entry after entry, what it
    pushes for that entry alone. *)
Lemma pushCondition_loop (symptoms : list string) (entries : list Pair)
      (acc : list ConditionResult) :
  fold_left (pushCondition completion symptoms) entries acc =
  (acc ++ flat_map (pushCondition completion symptoms []) entries)%list.
Proof.
  revert acc. induction entries as [|e entries IH]; intros acc; simpl.
  - rewrite app_nil_r. reflexivity.
  - rewrite IH. unfold pushCondition.
    destruct (find _ DISEASE_DATABASE) as [d|]; cbn [app].
    + rewrite <- app_assoc. reflexivity.
    + reflexivity.
Qed.

(** What is pushed for one entry: nothing, or the condition of a disease
    of the database under the name and the score of the entry. *)
Lemma pushCondition_one (symptoms : list string) (e : Pair) :
  pushCondition completion symptoms [] e = [] \/
  exists c d, pushCondition completion symptoms [] e = [c] /\
              condition c = p_key e /\
              likelihood c = displayScoreOf (p_value e) / 100 /\
              displayLikelihood c = displayLikelihoodOf (displayScoreOf (p_value e)) /\
              In d DISEASE_DATABASE /\ name d = p_key e /\
              c_description c = description d /\
              c_webmd_search_term c = webmd_search_term d /\
              c_cluster c = cluster d.
Proof.
  unfold pushCondition.
  destruct (find _ DISEASE_DATABASE) as [d|] eqn:F; [|left; reflexivity].
  right. eexists. exists d. split; [reflexivity|]. simpl.
  apply find_some in F. destruct F as [Hd E]. apply String.eqb_eq in E.
  repeat split; auto.
Qed.

Lemma pushed_length (symptoms : list string) (entries : list Pair) :
  (length (flat_map (pushCondition completion symptoms []) entries)
   <= length entries)%nat.
Proof.
  induction entries as [|e entries IH]; simpl; [lia|].
  rewrite length_app.
  destruct (pushCondition_one symptoms e) as [-> | (c & d & -> & _)]; simpl; lia.
Qed.

Lemma pushed_from (symptoms : list string) (entries : list Pair) (c : ConditionResult) :
  In c (flat_map (pushCondition completion symptoms []) entries) ->
  exists e, In e entries /\ pushCondition completion symptoms [] e = [c].
Proof.
  intro H. apply in_flat_map in H. destruct H as (e & He & Hc).
  exists e. split; [exact He|].
  destruct (pushCondition_one symptoms e) as [E | (c' & d & E & _)];
    rewrite E in Hc; simpl in Hc; [contradiction|].
  destruct Hc as [<- | []]. exact E.
Qed.

Lemma pushed_NoDup (symptoms : list string) (entries : list Pair) :
  NoDup (map p_key entries) ->
  NoDup (map condition (flat_map (pushCondition completion symptoms []) entries)).
Proof.
  induction entries as [|e entries IH]; simpl; intro ND; [constructor|].
  inversion ND as [|k ks Hk ND']; subst. rewrite map_app.
  destruct (pushCondition_one symptoms e) as [-> | (c & d & -> & Hc & _)]; simpl.
  - apply IH; exact ND'.
  - constructor; [|apply IH; exact ND'].
    intro H. apply in_map_iff in H. destruct H as (c' & E & Hc').
    apply pushed_from in Hc'. destruct Hc' as (e' & He' & P).
    destruct (pushCondition_one symptoms e') as [Z | (c2 & d2 & Z & Hc2 & _)];
      rewrite Z in P; [discriminate P|].
    inversion P; subst c2. apply Hk. rewrite <- Hc, <- E, Hc2.
    apply in_map; exact He'.
Qed.

Lemma pushed_descending (symptoms : list string) (entries : list Pair) :
  descending p_value entries ->
  descending likelihood (flat_map (pushCondition completion symptoms []) entries).
Proof.
  unfold descending.
  induction entries as [|e entries IH]; simpl; intro S; [constructor|].
  inversion S as [|x l Sl Fe]; subst. specialize (IH Sl).
  destruct (pushCondition_one symptoms e) as [-> | (c & d & -> & _ & L & _)]; simpl;
    [exact IH|].
  constructor; [exact IH|].
  apply Forall_forall. intros c' Hc'.
  apply pushed_from in Hc'. destruct Hc' as (e' & He' & P).
  destruct (pushCondition_one symptoms e') as [Z | (c2 & d2 & Z & _ & L2 & _)];
    rewrite Z in P; [discriminate P|].
  inversion P; subst c2. rewrite L, L2.
  rewrite Forall_forall in Fe. specialize (Fe e' He').
  apply displayScoreOf_monotone in Fe.
  apply Qmult_le_compat_r; [exact Fe|]. apply Qlt_le_weak. reflexivity.
Qed.

(** X23: A call that resolves lists at most ten conditions, in descending order
    of likelihood and none of them twice; each is a disease of the
    database, with the description, search term and cluster of that
    disease. *)
Theorem advancedSymptomAnalysis_listing (input : AdvancedSymptomAnalysisInput) :
  let listed := conditionsOf (advancedSymptomAnalysis apiKey completion input) in
  (length listed <= 10)%nat /\
  descending likelihood listed /\
  NoDup (map condition listed) /\
  Forall (fun c => exists d, In d DISEASE_DATABASE /\ name d = condition c /\
                             c_description c = description d /\
                             c_webmd_search_term c = webmd_search_term d /\
                             c_cluster c = cluster d) listed.
Proof.
  cbv zeta. unfold advancedSymptomAnalysis.
  destruct (match apiKey with Some key => String.eqb (trim key) "" | None => true end);
    [simpl; split; [lia | split; [constructor | split; constructor]]|].
  cbv zeta. destruct (Nat.eqb (length (extractSymptomsList (symptoms input))) 0);
    [simpl; split; [lia | split; [constructor | split; constructor]]|].
  cbn [conditionsOf conditions]. rewrite pushCondition_loop. cbn [app].
  split; [|split; [|split]].
  - etransitivity; [apply pushed_length | apply sortedDiseasesOf_length].
  - apply pushed_descending, sortedDiseasesOf_descending.
  - apply pushed_NoDup, sortedDiseasesOf_NoDup, normalizedScoresOf_NoDup.
  - apply Forall_forall. intros c Hc.
    apply pushed_from in Hc. destruct Hc as (e & _ & P).
    destruct (pushCondition_one (extractSymptomsList (symptoms input)) e)
      as [Z | (c2 & d & Z & Hc & _ & _ & Hd & Hn & R)];
      rewrite Z in P; [discriminate P|].
    inversion P; subst c2. exists d. rewrite Hc. tauto.
Qed.
End Listing.
End AdvancedMore.

(** ** The scores of the advanced analysis *)

Section AdvancedScores.
Local Open Scope Q_scope.
Import Js JsNum MedicalData Advanced Notions.

Lemma quotient_nonneg (a b : Q) : 0 <= a -> 0 <= b -> 0 <= a / b.
Proof.
  intros A B. unfold Qdiv. apply Qmult_le_0_compat; [exact A|].
  apply Qinv_le_0_compat; exact B.
Qed.

Lemma half_of_min_nonneg (x : Q) : 0 <= x -> 0 <= mathMin x 2.0 / 2.0.
Proof.
  intro X. apply quotient_nonneg; [|discriminate].
  destruct (mathMin_cases x 2.0) as [[-> _] | [-> _]]; [exact X | discriminate].
Qed.

Lemma getSymptomScore_nonneg (symptom : string) : 0 <= getSymptomScore symptom.
Proof.
  assert (T : forallb (fun kw : string * SymptomWeight =>
                         Qle_bool 0 (severity_weight (snd kw) * specificity_weight (snd kw)))
                      SYMPTOM_WEIGHTS = true) by (vm_compute; reflexivity).
  rewrite forallb_forall in T.
  unfold getSymptomScore. cbv zeta.
  destruct (lookup SYMPTOM_WEIGHTS _) as [w|] eqn:L.
  - apply lookup_In in L. apply T in L. apply Qle_bool_iff in L. exact L.
  - destruct (find _ SYMPTOM_WEIGHTS) as [[k w]|] eqn:F; [|discriminate].
    apply find_some in F. destruct F as [F _].
    apply T in F. apply Qle_bool_iff in F. exact F.
Qed.

Lemma symptomClusterScore_nonneg (disease : DiseaseData) (symptoms : list string) :
  0 <= symptomClusterScore disease symptoms.
Proof.
  unfold symptomClusterScore. cbv zeta.
  destruct (Nat.ltb 0 _); [|apply Qle_refl].
  apply Qmult_le_0_compat.
  - apply quotient_nonneg; [|apply ofNat_nonneg].
    assert (G : forall l acc,
               (forall s, In s l -> 0 < getDiseaseRelevanceFactor (name disease) s) ->
               0 <= acc ->
               0 <= fold_left
                      (fun acc symptom =>
                         acc + getSymptomScore symptom *
                               getDiseaseRelevanceFactor (name disease) symptom) l acc).
    { induction l as [|s l IH]; simpl; intros acc P A; [exact A|].
      apply IH; [intros s' H; apply P; right; exact H|].
      pose proof (getSymptomScore_nonneg s) as S.
      pose proof (P s (or_introl eq_refl)) as R.
      assert (0 <= getSymptomScore s * getDiseaseRelevanceFactor (name disease) s)
        by (apply Qmult_le_0_compat; [exact S | apply Qlt_le_weak; exact R]).
      lra. }
    apply G; [|apply Qle_refl].
    intros s H. unfold matchedSymptomsOf in H. apply filter_In in H.
    apply ltb_true. apply H.
  - apply quotient_nonneg; apply ofNat_nonneg.
Qed.

Lemma overlap_nonneg (conditionSystems : list string)
      (involvedSystems : list MultiSystemReasoning.SystemInvolvement) :
  0 <= MultiSystemReasoning.calculateMultiSystemOverlap conditionSystems involvedSystems.
Proof.
  unfold MultiSystemReasoning.calculateMultiSystemOverlap. cbv zeta.
  apply quotient_nonneg; apply ofNat_nonneg.
Qed.

Lemma temporalScore_nonneg (timeCourse : TimeCourseLogic.TimeCourseData)
      (diseaseName : string) :
  0 <= match TimeCourseLogic.applyTimeCourseLogic timeCourse [diseaseName] with
       | adjustment :: _ => mathMin (TimeCourseLogic.multiplier adjustment) 2.0 / 2.0
       | [] => 1.0
       end.
Proof.
  unfold TimeCourseLogic.applyTimeCourseLogic. cbv zeta. cbn [fold_left].
  match goal with |- context [TimeCourseLogic.adjust ?d ?p ?n] =>
    pose proof (adjust_multiplier d p n) as [P _];
    destruct (TimeCourseLogic.adjust d p n) as [m reasons] end.
  simpl in P. destruct (negb (Qeq_bool m 1.0)); cbn [app]; [|discriminate].
  cbn [TimeCourseLogic.multiplier]. apply half_of_min_nonneg, Qlt_le_weak, P.
Qed.

Lemma demographicScore_floor (disease : DiseaseData) (profile : option Profile) :
  0.3 <= demographicScore disease profile.
Proof.
  unfold demographicScore. destruct profile as [p|]; [|discriminate].
  destruct (String.eqb (age p) ""); [discriminate|]. cbv zeta.
  destruct (_ && _)%bool; [discriminate|].
  destruct (_ && _)%bool; discriminate.
Qed.

(** A disease that passes the threshold gets a positive score. *)
Lemma advanced_scoreDisease_positive symptoms tc m pats prof si
      (ds : list DiseaseData) (acc : list (string * Q)) :
  (forall n, 0 <= PatternDetection.applyPatternMultipliers n pats) ->
  (forall n, 0 <= RedFlagDetection.applyRedFlagMultipliers n m) ->
  Forall (fun e => 0 < snd e) acc ->
  Forall (fun e => 0 < snd e) (fold_left (scoreDisease symptoms tc m pats prof si) ds acc).
Proof.
  intros HP HR. revert acc. induction ds as [|d ds IH]; simpl; intros acc F; [exact F|].
  apply IH. unfold scoreDisease. cbv zeta.
  destruct (ltb _ 0.3); [exact F|].
  apply Forall_forall. intros [k v] H.
  apply setEntry_In in H. destruct H as [[_ ->] | H];
    [|rewrite Forall_forall in F; apply (F _ H)].
  cbn [snd].
  pose proof (symptomClusterScore_nonneg d symptoms) as C.
  pose proof (overlap_nonneg (MultiSystemReasoning.getConditionSystems (name d)) si) as O.
  pose proof (temporalScore_nonneg tc (name d)) as T.
  pose proof (half_of_min_nonneg _ (HP (name d))) as P.
  pose proof (half_of_min_nonneg _ (HR (name d))) as R.
  pose proof (demographicScore_floor d prof) as G.
  revert C O T P R G.
  generalize (symptomClusterScore d symptoms).
  generalize (MultiSystemReasoning.calculateMultiSystemOverlap
                (MultiSystemReasoning.getConditionSystems (name d)) si).
  generalize (match TimeCourseLogic.applyTimeCourseLogic tc [name d] with
              | adjustment :: _ => mathMin (TimeCourseLogic.multiplier adjustment) 2.0 / 2.0
              | [] => 1.0
              end).
  generalize (mathMin (PatternDetection.applyPatternMultipliers (name d) pats) 2.0 / 2.0).
  generalize (mathMin (RedFlagDetection.applyRedFlagMultipliers (name d) m) 2.0 / 2.0).
  generalize (demographicScore d prof).
  intros g r p t o c C O T P R G.
  destruct (_ && _)%bool; lra.
Qed.

Lemma diseaseScoresOf_positive (input : AdvancedSymptomAnalysisInput) :
  Forall (fun e => 0 < snd e) (diseaseScoresOf input).
Proof.
  unfold diseaseScoresOf. cbv zeta. rewrite advanced_calculateDiseaseScores_loop.
  apply advanced_scoreDisease_positive; [| |constructor]; intro n.
  - apply Qle_trans with 1; [discriminate|].
    apply applyPatternMultipliers_at_least_one.
    eapply Forall_impl; [|apply detectPatterns_multipliers].
    intros p (_ & L & _). exact L.
  - apply Qle_trans with 1; [discriminate|].
    apply applyRedFlagMultipliers_raise, detectRedFlags_raise.
Qed.
End AdvancedScores.

(** ** The priority boost and the likelihoods shown *)

Section BoostMore.
Local Open Scope Q_scope.
Import Js JsNum MedicalData Advanced Notions.

Lemma boost_lookup (m : list (string * Q)) (p k : string) :
  lookup (boost m p) k =
  if String.eqb p k
  then Some (match lookup m p with
             | Some score => if nonzero score then score else 0
             | None => 0
             end * 1.3)
  else lookup m k.
Proof.
  unfold boost. cbv zeta. destruct (String.eqb p k) eqn:E.
  - apply String.eqb_eq in E. subst k. apply lookup_setEntry.
  - apply String.eqb_neq in E. apply lookup_setEntry_other. congruence.
Qed.

Lemma power_succ (n : nat) : 1.3 ^ Z.of_nat (S n) == 1.3 * 1.3 ^ Z.of_nat n.
Proof.
  rewrite Nat2Z.inj_succ. unfold Z.succ.
  rewrite Qpower_plus by discriminate. simpl. ring.
Qed.

Lemma truthy_value (v : Q) : (if nonzero v then v else 0) == v.
Proof.
  unfold nonzero. destruct (Qeq_bool v 0) eqn:E; simpl; [|reflexivity].
  apply Qeq_bool_iff in E. symmetry. exact E.
Qed.

Lemma boost_loop (priorityConditions : list string) (diseaseScores : list (string * Q))
      (k : string) :
  match lookup diseaseScores k with
  | Some v =>
      exists v', lookup (fold_left boost priorityConditions diseaseScores) k = Some v' /\
                 v' == v * 1.3 ^ Z.of_nat (count_occ string_dec priorityConditions k)
  | None =>
      if existsb (String.eqb k) priorityConditions
      then exists v', lookup (fold_left boost priorityConditions diseaseScores) k = Some v' /\
                      v' == 0
      else lookup (fold_left boost priorityConditions diseaseScores) k = None
  end.
Proof.
  revert diseaseScores.
  induction priorityConditions as [|p ps IH]; intros m; cbn [fold_left].
  - destruct (lookup m k) as [v|]; [|reflexivity].
    exists v. split; [reflexivity|]. simpl. ring.
  - specialize (IH (boost m p)). rewrite boost_lookup in IH.
    cbn [existsb count_occ]. rewrite (String.eqb_sym k p).
    destruct (String.eqb p k) eqn:E.
    + apply String.eqb_eq in E. subst p.
      destruct IH as (v' & L & V). destruct (string_dec k k) as [_|N]; [|congruence].
      destruct (lookup m k) as [v|]; cbn [orb]; exists v'; (split; [exact L|]).
      * rewrite V, power_succ, truthy_value. ring.
      * rewrite V. ring.
    + apply String.eqb_neq in E. destruct (string_dec p k) as [N|_]; [congruence|].
      cbn [orb]. exact IH.
Qed.

(** X24: The loop that boosts the priority conditions: a condition that has a
    score and is named n times ends with 1.3^n times that score; a
    condition that has no score ends with the score 0 when it is named,
    and stays without a score when it is not. *)
Theorem priority_boost_compounds (priorityConditions : list string)
        (diseaseScores : list (string * Q)) (conditionName : string) :
  match lookup diseaseScores conditionName with
  | Some v =>
      exists v',
        lookup (fold_left boost priorityConditions diseaseScores) conditionName = Some v' /\
        v' == v * 1.3 ^ Z.of_nat (count_occ string_dec priorityConditions conditionName)
  | None =>
      if existsb (String.eqb conditionName) priorityConditions
      then exists v',
          lookup (fold_left boost priorityConditions diseaseScores) conditionName = Some v' /\
          v' == 0
      else lookup (fold_left boost priorityConditions diseaseScores) conditionName = None
  end.
Proof.
  apply boost_loop.
Qed.
End BoostMore.

Section LikelihoodMore.
Local Open Scope Q_scope.
Import Js JsNum MedicalData Advanced Notions.

Lemma advanced_scoreDisease_keys_kept symptoms tc m pats prof si
      (ds : list DiseaseData) (acc : list (string * Q)) (k : string) :
  In k (map fst acc) ->
  In k (map fst (fold_left (scoreDisease symptoms tc m pats prof si) ds acc)).
Proof.
  revert acc. induction ds as [|d ds IH]; simpl; intros acc H; [exact H|].
  apply IH. unfold scoreDisease. cbv zeta.
  destruct (ltb _ 0.3); [exact H | apply setEntry_keys_incl; exact H].
Qed.

Lemma advanced_scoreDisease_enters symptoms tc m pats prof si
      (ds : list DiseaseData) (acc : list (string * Q)) (d : DiseaseData) :
  In d ds -> ltb (matchRatio d symptoms) 0.3 = false ->
  In (name d) (map fst (fold_left (scoreDisease symptoms tc m pats prof si) ds acc)).
Proof.
  revert acc. induction ds as [|d0 ds IH]; simpl; intros acc Hd G; [contradiction|].
  destruct Hd as [-> | Hd]; [|apply IH; assumption].
  apply advanced_scoreDisease_keys_kept. unfold scoreDisease. cbv zeta.
  rewrite G. apply setEntry_key_In.
Qed.

Lemma same_name (d d' : DiseaseData) :
  In d DISEASE_DATABASE -> In d' DISEASE_DATABASE -> name d' = name d -> d' = d.
Proof.
  intros Hd Hd' E.
  pose proof (find_by_name _ _ DISEASE_DATABASE_names Hd) as F.
  pose proof (find_by_name _ _ DISEASE_DATABASE_names Hd') as F'.
  rewrite E in F'. congruence.
Qed.

Lemma diseaseScoresOf_loop (input : AdvancedSymptomAnalysisInput) :
  diseaseScoresOf input =
  fold_left
    (scoreDisease (extractSymptomsList (symptoms input))
       (TimeCourseLogic.extractTimeCourseData (symptoms input) [questionnaireAnswers input])
       (RedFlagDetection.multipliers
          (RedFlagDetection.detectRedFlags (symptoms input) [questionnaireAnswers input]))
       (PatternDetection.detectPatterns (symptoms input) [questionnaireAnswers input])
       (profile input)
       (MultiSystemReasoning.analyzeSystemInvolvement (extractSymptomsList (symptoms input))))
    DISEASE_DATABASE [].
Proof.
  reflexivity.
Qed.

Lemma diseaseScoresOf_NoDup (input : AdvancedSymptomAnalysisInput) :
  NoDup (map fst (diseaseScoresOf input)).
Proof.
  rewrite diseaseScoresOf_loop. apply advanced_scoreDisease_NoDup. constructor.
Qed.

(** Which diseases of the database have a score before the boost. *)
Lemma diseaseScoresOf_scored (input : AdvancedSymptomAnalysisInput) (d : DiseaseData) :
  In d DISEASE_DATABASE ->
  if ltb (matchRatio d (extractSymptomsList (symptoms input))) 0.3
  then lookup (diseaseScoresOf input) (name d) = None
  else exists v, lookup (diseaseScoresOf input) (name d) = Some v /\ 0 < v.
Proof.
  intro Hd.
  pose proof (diseaseScoresOf_positive input) as Pos. rewrite Forall_forall in Pos.
  destruct (ltb (matchRatio d _) 0.3) eqn:R.
  - destruct (lookup (diseaseScoresOf input) (name d)) as [v|] eqn:L; [|reflexivity].
    apply lookup_In in L. rewrite diseaseScoresOf_loop in L.
    apply advanced_scoreDisease_guard in L.
    destruct L as [[] | (d' & Hd' & E & G)].
    rewrite (same_name d d' Hd Hd' E) in G.
    apply ltb_false in G. congruence.
  - destruct (lookup_In_keys _ (diseaseScoresOf input) (name d)) as (v & L & Hin).
    { rewrite diseaseScoresOf_loop. apply advanced_scoreDisease_enters; assumption. }
    exists v. split; [exact L | apply (Pos _ Hin)].
Qed.

Lemma boosted_values (input : AdvancedSymptomAnalysisInput) (d : DiseaseData) (v : Q) :
  In d DISEASE_DATABASE ->
  lookup (fold_left boost (priorityConditionsOf input) (diseaseScoresOf input)) (name d)
  = Some v ->
  if ltb (matchRatio d (extractSymptomsList (symptoms input))) 0.3
  then v == 0 /\ In (name d) (priorityConditionsOf input)
  else 0 < v.
Proof.
  intros Hd L.
  pose proof (diseaseScoresOf_scored input d Hd) as S.
  pose proof (boost_loop (priorityConditionsOf input) (diseaseScoresOf input) (name d)) as B.
  destruct (ltb (matchRatio d _) 0.3).
  - rewrite S in B.
    destruct (existsb _ (priorityConditionsOf input)) eqn:E.
    + destruct B as (v' & L' & Z). rewrite L in L'. inversion L'; subst v'.
      split; [exact Z | apply existsb_eqb_In; exact E].
    + congruence.
  - destruct S as (v0 & L0 & P0). rewrite L0 in B.
    destruct B as (v' & L' & V). rewrite L in L'. inversion L'; subst v'.
    rewrite V. apply Qmult_lt_0_compat; [exact P0|].
    apply Qpower_0_lt. reflexivity.
Qed.

Lemma boosted_nonneg (input : AdvancedSymptomAnalysisInput) :
  Forall (fun e => 0 <= snd e)
         (fold_left boost (priorityConditionsOf input) (diseaseScoresOf input)).
Proof.
  pose proof (diseaseScoresOf_positive input) as Pos.
  assert (N : Forall (fun e : string * Q => 0 <= snd e) (diseaseScoresOf input)).
  { eapply Forall_impl; [|exact Pos]. intros e H. apply Qlt_le_weak; exact H. }
  clear Pos. revert N. generalize (diseaseScoresOf input).
  induction (priorityConditionsOf input) as [|p ps IH]; intros m N; simpl; [exact N|].
  apply IH. unfold boost. cbv zeta.
  apply Forall_forall. intros [k w] H. apply setEntry_In in H.
  destruct H as [[_ ->] | H]; [|rewrite Forall_forall in N; apply (N _ H)].
  cbn [snd]. destruct (lookup m p) as [s|] eqn:L; [|discriminate].
  apply lookup_In in L. rewrite Forall_forall in N. specialize (N _ L). simpl in N.
  destruct (nonzero s); [|discriminate].
  apply Qmult_le_0_compat; [exact N | discriminate].
Qed.

Lemma normalize_loop_In (maxScore : Q) (scores acc : list (string * Q))
      (k : string) (w : Q) :
  In (k, w)
     (fold_left
        (fun normalized (e : string * Q) =>
           let score := snd e in
           let normalizedScore := (score / maxScore) * 100 in
           if (ltb 0 score && ltb normalizedScore 5)%bool
           then setEntry normalized (fst e) 5
           else setEntry normalized (fst e) normalizedScore)
        scores acc) ->
  In (k, w) acc \/
  exists v, In (k, v) scores /\
            w = if (ltb 0 v && ltb (v / maxScore * 100) 5)%bool
                then 5 else v / maxScore * 100.
Proof.
  revert acc. induction scores as [|[k0 v0] scores IH]; intros acc H; simpl in H.
  - left; exact H.
  - apply IH in H. destruct H as [H | (v & Hv & E)].
    + assert (S : (k = k0 /\ w = if (ltb 0 v0 && ltb (v0 / maxScore * 100) 5)%bool
                                 then 5 else v0 / maxScore * 100) \/ In (k, w) acc).
      { destruct (_ && _)%bool; apply setEntry_In in H; exact H. }
      destruct S as [[-> ->] | S]; [|left; exact S].
      right. exists v0. split; [left; reflexivity | reflexivity].
    + right. exists v. split; [right; exact Hv | exact E].
Qed.

(** Normalisation keeps a zero at zero and brings every positive score
    into the range from 5 to 100. *)
Lemma advanced_normalizeScores_values (scores : list (string * Q)) (k : string) (w : Q) :
  Forall (fun e => 0 <= snd e) scores ->
  In (k, w) (Advanced.normalizeScores scores) ->
  exists v, In (k, v) scores /\
            ((v == 0 /\ w == 0) \/ (0 < v /\ 5 <= w /\ w <= 100)).
Proof.
  intros N H. unfold Advanced.normalizeScores in H.
  destruct scores as [|first others]; [contradiction|]. cbv zeta in H.
  set (maxScore := maxOf (map snd others) (snd first)) in *.
  assert (Top : forall k v, In (k, v) (first :: others) -> v <= maxScore).
  { intros k' v' [E | Hin];
      [change v' with (snd (k', v')); rewrite <- E; apply maxOf_ge_last|].
    apply maxOf_ge_elem. apply (in_map snd) in Hin. exact Hin. }
  rewrite Forall_forall in N.
  destruct (Qeq_bool maxScore 0) eqn:Z.
  - apply Qeq_bool_iff in Z. exists w. split; [exact H|]. left.
    pose proof (N _ H) as P. pose proof (Top _ _ H) as T. simpl in P.
    assert (w == 0) by lra. tauto.
  - apply Qeq_bool_neq in Z.
    assert (Pm : 0 < maxScore).
    { pose proof (N first (or_introl eq_refl)) as P.
      pose proof (maxOf_ge_last (map snd others) (snd first)) as T.
      fold maxScore in T. destruct (Qlt_le_dec 0 maxScore) as [G | G]; [exact G|].
      exfalso. apply Z. lra. }
    apply normalize_loop_In in H. destruct H as [[] | (v & Hv & ->)].
    exists v. split; [exact Hv|].
    pose proof (N _ Hv) as P. pose proof (Top _ _ Hv) as T. simpl in P.
    assert (Up : v / maxScore * 100 <= 100).
    { assert (v / maxScore <= 1)
        by (apply Qle_shift_div_r; [exact Pm | lra]). lra. }
    destruct (ltb 0 v) eqn:V; cbn [andb].
    + apply ltb_true in V. right. split; [exact V|].
      destruct (ltb (v / maxScore * 100) 5) eqn:F.
      * split; [apply Qle_refl | discriminate].
      * apply ltb_false in F. split; [exact F | exact Up].
    + apply ltb_false in V. left. assert (V0 : v == 0) by lra.
      split; [exact V0|]. rewrite V0. unfold Qdiv. ring.
Qed.

Section Shown.
Variable apiKey : option string.
Variable completion : string -> list string -> list string -> Q -> option string.

(** X25: The likelihood of a listed condition: between 0.05 and 1 when its
    disease matches at least 30% of the symptoms; otherwise the condition
    is a priority condition and its likelihood is 0. *)
Theorem advancedSymptomAnalysis_likelihood (input : AdvancedSymptomAnalysisInput) :
  Forall (fun c =>
            exists d, In d DISEASE_DATABASE /\ name d = condition c /\
                      if ltb (matchRatio d (extractSymptomsList (symptoms input))) 0.3
                      then likelihood c == 0 /\
                           In (condition c) (priorityConditionsOf input)
                      else 0.05 <= likelihood c /\ likelihood c <= 1)
         (conditionsOf (advancedSymptomAnalysis apiKey completion input)).
Proof.
  unfold advancedSymptomAnalysis.
  destruct (match apiKey with Some key => String.eqb (trim key) "" | None => true end);
    [constructor|].
  cbv zeta. destruct (Nat.eqb (length (extractSymptomsList (symptoms input))) 0);
    [constructor|].
  cbn [conditionsOf conditions]. rewrite pushCondition_loop. cbn [app].
  apply Forall_forall. intros c Hc.
  apply pushed_from in Hc. destruct Hc as (e & He & P).
  destruct (pushCondition_one completion (extractSymptomsList (symptoms input)) e)
    as [Z | (c2 & d & Z & Hc & Lk & _ & Hd & Hn & _)];
    rewrite Z in P; [discriminate P|].
  inversion P; subst c2. exists d. rewrite Hc.
  split; [exact Hd|]. split; [exact Hn|].
  apply sortedDiseasesOf_entries in He. unfold normalizedScoresOf in He.
  apply advanced_normalizeScores_values in He; [|apply boosted_nonneg].
  destruct He as (v & Hv & Cases).
  assert (L : lookup (fold_left boost (priorityConditionsOf input) (diseaseScoresOf input))
                     (name d) = Some v).
  { rewrite Hn. apply In_lookup; [|exact Hv].
    apply boost_NoDup, diseaseScoresOf_NoDup. }
  pose proof (boosted_values input d v Hd L) as B.
  rewrite Lk. unfold displayScoreOf.
  destruct (ltb (matchRatio d _) 0.3).
  - destruct B as [V0 Pr]. rewrite <- Hn. split; [|exact Pr].
    destruct Cases as [[_ W0] | [Vp _]]; [|lra].
    assert (F : ltb 0 (p_value e) = false) by (apply ltb_false; lra).
    rewrite F, andb_false_r. rewrite W0. reflexivity.
  - destruct Cases as [[V0 _] | (_ & Lo & Hi)]; [lra|].
    assert (F : ltb (p_value e) 5 = false) by (apply ltb_false; exact Lo).
    rewrite F. cbn [andb]. split.
    + apply Qle_shift_div_l; [reflexivity | lra].
    + apply Qle_shift_div_r; [reflexivity | lra].
Qed.
End Shown.
End LikelihoodMore.

(** ** The two lookups, further *)

Section LookupMore.
Local Open Scope Q_scope.
Import Js JsNum MedicalData Notions.

Lemma lowerChar_idempotent (c : ascii) : lowerChar (lowerChar c) = lowerChar c.
Proof.
  destruct c as [[] [] [] [] [] [] [] []]; reflexivity.
Qed.

Lemma isSpace_lowerChar (c : ascii) : isSpace (lowerChar c) = isSpace c.
Proof.
  destruct c as [[] [] [] [] [] [] [] []]; reflexivity.
Qed.

Lemma toLowerCase_idempotent (s : string) : toLowerCase (toLowerCase s) = toLowerCase s.
Proof.
  induction s as [|c s IH]; simpl; [reflexivity|].
  rewrite lowerChar_idempotent, IH. reflexivity.
Qed.

Lemma toLowerCase_trimStart (s : string) :
  toLowerCase (trimStart s) = trimStart (toLowerCase s).
Proof.
  induction s as [|c s IH]; simpl; [reflexivity|].
  rewrite isSpace_lowerChar. destruct (isSpace c); [exact IH | reflexivity].
Qed.

Lemma toLowerCase_trimEnd (s : string) :
  toLowerCase (trimEnd s) = trimEnd (toLowerCase s).
Proof.
  induction s as [|c s IH]; simpl; [reflexivity|].
  rewrite <- IH, isSpace_lowerChar.
  destruct (trimEnd s) as [|c' t]; simpl; [|reflexivity].
  destruct (isSpace c); reflexivity.
Qed.

Lemma toLowerCase_trim (s : string) : toLowerCase (trim s) = trim (toLowerCase s).
Proof.
  unfold trim. rewrite toLowerCase_trimEnd, toLowerCase_trimStart. reflexivity.
Qed.

(** The key a symptom is looked up under is the same for the symptom in
    any letter case and with any white space around it. *)
Lemma normalized_key (s : string) :
  trim (toLowerCase (toLowerCase s)) = trim (toLowerCase s) /\
  trim (toLowerCase (trim s)) = trim (toLowerCase s).
Proof.
  split.
  - rewrite toLowerCase_idempotent. reflexivity.
  - rewrite toLowerCase_trim. apply trim_idempotent.
Qed.

(** X26: Letter case and surrounding white space make no difference to the
    score of a symptom nor to its relevance for a disease, on the server
    side and on the client side alike. *)
Theorem lookups_ignore_case_and_margin
        (W : list (string * SymptomWeight)) (disease : DiseaseData)
        (diseaseName symptom : string) :
  let same (f : string -> Q) :=
    f (toLowerCase symptom) = f symptom /\ f (trim symptom) = f symptom in
  same getSymptomScore /\
  same (getDiseaseRelevanceFactor diseaseName) /\
  same (Scoring.getSymptomScore W) /\
  same (Scoring.getDiseaseRelevance disease).
Proof.
  destruct (normalized_key symptom) as [L T]. cbv zeta.
  unfold getSymptomScore, getDiseaseRelevanceFactor, Scoring.getSymptomScore,
         Scoring.getDiseaseRelevance. cbv zeta.
  rewrite L, T. repeat split.
Qed.


End LookupMore.
